(** * Solar Cube integration: a shallow embedding of [api.py] and [__init__.py]

    The development models
    - the reshaping of InfluxDB rows into per-timestamp records
      ([SolarCubeApi.async_get_forecast], [SolarCubeApi.async_get_optimal_actions]);
    - the error mapping of the query operations and the Flux string literal
      ([_flux_str_literal], [_bucket_literal]);
    - the one-shot provisioning routines ([_async_ensure_automations],
      [_async_configure_energy_dashboard], [_async_ensure_storage_dashboards]).

    Python dictionaries are association lists in insertion order; [d[k] = v]
    replaces the value of an existing key in place and appends a new key at
    the end. *)

From Stdlib Require Import String Ascii List Bool ZArith QArith Lia.
From Stdlib Require Import Sorting.Permutation Sorting.Sorted.
Import ListNotations.
Open Scope string_scope.

(** ** Python dictionaries with string keys *)

Module PyDict.

Definition dict (A : Type) := list (string * A).

(** [d.get(k)] *)
Fixpoint get {A} (k : string) (d : dict A) : option A :=
  match d with
  | [] => None
  | (k', v) :: d' => if String.eqb k k' then Some v else get k d'
  end.

(** [k in d] *)
Definition mem {A} (k : string) (d : dict A) : bool :=
  existsb (String.eqb k) (map fst d).

(** [d[k] = v]: an existing key keeps its position, a new one goes last. *)
Fixpoint set {A} (k : string) (v : A) (d : dict A) : dict A :=
  match d with
  | [] => [(k, v)]
  | (k', v') :: d' => if String.eqb k k' then (k, v) :: d' else (k', v') :: set k v d'
  end.

(** [d[k] = f(d[k])] for a key known to be present *)
Fixpoint update {A} (k : string) (f : A -> A) (d : dict A) : dict A :=
  match d with
  | [] => []
  | (k', v') :: d' => if String.eqb k k' then (k', f v') :: d' else (k', v') :: update k f d'
  end.

(** [{k0: v0, **d}]: the literal's first key, then every entry of [d] in order. *)
Definition splat {A} (k0 : string) (v0 : A) (d : dict A) : dict A :=
  fold_left (fun acc kv => set (fst kv) (snd kv) acc) d [(k0, v0)].

End PyDict.

(** ** Python string ordering (code point by code point), used by [sorted] *)

Module StrOrder.

Definition lt (s t : string) : Prop := String.compare s t = Lt.

(** [sorted(d.items())] on a dict: the keys are distinct, so the pairs are
    ordered by their keys alone. *)
Fixpoint insert_by_key {A} (kv : string * A) (l : list (string * A)) : list (string * A) :=
  match l with
  | [] => [kv]
  | kv' :: l' =>
      if String.leb (fst kv) (fst kv') then kv :: kv' :: l' else kv' :: insert_by_key kv l'
  end.

Fixpoint sort_items {A} (l : list (string * A)) : list (string * A) :=
  match l with
  | [] => []
  | kv :: l' => insert_by_key kv (sort_items l')
  end.

End StrOrder.

(** ** The host runtime used by the reshaping code

    [datetime.fromisoformat], [dt_util.get_time_zone],
    [datetime.astimezone(tz).isoformat()] and [round(x, 3)] on floats are
    library functions; they are left abstract. [fromisoformat] answers
    [None] where Python raises [ValueError]. *)

Class PyTimeLib := {
  Datetime : Type;
  TZ : Type;
  fromisoformat : string -> option Datetime;
  get_time_zone : string -> option TZ;
  astimezone_isoformat : option TZ -> Datetime -> string;
  Float : Type;
  round_float3 : Float -> Float
}.

Module Reshape.
Section Defs.
Context `{PyTimeLib}.

(** [record.get_time()]: a [datetime] or its ISO string *)
Inductive RecordTime :=
| TimeDatetime (d : Datetime)
| TimeString (s : string).

(** [record.get_value()] *)
Inductive FluxValue :=
| VNone
| VBool (b : bool)
| VInt (z : Z)
| VFloat (f : Float)
| VStr (s : string).

(** a row of a [FluxTable] *)
Record FluxRecord := mkRecord {
  rec_time : RecordTime;
  rec_field : string;
  rec_value : FluxValue
}.

(** [result]: a list of tables, each a list of records *)
Definition QueryResult := list (list FluxRecord).

(** the rows in the order of [for table in result: for record in table.records] *)
Definition rows (result : QueryResult) : list FluxRecord := concat result.

(** [if isinstance(record_time, str): record_time = datetime.fromisoformat(record_time)];
    [local_time = record_time.astimezone(tz)]; [hour_key = local_time.isoformat()] *)
Definition hour_key_of (tz : option TZ) (r : FluxRecord) : option string :=
  match rec_time r with
  | TimeDatetime d => Some (astimezone_isoformat tz d)
  | TimeString s =>
      match fromisoformat s with
      | Some d => Some (astimezone_isoformat tz d)
      | None => None
      end
  end.

(** [if isinstance(value, (float, int)): value = round(value, 3)];
    [bool] is a subclass of [int] and [round(True, 3) == 1] is an [int]. *)
Definition round_value (v : FluxValue) : FluxValue :=
  match v with
  | VBool b => VInt (Z.b2z b)
  | VInt z => VInt z
  | VFloat f => VFloat (round_float3 f)
  | v => v
  end.

(** *** [async_get_forecast], after the query *)

Definition forecast_init : PyDict.dict FluxValue :=
  [("ctr", VNone); ("ts", VNone); ("cf", VNone); ("pf", VNone);
   ("sf", VNone); ("bp", VNone); ("sp", VNone)].

(** the [if/elif] chain on [field] *)
Definition forecast_slot (field : string) : option string :=
  if String.eqb field "cs/schedule/controller" then Some "ctr"
  else if String.eqb field "cs/schedule/target_soc" then Some "ts"
  else if String.eqb field "cs/forecasts/consumption_forecast_kwh" then Some "cf"
  else if String.eqb field "cs/forecasts/production_forecast_kwh" then Some "pf"
  else if String.eqb field "cs/forecasts/soc_forecast" then Some "sf"
  else if String.eqb field "cs/prices/buy_total_price_per_kwh" then Some "bp"
  else if String.eqb field "cs/prices/sell_price_per_kwh" then Some "sp"
  else None.

Definition Acc := PyDict.dict (PyDict.dict FluxValue).

(** one iteration of the inner loop; [None] is the [ValueError] of
    [fromisoformat] *)
Definition forecast_step (tz : option TZ) (acc : Acc) (r : FluxRecord) : option Acc :=
  match hour_key_of tz r with
  | None => None
  | Some hour_key =>
      let acc1 := if PyDict.mem hour_key acc then acc
                  else PyDict.set hour_key forecast_init acc in
      let value := round_value (rec_value r) in
      match forecast_slot (rec_field r) with
      | Some k => Some (PyDict.update hour_key (PyDict.set k value) acc1)
      | None => Some acc1
      end
  end.

Fixpoint fold_rows {S} (step : S -> FluxRecord -> option S) (s : S) (rs : list FluxRecord)
  : option S :=
  match rs with
  | [] => Some s
  | r :: rs' =>
      match step s r with
      | Some s' => fold_rows step s' rs'
      | None => None
      end
  end.

(** [[{"dt": hour_key, **data} for hour_key, data in sorted(acc.items())]] *)
Definition emit (acc : Acc) : list (PyDict.dict FluxValue) :=
  map (fun kv => PyDict.splat "dt" (VStr (fst kv)) (snd kv)) (StrOrder.sort_items acc).

Definition async_get_forecast_reshape (hass_timezone : string) (result : QueryResult)
  : option (list (PyDict.dict FluxValue)) :=
  let tz := get_time_zone hass_timezone in
  match fold_rows (forecast_step tz) [] (rows result) with
  | Some acc => Some (emit acc)
  | None => None
  end.

(** *** [async_get_optimal_actions], after the query *)

Definition actions_init : PyDict.dict FluxValue :=
  [("bc", VNone); ("bg", VNone); ("gb", VNone); ("gc", VNone);
   ("pb", VNone); ("pc", VNone); ("pg", VNone)].

(** [field.split("/")[-1]] *)
Fixpoint last_segment_aux (cur : string) (s : string) : string :=
  match s with
  | EmptyString => cur
  | String c s' =>
      if Ascii.eqb c "/"%char then last_segment_aux EmptyString s'
      else last_segment_aux (cur ++ String c EmptyString) s'
  end.

Definition last_segment (field : string) : string := last_segment_aux EmptyString field.

Definition actions_step (tz : option TZ) (acc : Acc) (r : FluxRecord) : option Acc :=
  match hour_key_of tz r with
  | None => None
  | Some hour_key =>
      let acc1 := if PyDict.mem hour_key acc then acc
                  else PyDict.set hour_key actions_init acc in
      let value := round_value (rec_value r) in
      let short_key := last_segment (rec_field r) in
      Some (PyDict.update hour_key (PyDict.set short_key value) acc1)
  end.

Definition async_get_optimal_actions_reshape (hass_timezone : string) (result : QueryResult)
  : option (list (PyDict.dict FluxValue)) :=
  let tz := get_time_zone hass_timezone in
  match fold_rows (actions_step tz) [] (rows result) with
  | Some acc => Some (emit acc)
  | None => None
  end.

(** the fields the two Flux queries ask for *)
Definition forecast_fields : list string :=
  ["cs/prices/buy_total_price_per_kwh"; "cs/forecasts/consumption_forecast_kwh";
   "cs/forecasts/production_forecast_kwh"; "cs/forecasts/soc_forecast";
   "cs/schedule/controller"; "cs/schedule/target_soc"; "cs/prices/sell_price_per_kwh"].

Definition actions_fields : list string :=
  ["cs/opt_actions/bc"; "cs/opt_actions/bg"; "cs/opt_actions/gb"; "cs/opt_actions/gc";
   "cs/opt_actions/pb"; "cs/opt_actions/pc"; "cs/opt_actions/pg"].

(** the [dt] entry of an output record *)
Definition record_dt (rec : PyDict.dict FluxValue) : option string :=
  match PyDict.get "dt" rec with Some (VStr s) => Some s | _ => None end.

(** the shape of a reshaped result for the rows' local timestamps [keys]:
    one record per distinct timestamp, in ascending [dt] order, each record
    holding [dt] and the short keys of [init] *)
Definition reshaped (init : PyDict.dict FluxValue) (keys : list string)
  (out : list (PyDict.dict FluxValue)) : Prop :=
  length out = length (nodup string_dec keys) /\
  exists dts,
    map record_dt out = map Some dts /\
    StronglySorted StrOrder.lt dts /\
    (forall k, In k dts <-> In k keys) /\
    (forall rec, In rec out -> map fst rec = "dt" :: map fst init).

End Defs.
End Reshape.

(** ** [_flux_str_literal] and [_bucket_literal]

    A Python [str] is a sequence of code points, [list Z] here.
    [json.dumps(value)] on a [str], with the default [ensure_ascii=True],
    is CPython's [ascii_escape_unicode]: printable ASCII other than [\] and
    ["] is copied, [\b \f \n \r \t] and [\ "] get their short escapes, every
    other code point is [\uXXXX] (lowercase hex), above U+FFFF as a UTF-16
    surrogate pair. *)

Module FluxLiteral.
Local Open Scope Z_scope.
Local Open Scope list_scope.

Definition pystr := list Z.

(** the code points of an ASCII [string] literal *)
Definition pystr_of_string (s : string) : pystr :=
  map (fun a => Z.of_N (N_of_ascii a)) (list_ascii_of_string s).

Definition Py_hexdigit (d : Z) : Z := if d <? 10 then 48 + d else 87 + d.

(** ['u'] and four hex digits of [c] *)
Definition u_escape (c : Z) : pystr :=
  [92; 117;
   Py_hexdigit (Z.land (Z.shiftr c 12) 15); Py_hexdigit (Z.land (Z.shiftr c 8) 15);
   Py_hexdigit (Z.land (Z.shiftr c 4) 15); Py_hexdigit (Z.land c 15)].

Definition Py_UNICODE_HIGH_SURROGATE (c : Z) : Z := 55296 - Z.shiftr 65536 10 + Z.shiftr c 10.
Definition Py_UNICODE_LOW_SURROGATE (c : Z) : Z := 56320 + Z.land c 1023.

(** [S_CHAR(c)]: copied as is *)
Definition S_CHAR (c : Z) : bool := (32 <=? c) && (c <=? 126) && negb (c =? 92) && negb (c =? 34).

(** [ascii_escape_unichar] *)
Definition ascii_escape_unichar (c : Z) : pystr :=
  if c =? 92 then [92; 92]
  else if c =? 34 then [92; 34]
  else if c =? 8 then [92; 98]
  else if c =? 12 then [92; 102]
  else if c =? 10 then [92; 110]
  else if c =? 13 then [92; 114]
  else if c =? 9 then [92; 116]
  else if 65536 <=? c then u_escape (Py_UNICODE_HIGH_SURROGATE c) ++ u_escape (Py_UNICODE_LOW_SURROGATE c)
  else u_escape c.

Definition encode_char (c : Z) : pystr := if S_CHAR c then [c] else ascii_escape_unichar c.

(** [json.dumps(value)] for a [str] *)
Definition json_dumps_str (s : pystr) : pystr := [34] ++ concat (map encode_char s) ++ [34].

(** [str.isspace()] *)
Definition py_isspace (c : Z) : bool :=
  ((9 <=? c) && (c <=? 13)) || ((28 <=? c) && (c <=? 32)) || (c =? 133) || (c =? 160)
  || (c =? 5760) || ((8192 <=? c) && (c <=? 8202)) || (c =? 8232) || (c =? 8233)
  || (c =? 8239) || (c =? 8287) || (c =? 12288).

Fixpoint lstrip (s : pystr) : pystr :=
  match s with
  | c :: s' => if py_isspace c then lstrip s' else s
  | [] => []
  end.

(** [str.strip()] *)
Definition strip (s : pystr) : pystr := rev (lstrip (rev (lstrip s))).

(** [_flux_str_literal(value)] *)
Definition _flux_str_literal (value : pystr) : pystr := json_dumps_str value.

(** [_bucket_literal(bucket)]; [None] stands for a [None] bucket. *)
Definition _bucket_literal (bucket : option pystr) : pystr :=
  _flux_str_literal (strip (match bucket with Some b => b | None => [] end)).

(** *** JSON decoding of a string literal (the property's reference)

    CPython's [scanstring] in strict mode: a control character is an error,
    [\uXXXX] takes hex digits in either case, and a high surrogate escape
    directly followed by a low surrogate escape is joined into one code
    point. *)

Definition hex_value (c : Z) : option Z :=
  if (48 <=? c) && (c <=? 57) then Some (c - 48)
  else if (97 <=? c) && (c <=? 102) then Some (c - 87)
  else if (65 <=? c) && (c <=? 70) then Some (c - 55)
  else None.

Definition hex4_value (a b c d : Z) : option Z :=
  match hex_value a, hex_value b, hex_value c, hex_value d with
  | Some x1, Some x2, Some x3, Some x4 => Some (((x1 * 16 + x2) * 16 + x3) * 16 + x4)
  | _, _, _, _ => None
  end.

Definition is_high_surrogate (c : Z) : bool := (55296 <=? c) && (c <=? 56319).
Definition is_low_surrogate (c : Z) : bool := (56320 <=? c) && (c <=? 57343).
Definition join_surrogates (hi lo : Z) : Z :=
  Z.lor (Z.shiftl (Z.land hi 1023) 10) (Z.land lo 1023) + 65536.

Definition simple_escape (c : Z) : option Z :=
  if c =? 34 then Some 34 else if c =? 92 then Some 92 else if c =? 47 then Some 47
  else if c =? 98 then Some 8 else if c =? 102 then Some 12 else if c =? 110 then Some 10
  else if c =? 114 then Some 13 else if c =? 116 then Some 9 else None.

(** scans the body of a string after its opening quote; answers the decoded
    string and what follows the closing quote *)
Fixpoint scanstring (t : pystr) : option (pystr * pystr) :=
  match t with
  | [] => None
  | 34 :: rest => Some ([], rest)
  | 92 :: 117 :: a :: b :: c :: d :: rest =>
      match hex4_value a b c d with
      | None => None
      | Some u =>
          if is_high_surrogate u then
            match rest with
            | 92 :: 117 :: e :: f :: g :: h :: rest' =>
                match hex4_value e f g h with
                | None => None
                | Some u2 =>
                    if is_low_surrogate u2 then
                      match scanstring rest' with
                      | Some (s, r) => Some (join_surrogates u u2 :: s, r)
                      | None => None
                      end
                    else
                      match scanstring rest with
                      | Some (s, r) => Some (u :: s, r)
                      | None => None
                      end
                end
            | _ =>
                match scanstring rest with
                | Some (s, r) => Some (u :: s, r)
                | None => None
                end
            end
          else
            match scanstring rest with
            | Some (s, r) => Some (u :: s, r)
            | None => None
            end
      end
  | 92 :: e :: rest =>
      match simple_escape e with
      | Some c =>
          match scanstring rest with
          | Some (s, r) => Some (c :: s, r)
          | None => None
          end
      | None => None
      end
  | c :: rest =>
      if c <? 32 then None
      else
        match scanstring rest with
        | Some (s, r) => Some (c :: s, r)
        | None => None
        end
  end.

Definition json_ws (c : Z) : bool := (c =? 32) || (c =? 9) || (c =? 10) || (c =? 13).

(** [json.loads(text)] for a text holding one string value *)
Definition json_loads_str (t : pystr) : option pystr :=
  match t with
  | 34 :: body =>
      match scanstring body with
      | Some (s, rest) => if forallb json_ws rest then Some s else None
      | None => None
      end
  | _ => None
  end.

(** the quote structure of a Flux string literal: a backslash escapes the
    next character, an unescaped double quote closes the literal; answers
    the text after the closing quote *)
Fixpoint flux_string_close (t : pystr) : option pystr :=
  match t with
  | [] => None
  | 34 :: rest => Some rest
  | 92 :: _ :: rest => flux_string_close rest
  | _ :: rest => flux_string_close rest
  end.

Definition flux_literal_rest (t : pystr) : option pystr :=
  match t with
  | 34 :: body => flux_string_close body
  | _ => None
  end.

Definition is_surrogate (c : Z) : bool := (55296 <=? c) && (c <=? 57343).

(** a code point of a Python [str] *)
Definition code_point (c : Z) : Prop := 0 <= c <= 1114111.

(** no high surrogate directly followed by a low surrogate *)
Fixpoint no_surrogate_pair (s : pystr) : bool :=
  match s with
  | c :: ((c' :: _) as s') => negb (is_high_surrogate c && is_low_surrogate c') && no_surrogate_pair s'
  | _ => true
  end.

(** the string the spec says [json.loads] gives back: every high surrogate
    immediately followed by a low surrogate joined, left to right, into the
    supplementary character they encode *)
Fixpoint join_surrogate_pairs (s : pystr) : pystr :=
  match s with
  | c :: ((c' :: s'') as s') =>
      if is_high_surrogate c && is_low_surrogate c'
      then join_surrogates c c' :: join_surrogate_pairs s''
      else c :: join_surrogate_pairs s'
  | _ => s
  end.

End FluxLiteral.

(** ** The query operations of [SolarCubeApi] and their error mapping *)

Module Api.
Import FluxLiteral.
Local Open Scope Z_scope.
Local Open Scope list_scope.

(** [influxdb_client.rest.ApiException]; [status] is [getattr(err, "status", None)] *)
Record ApiException := mkApiException {
  status : option Z;
  err_str : string
}.

(** the exceptions these operations raise *)
Inductive PyExn :=
| SolarCubeApiAuthError (msg : string)
| SolarCubeApiRequestError (msg : string)
| ValueError.

(** [_LOGGER.error(...)] lines: operation, [_api_exception_details(err)],
    and the Flux text where the call logs it *)
Inductive LogLine :=
| LogError (op : string) (details : string) (flux : option pystr).

(** an operation logs, then returns or raises *)
Definition PyResult (A : Type) := (list LogLine * (PyExn + A))%type.

(** the client: [query_api.query(flux)] and [buckets_api().find_buckets()] *)
Class InfluxClient `{PyTimeLib} := {
  query : pystr -> ApiException + Reshape.QueryResult;
  find_buckets : ApiException + unit;
  api_exception_details : ApiException -> string
}.

(** [getattr(err, "status", None) == code] *)
Definition status_is (code : Z) (err : ApiException) : bool :=
  match status err with Some s => Z.eqb s code | None => false end.

(** a Python text written with a single quote (code 39) where the source
    has a double quote (code 34); the Flux queries contain no single quote *)
Definition pystr_of_template (s : string) : pystr :=
  map (fun c => if Z.eqb c 39 then 34 else c) (pystr_of_string s).

Section Ops.
Context {Lib : PyTimeLib} {Cl : @InfluxClient Lib}.

(** the [except ApiException as err:] block shared by the four operations *)
Definition on_api_exception {A} (op : string) (flux : option pystr) (err : ApiException)
  : PyResult A :=
  if status_is 401 err then ([], inl (SolarCubeApiAuthError "Unauthorized"))
  else if status_is 400 err then
    ([LogError op (api_exception_details err) flux], inl (SolarCubeApiRequestError (err_str err)))
  else ([], inl (SolarCubeApiRequestError (err_str err))).

Definition validate_flux (bucket : pystr) : pystr :=
  pystr_of_string "from(bucket: " ++ _bucket_literal (Some bucket)
  ++ pystr_of_string ") |> range(start: -1m) |> limit(n: 1)".

(** [async_validate(bucket)]; [if bucket:] is false for [None] and ['] *)
Definition async_validate (bucket : option pystr) : PyResult unit :=
  match bucket with
  | Some ((_ :: _) as b) =>
      match query (validate_flux b) with
      | inl err => on_api_exception "validate" None err
      | inr _ => ([], inr tt)
      end
  | _ =>
      match find_buckets with
      | inl err => on_api_exception "validate" None err
      | inr _ => ([], inr tt)
      end
  end.

Definition query_last_flux (bucket measurement field range_start : pystr) : pystr :=
  pystr_of_string "from(bucket: " ++ _bucket_literal (Some bucket)
  ++ pystr_of_string ") |> range(start: " ++ range_start
  ++ pystr_of_template ") |> filter(fn: (r) => r['_measurement'] == " ++ _flux_str_literal measurement
  ++ pystr_of_template ") |> filter(fn: (r) => r['_field'] == " ++ _flux_str_literal field
  ++ pystr_of_string ") |> last()".

(** [async_query_last]: the value of the first record of the first
    non-empty table, or [None] *)
Definition async_query_last (bucket measurement field range_start : pystr)
  : PyResult (option Reshape.FluxValue) :=
  let flux := query_last_flux bucket measurement field range_start in
  match query flux with
  | inl err => on_api_exception "query_last" (Some flux) err
  | inr result =>
      ([], inr (match Reshape.rows result with
                | r :: _ => Some (Reshape.rec_value r)
                | [] => None
                end))
  end.

(** [FORECAST_QUERY.format(bucket_literal=...)] and the same for the
    optimal actions: the text around the literal is fixed *)
Definition forecast_query_head : pystr := pystr_of_string "from(bucket: ".
Definition forecast_query_tail : pystr := pystr_of_template ")
  |> range(start: now(), stop: 32h)
  |> filter(fn: (r) => r['_measurement'] == 'cs')
  |> filter(fn: (r) => r['_field'] == 'cs/prices/buy_total_price_per_kwh' or r['_field'] == 'cs/forecasts/consumption_forecast_kwh' or r['_field'] == 'cs/forecasts/production_forecast_kwh' or r['_field'] == 'cs/forecasts/soc_forecast' or r['_field'] == 'cs/schedule/controller' or r['_field'] == 'cs/schedule/target_soc' or r['_field'] == 'cs/prices/sell_price_per_kwh')".
Definition optimal_actions_query_tail : pystr := pystr_of_template ")
  |> range(start: now(), stop: 32h)
  |> filter(fn: (r) => r['_measurement'] == 'cs')
  |> filter(fn: (r) => r['_field'] == 'cs/opt_actions/bc' or r['_field'] == 'cs/opt_actions/bg' or r['_field'] == 'cs/opt_actions/gb' or r['_field'] == 'cs/opt_actions/gc' or r['_field'] == 'cs/opt_actions/pb' or r['_field'] == 'cs/opt_actions/pc' or r['_field'] == 'cs/opt_actions/pg')".

Definition FORECAST_QUERY (bucket : pystr) : pystr :=
  forecast_query_head ++ _bucket_literal (Some bucket) ++ forecast_query_tail.
Definition OPTIMAL_ACTIONS_QUERY (bucket : pystr) : pystr :=
  forecast_query_head ++ _bucket_literal (Some bucket) ++ optimal_actions_query_tail.

Definition async_get_forecast (bucket : pystr) (hass_timezone : string)
  : PyResult (list (PyDict.dict Reshape.FluxValue)) :=
  let flux := FORECAST_QUERY bucket in
  match query flux with
  | inl err => on_api_exception "forecast" (Some flux) err
  | inr result =>
      match Reshape.async_get_forecast_reshape hass_timezone result with
      | Some out => ([], inr out)
      | None => ([], inl ValueError)
      end
  end.

Definition async_get_optimal_actions (bucket : pystr) (hass_timezone : string)
  : PyResult (list (PyDict.dict Reshape.FluxValue)) :=
  let flux := OPTIMAL_ACTIONS_QUERY bucket in
  match query flux with
  | inl err => on_api_exception "optimal_actions" (Some flux) err
  | inr result =>
      match Reshape.async_get_optimal_actions_reshape hass_timezone result with
      | Some out => ([], inr out)
      | None => ([], inl ValueError)
      end
  end.

End Ops.

(** which exception an outcome raised *)
Definition raises_auth {A} (r : PyResult A) : bool :=
  match snd r with inl (SolarCubeApiAuthError _) => true | _ => false end.
Definition raises_request {A} (r : PyResult A) : bool :=
  match snd r with inl (SolarCubeApiRequestError _) => true | _ => false end.

End Api.

(** ** Values loaded by [json.loads] and [yaml.safe_load]

    Mapping keys are strings (the files handled here have string keys);
    floats are modelled by their exact rational value. *)

Module Py.

Local Set Warnings "-register-all".

Inductive PyObj :=
| PNone
| PBool (b : bool)
| PInt (z : Z)
| PFloat (q : Q)
| PStr (s : string)
| PList (l : list PyObj)
| PDict (d : list (string * PyObj)).

(** [bool], [int] and [float] compare as numbers *)
Definition py_num (v : PyObj) : option Q :=
  match v with
  | PBool b => Some (if b then 1 else 0)%Q
  | PInt z => Some (inject_Z z)
  | PFloat q => Some q
  | _ => None
  end.

(** the distinct keys of a dict; the first entry of a key is its value *)
Definition dict_size (d : list (string * PyObj)) : nat :=
  length (nodup string_dec (map fst d)).

(** [==] on two lists: same length, equal elements in order *)
Fixpoint list_eq (eq : PyObj -> PyObj -> bool) (xs ys : list PyObj) : bool :=
  match xs, ys with
  | [], [] => true
  | x :: xs', y :: ys' => eq x y && list_eq eq xs' ys'
  | _, _ => false
  end.

(** every distinct key of [xs] (its first entry; [seen] are the keys
    already compared) is a key of [ys] with an equal value *)
Fixpoint dict_eq_go (eq : PyObj -> PyObj -> bool) (ys : list (string * PyObj))
         (xs : list (string * PyObj)) (seen : list string) : bool :=
  match xs with
  | [] => true
  | (k, v) :: xs' =>
      (if existsb (String.eqb k) seen then true
       else match PyDict.get k ys with
            | Some w => eq v w
            | None => false
            end) && dict_eq_go eq ys xs' (k :: seen)
  end.

(** Python's [==] on these values *)
Fixpoint py_eq (a b : PyObj) : bool :=
  match a, b with
  | PNone, PNone => true
  | PStr s, PStr t => String.eqb s t
  | PList xs, PList ys => list_eq py_eq xs ys
  | PDict xs, PDict ys =>
      Nat.eqb (dict_size xs) (dict_size ys) && dict_eq_go py_eq ys xs []
  | _, _ =>
      match py_num a, py_num b with
      | Some p, Some q => Qeq_bool p q
      | _, _ => false
      end
  end.

(** [bool(x)] *)
Definition truthy (v : PyObj) : bool :=
  match v with
  | PNone => false
  | PBool b => b
  | PInt z => negb (Z.eqb z 0)
  | PFloat q => negb (Qeq_bool q 0)
  | PStr s => negb (String.eqb s EmptyString)
  | PList l => negb (Nat.eqb (length l) 0)
  | PDict d => negb (Nat.eqb (length d) 0)
  end.

Definition is_dict (v : PyObj) : bool := match v with PDict _ => true | _ => false end.
Definition is_list (v : PyObj) : bool := match v with PList _ => true | _ => false end.

(** [d.get(k)] on a dict value *)
Definition dget (k : string) (v : PyObj) : option PyObj :=
  match v with PDict d => PyDict.get k d | _ => None end.

(** decimal digits of [str(n)] for an [int] *)
Fixpoint digits_aux (fuel : nat) (n : Z) (acc : string) : string :=
  match fuel with
  | O => acc
  | S fuel' =>
      let acc' := String (ascii_of_nat (48 + Z.to_nat (n mod 10))) acc in
      if (n <? 10)%Z then acc' else digits_aux fuel' (n / 10)%Z acc'
  end.

Definition str_of_Z (z : Z) : string :=
  if (z <? 0)%Z then String "-" (digits_aux (S (Z.to_nat (Z.log2 (- z)))) (- z) EmptyString)
  else digits_aux (S (Z.to_nat (Z.log2 z))) z EmptyString.

(** [repr] of floats, lists and dicts: library formatting, left abstract *)
Class PyRepr := {
  float_repr : Q -> string;
  container_repr : PyObj -> string
}.

(** [str(x)] *)
Definition py_str `{PyRepr} (v : PyObj) : string :=
  match v with
  | PNone => "None"
  | PBool true => "True"
  | PBool false => "False"
  | PInt z => str_of_Z z
  | PFloat q => float_repr q
  | PStr s => s
  | v => container_repr v
  end.

(** [str.isspace()] and [str.lower()] on the Latin-1 range of [ascii] *)
Definition isspace (a : ascii) : bool :=
  let n := nat_of_ascii a in
  (Nat.leb 9 n && Nat.leb n 13) || (Nat.leb 28 n && Nat.leb n 32) || Nat.eqb n 133 || Nat.eqb n 160.

Definition lower_char (a : ascii) : ascii :=
  let n := nat_of_ascii a in
  if (Nat.leb 65 n && Nat.leb n 90) || (Nat.leb 192 n && Nat.leb n 222 && negb (Nat.eqb n 215))
  then ascii_of_nat (n + 32) else a.

Fixpoint lower (s : string) : string :=
  match s with
  | EmptyString => EmptyString
  | String a s' => String (lower_char a) (lower s')
  end.

Fixpoint lstrip (s : string) : string :=
  match s with
  | String a s' => if isspace a then lstrip s' else s
  | EmptyString => EmptyString
  end.

Definition rev_string (s : string) : string :=
  string_of_list_ascii (rev (list_ascii_of_string s)).

(** [str.strip()] *)
Definition strip (s : string) : string := rev_string (lstrip (rev_string (lstrip s))).

End Py.

(** ** The provisioning routines of [__init__.py] *)

Module Provision.
Import Py.

(** The text of a file: raw text, or the output of the serializer this code
    writes the file with ([yaml.safe_dump] for [automations.yaml],
    [json.dumps] for [.storage/energy]), which that file's loader reads back
    as the dumped value. *)
Inductive Text :=
| TRaw (s : string)
| TDumped (v : PyObj).

(** A file, as [Path.exists] and [Path.read_text(encoding="utf-8")] see it:
    missing, unreadable ([OSError]), not UTF-8 ([UnicodeDecodeError]), or a
    text. *)
Inductive FileState :=
| FMissing
| FUnreadable
| FUndecodable
| FText (t : Text).

Definition exists_ (f : FileState) : bool := match f with FMissing => false | _ => true end.

(** [raw.strip()] is empty *)
Definition blank (t : Text) : bool :=
  match t with TRaw s => String.eqb (strip s) EmptyString | TDumped _ => false end.

(** [if raw:] *)
Definition nonempty (t : Text) : bool :=
  match t with TRaw s => negb (String.eqb s EmptyString) | TDumped _ => true end.

(** the parsers on raw text; [None] is a raised parse error *)
Class PyParsers := {
  yaml_safe_load_raw : string -> option PyObj;
  json_loads_raw : string -> option PyObj
}.

(** exceptions that escape a routine *)
Inductive Escape :=
| UnicodeDecodeError
| AttributeError.

Definition Exc (A : Type) := (Escape + A)%type.

(** the files the routines touch *)
Record FS := mkFS {
  automations_yaml : FileState;      (* /config/automations.yaml *)
  shipped_automations : FileState;   (* dashboards/automations.yaml of the package *)
  automations_writable : bool;       (* [config_path.write_text] succeeds *)
  energy_store : FileState;          (* /config/.storage/energy *)
  energy_template : FileState;       (* dashboards/energy.json of the package *)
  storage_dir_ok : bool;             (* [storage_dir.mkdir(...)] succeeds *)
  energy_writable : bool;            (* the temp file write and replace succeed *)
  energy_backup_writable : bool;     (* [backup_path.write_text(raw)] succeeds *)
  energy_backups : list Text         (* the energy.bak.<time> writes that succeeded, latest
                                        first (two in the same second go to one file) *)
}.

(** [config_path.write_text(...)] *)
Definition set_automations_yaml (f : FileState) (fs : FS) : FS :=
  {| automations_yaml := f;
     shipped_automations := shipped_automations fs;
     automations_writable := automations_writable fs;
     energy_store := energy_store fs;
     energy_template := energy_template fs;
     storage_dir_ok := storage_dir_ok fs;
     energy_writable := energy_writable fs;
     energy_backup_writable := energy_backup_writable fs;
     energy_backups := energy_backups fs |}.

(** the store and the backups after the write step of [_read_modify_write] *)
Definition set_energy (store : FileState) (backups : list Text) (fs : FS) : FS :=
  {| automations_yaml := automations_yaml fs;
     shipped_automations := shipped_automations fs;
     automations_writable := automations_writable fs;
     energy_store := store;
     energy_template := energy_template fs;
     storage_dir_ok := storage_dir_ok fs;
     energy_writable := energy_writable fs;
     energy_backup_writable := energy_backup_writable fs;
     energy_backups := backups |}.

Section Routines.
Context `{PyParsers} `{PyRepr}.

Definition yaml_safe_load (t : Text) : option PyObj :=
  match t with TRaw s => yaml_safe_load_raw s | TDumped v => Some v end.

Definition json_loads (t : Text) : option PyObj :=
  match t with TRaw s => json_loads_raw s | TDumped v => Some v end.

Definition dicts_of (l : list PyObj) : list (list (string * PyObj)) :=
  flat_map (fun v => match v with PDict d => [d] | _ => [] end) l.

(** [_load_yaml_list(path)] *)
Definition _load_yaml_list (f : FileState) : Exc (list (list (string * PyObj))) :=
  match f with
  | FMissing | FUnreadable => inr []
  | FUndecodable => inl UnicodeDecodeError
  | FText t =>
      let data := if blank t then Some (PList []) else yaml_safe_load t in
      match data with
      | None => inr []
      | Some (PList l) => inr (dicts_of l)
      | Some _ => inr []
      end
  end.

(** [isinstance(a.get(key), str) and a.get(key).strip()] *)
Definition str_field (key : string) (a : list (string * PyObj)) : option string :=
  match PyDict.get key a with
  | Some (PStr s) => if String.eqb (strip s) EmptyString then None else Some (strip s)
  | _ => None
  end.

Definition existing_ids (existing : list (list (string * PyObj))) : list string :=
  flat_map (fun a => match str_field "id" a with Some s => [s] | None => [] end) existing.

Definition existing_aliases (existing : list (list (string * PyObj))) : list string :=
  flat_map (fun a => match str_field "alias" a with Some s => [lower s] | None => [] end) existing.

(** [str(automation.get(key) or "").strip()] *)
Definition or_empty_str (key : string) (a : list (string * PyObj)) : string :=
  match PyDict.get key a with
  | Some v => if truthy v then strip (py_str v) else EmptyString
  | None => EmptyString
  end.

(** the two [continue] tests of the loop *)
Definition already_present (ids aliases : list string) (automation : list (string * PyObj)) : bool :=
  let automation_id := or_empty_str "id" automation in
  let automation_alias := or_empty_str "alias" automation in
  if negb (String.eqb automation_id EmptyString) && existsb (String.eqb automation_id) ids then true
  else if String.eqb automation_id EmptyString && negb (String.eqb automation_alias EmptyString)
          && existsb (String.eqb (lower automation_alias)) aliases then true
  else false.

(** the loop: the list after the appends, and [changed] *)
Fixpoint merge_loop (ids aliases : list string) (existing : list (list (string * PyObj)))
         (changed : bool) (shipped : list (list (string * PyObj)))
  : list (list (string * PyObj)) * bool :=
  match shipped with
  | [] => (existing, changed)
  | automation :: rest =>
      if already_present ids aliases automation then merge_loop ids aliases existing changed rest
      else merge_loop ids aliases (existing ++ [automation]) true rest
  end.

(** [_read_merge_write()] *)
Definition _read_merge_write (shipped : list (list (string * PyObj))) (fs : FS) : Exc bool * FS :=
  let loaded := if exists_ (automations_yaml fs) then _load_yaml_list (automations_yaml fs) else inr [] in
  match loaded with
  | inl e => (inl e, fs)
  | inr existing =>
      let '(merged, changed) :=
        merge_loop (existing_ids existing) (existing_aliases existing) existing false shipped in
      if negb changed then (inr false, fs)
      else if automations_writable fs then
        (inr true, set_automations_yaml (FText (TDumped (PList (map PDict merged)))) fs)
      else (inr false, fs)
  end.

(** [_load_template_data()] *)
Definition _load_template_data (f : FileState) : Exc (option (list (string * PyObj))) :=
  match f with
  | FMissing | FUnreadable => inr None
  | FUndecodable => inl UnicodeDecodeError
  | FText t =>
      match json_loads t with
      | None => inr None
      | Some (PDict template) =>
          match PyDict.get "data" template with
          | Some (PDict data) => inr (Some data)
          | _ => inr None
          end
      | Some _ => inl AttributeError
      end
  end.

Definition as_dict (v : option PyObj) : list (string * PyObj) :=
  match v with Some (PDict d) => d | _ => [] end.

(** the construction of [new_data] from [current_data] *)
Definition merge_energy_data (template_data current_data : list (string * PyObj))
  : list (string * PyObj) :=
  let d1 := match PyDict.get "energy_sources" template_data with
            | Some (PList l) => PyDict.set "energy_sources" (PList l) current_data
            | _ => current_data
            end in
  let d2 := if PyDict.mem "device_consumption" d1 then d1
            else PyDict.set "device_consumption"
                   (match PyDict.get "device_consumption" template_data with
                    | Some v => v | None => PList [] end) d1 in
  if PyDict.mem "device_consumption_water" d2 then d2
  else PyDict.set "device_consumption_water"
         (match PyDict.get "device_consumption_water" template_data with
          | Some v => v | None => PList [] end) d2.

(** the construction of [out] from [existing] *)
Definition energy_out (existing new_data : list (string * PyObj)) : list (string * PyObj) :=
  let o1 := if PyDict.mem "version" existing then existing
            else PyDict.set "version" (PInt 1) existing in
  let o2 := if PyDict.mem "minor_version" o1 then o1
            else PyDict.set "minor_version" (PInt 2) o1 in
  let o3 := PyDict.set "key" (PStr "energy") o2 in
  PyDict.set "data" (PDict new_data) o3.

(** the store as read: [(raw, existing)], or the early [return False],
    or an escaping exception *)
Inductive StoreRead :=
| ReadOk (raw : option Text) (existing : PyObj)
| ReadAbort
| ReadRaise (e : Escape).

Definition read_store (f : FileState) : StoreRead :=
  match f with
  | FMissing => ReadOk None (PDict [])
  | FUnreadable => ReadAbort
  | FUndecodable => ReadRaise UnicodeDecodeError
  | FText t =>
      if blank t then ReadOk (Some t) (PDict [])
      else match json_loads t with
           | Some v => ReadOk (Some t) v
           | None => ReadAbort
           end
  end.

(** [_read_modify_write()] *)
Definition _read_modify_write (template_data : list (string * PyObj)) (fs : FS) : Exc bool * FS :=
  if negb (storage_dir_ok fs) then (inr false, fs) else
  match read_store (energy_store fs) with
  | ReadAbort => (inr false, fs)
  | ReadRaise e => (inl e, fs)
  | ReadOk raw existing0 =>
      let existing := match existing0 with PDict d => d | _ => [] end in
      let current_data := as_dict (PyDict.get "data" existing) in
      let new_data := merge_energy_data template_data current_data in
      if py_eq (PDict new_data) (PDict current_data) && exists_ (energy_store fs) then (inr false, fs)
      else
        let out := energy_out existing new_data in
        (* the backup is best-effort: a failed write is swallowed *)
        let backups := match raw with
                       | Some t => if nonempty t && energy_backup_writable fs
                                   then t :: energy_backups fs else energy_backups fs
                       | None => energy_backups fs
                       end in
        if energy_writable fs then
          (inr true, set_energy (FText (TDumped (PDict out))) backups fs)
        else (inr false, set_energy (energy_store fs) backups fs)
  end.

End Routines.
End Provision.

(** ** The routines as [async_setup_entry] calls them, with [domain_data] *)

Module Runtime.
Import Py Provision.

(** The Lovelace storage dashboards (collection items, stored configs,
    registered panels). The import after the one-shot guard of
    [_async_ensure_storage_dashboards] (directory creation, item creation,
    seeding of configs, panel registration) is left abstract: it answers the
    new dashboards and [changed]. *)
Class LovelaceHost := {
  DashState : Type;
  storage_import_body : DashState -> DashState * bool
}.

Section World.
Context `{PyParsers} `{PyRepr} `{LovelaceHost}.

Record World := mkWorld {
  flags : list string;          (* the keys of [domain_data] holding [True] *)
  files : FS;
  lovelace_loaded : bool;       (* [LOVELACE_DATA in hass.data] *)
  dashboards : DashState;
  started_listeners : nat       (* [async_listen_once(EVENT_HOMEASSISTANT_STARTED, ...)] *)
}.

Definition has_flag (k : string) (w : World) : bool := existsb (String.eqb k) (flags w).

Definition set_flag (k : string) (w : World) : World :=
  mkWorld (k :: flags w) (files w) (lovelace_loaded w) (dashboards w) (started_listeners w).

Definition with_files (fs : FS) (w : World) : World :=
  mkWorld (flags w) fs (lovelace_loaded w) (dashboards w) (started_listeners w).

(** [_async_ensure_automations(hass, domain_data)] *)
Definition _async_ensure_automations (w : World) : Exc bool * World :=
  if has_flag "automations_imported" w then (inr false, w) else
  let w1 := set_flag "automations_imported" w in
  if negb (exists_ (shipped_automations (files w1))) then (inr false, w1) else
  match _load_yaml_list (shipped_automations (files w1)) with
  | inl e => (inl e, w1)
  | inr [] => (inr false, w1)
  | inr shipped =>
      let '(r, fs') := _read_merge_write shipped (files w1) in
      (r, with_files fs' w1)
  end.

(** [_async_configure_energy_dashboard(hass)] *)
Definition _async_configure_energy_dashboard (w : World) : Exc bool * World :=
  if negb (exists_ (energy_template (files w))) then (inr false, w) else
  match _load_template_data (energy_template (files w)) with
  | inl e => (inl e, w)
  | inr None => (inr false, w)
  | inr (Some []) => (inr false, w)
  | inr (Some template_data) =>
      let '(r, fs') := _read_modify_write template_data (files w) in
      (r, with_files fs' w)
  end.

(** [_async_ensure_storage_dashboards(hass, domain_data)] *)
Definition _async_ensure_storage_dashboards (w : World) : Exc bool * World :=
  if negb (lovelace_loaded w) then
    if has_flag "lovelace_retry_scheduled" w then (inr false, w)
    else
      let w1 := set_flag "lovelace_retry_scheduled" w in
      (inr false, mkWorld (flags w1) (files w1) (lovelace_loaded w1) (dashboards w1)
                          (S (started_listeners w1)))
  else if has_flag "storage_dashboards_imported" w then (inr false, w)
  else
    let w1 := set_flag "storage_dashboards_imported" w in
    let '(d', changed) := storage_import_body (dashboards w1) in
    (inr changed, mkWorld (flags w1) (files w1) (lovelace_loaded w1) d' (started_listeners w1)).

End World.
End Runtime.

(** ** [SolarCubeApi._normalize_token] *)

Module Token.
Import FluxLiteral.
Local Open Scope Z_scope.
Local Open Scope list_scope.

(** [s.startswith(prefix)] *)
Fixpoint startswith (s prefix : pystr) : bool :=
  match prefix, s with
  | [], _ => true
  | p :: prefix', c :: s' => (c =? p) && startswith s' prefix'
  | _ :: _, [] => false
  end.

(** the [for prefix in ("Token ", "Bearer "):] loop *)
Fixpoint strip_scheme (token : pystr) (prefixes : list pystr) : pystr :=
  match prefixes with
  | [] => token
  | prefix :: rest =>
      if startswith token prefix then strip (skipn (length prefix) token)
      else strip_scheme token rest
  end.

(** [_normalize_token(token)]; [None] is a [None] token *)
Definition _normalize_token (token : option pystr) : pystr :=
  let token := strip (match token with Some t => t | None => [] end) in
  strip_scheme token [pystr_of_string "Token "; pystr_of_string "Bearer "].

End Token.

(** ** [SolarCubeApi._api_exception_details]

    [err.body] as [getattr] finds it. [bytes.decode("utf-8",
    errors="replace")] and [repr] are library functions, left abstract; the
    decoding with [errors="replace"] does not raise, so the [except] branch
    around it is not taken. *)

Module Details.
Import FluxLiteral.
Local Open Scope Z_scope.
Local Open Scope list_scope.

Inductive Body :=
| BodyNone
| BodyBytes (b : list Byte.byte)     (* [bytes] or [bytearray] *)
| BodyStr (s : pystr)
| BodyOther (repr : pystr).          (* any other object, by its [repr] *)

(** the attributes [getattr(err, ..., None)] reads *)
Record ErrAttrs := mkErrAttrs {
  err_status : option Z;
  err_reason : option pystr;
  err_body : Body
}.

Class DetailsLib := {
  decode_utf8_replace : list Byte.byte -> pystr;
  repr_body : Body -> pystr
}.

Section Defs.
Context `{DetailsLib}.

(** the body after the two [if isinstance(body, ...)] steps *)
Definition bounded_body (body : Body) : Body :=
  let body := match body with BodyBytes b => BodyStr (decode_utf8_replace b) | b => b end in
  match body with
  | BodyStr s => if (800 <? Z.of_nat (length s)) then BodyStr (firstn 800 s ++ [8230]) else body
  | b => b
  end.

(** [f"{x}"] of [status] (an [int] or [None]) and [reason] (a [str] or [None]) *)
Definition fmt_status (s : option Z) : pystr :=
  match s with Some z => pystr_of_string (Py.str_of_Z z) | None => pystr_of_string "None" end.
Definition fmt_reason (r : option pystr) : pystr :=
  match r with Some s => s | None => pystr_of_string "None" end.

Definition _api_exception_details (err : ErrAttrs) : pystr :=
  pystr_of_string "status=" ++ fmt_status (err_status err)
  ++ pystr_of_string " reason=" ++ fmt_reason (err_reason err)
  ++ pystr_of_string " body=" ++ repr_body (bounded_body (err_body err)).

End Defs.
End Details.

(** ** The cells of a reshaped record

    For a local timestamp [k] and a short key [s]: the rounded value of the
    last row (in query order) whose timestamp is [k] and whose field goes to
    [s], [None] if there is none. [slot_of] is where a row's field goes. *)

Module ReshapeCells.
Import Reshape.
Section Defs.
Context `{PyTimeLib}.

Definition last_cell (tz : option TZ) (slot_of : FluxRecord -> option string) (k s : string)
  (rs : list FluxRecord) : FluxValue :=
  fold_left (fun v r =>
               match hour_key_of tz r, slot_of r with
               | Some hk, Some s' => if String.eqb hk k && String.eqb s' s then round_value (rec_value r) else v
               | _, _ => v
               end) rs VNone.

(** the [if/elif] chain of [async_get_forecast] *)
Definition forecast_slot_of (r : FluxRecord) : option string := forecast_slot (rec_field r).

(** [short_key = field.split("/")[-1]] of [async_get_optimal_actions] *)
Definition actions_slot_of (r : FluxRecord) : option string := Some (last_segment (rec_field r)).

End Defs.
End ReshapeCells.

(** ** Entry setup, reload and unload; [domain_data]

    [hass.data[DOMAIN]] is a dict whose keys are config entry ids (each
    holding the entry's dict), the one-shot flags the routines set
    ([automations_imported], [restart_notification_shown], ...) and
    [dashboards_registered] (a set of URL paths). *)

Module Setup.
Import Py Provision.

(** [{**a, **b}] *)
Definition dict_merge {A} (a b : PyDict.dict A) : PyDict.dict A :=
  fold_left (fun acc kv => PyDict.set (fst kv) (snd kv) acc) b
    (fold_left (fun acc kv => PyDict.set (fst kv) (snd kv) acc) a []).

(** [dict.pop(k)] once the value is read: the key is removed *)
Definition delete {A} (k : string) (d : PyDict.dict A) : PyDict.dict A :=
  filter (fun kv => negb (String.eqb k (fst kv))) d.

Record ConfigEntry := mkEntry {
  entry_id : string;
  entry_title : string;
  entry_data : PyDict.dict PyObj;
  entry_options : PyDict.dict PyObj
}.

(** [config = {**entry.data, **entry.options}] in [async_setup_entry] *)
Definition entry_config (entry : ConfigEntry) : PyDict.dict PyObj :=
  dict_merge (entry_data entry) (entry_options entry).

(** a value of an entry's dict: an object (the API, a coordinator) or a
    plain value such as [_suppress_next_reload] *)
Inductive EntryVal :=
| EObject (name : string)
| EValue (v : PyObj).

Definition entry_truthy (v : EntryVal) : bool :=
  match v with EObject _ => true | EValue v => truthy v end.

(** a value of [domain_data]: an entry's dict, a plain value, or a set *)
Inductive DomainVal :=
| DEntry (d : PyDict.dict EntryVal)
| DValue (v : PyObj)
| DSet (s : list string).

Definition domain_truthy (v : DomainVal) : bool :=
  match v with
  | DEntry d => negb (Nat.eqb (length d) 0)
  | DValue v => truthy v
  | DSet s => negb (Nat.eqb (length s) 0)
  end.

(** [_async_reload_entry(hass, entry)]: [hass_domain] is
    [hass.data.get(DOMAIN)] ([None]: absent); the result is the new
    [hass.data[DOMAIN]] and whether [async_reload] is called; [None] is a
    raised exception ([.pop] on a value that is not a dict). *)
Definition _async_reload_entry (hass_domain : option (PyDict.dict DomainVal)) (entry_id : string)
  : option (option (PyDict.dict DomainVal) * bool) :=
  match hass_domain with
  | None => Some (None, true)
  | Some domain_data =>
      match PyDict.get entry_id domain_data with
      | None => Some (Some domain_data, true)
      | Some (DEntry entry_data) =>
          let suppress := match PyDict.get "_suppress_next_reload" entry_data with
                          | Some v => entry_truthy v
                          | None => false
                          end in
          let domain_data' :=
            PyDict.set entry_id (DEntry (delete "_suppress_next_reload" entry_data)) domain_data in
          Some (Some domain_data', negb suppress)
      | Some _ => None
      end
  end.

(** what [async_unload_entry] does *)
Record Unloaded := mkUnloaded {
  unload_result : bool;
  domain_after : option (PyDict.dict DomainVal);
  api_closed : bool;
  panels_removed : list string     (* the [async_remove_panel] calls *)
}.

(** [async_unload_entry(hass, entry)]; [unload_ok] is the answer of
    [async_unload_platforms]; [None] is a raised exception (a value of the
    wrong type where the code expects a dict or a set) *)
Definition async_unload_entry (unload_ok : bool) (entry_id : string)
  (hass_domain : option (PyDict.dict DomainVal)) : option Unloaded :=
  match hass_domain with
  | Some domain_data =>
      if unload_ok && PyDict.mem entry_id domain_data then
        match PyDict.get entry_id domain_data with
        | Some (DEntry entry_data) =>
            let dd1 := delete entry_id domain_data in
            let closed := match PyDict.get "api" entry_data with
                          | None | Some (EValue PNone) => false
                          | Some _ => true
                          end in
            match filter (fun k => negb (String.eqb k "dashboards_registered")) (map fst dd1) with
            | [] =>
                let dd2 := delete "dependencies_installed" dd1 in
                match PyDict.get "dashboards_registered" dd2 with
                | None => Some (mkUnloaded true (Some dd2) closed [])
                | Some (DSet s) =>
                    Some (mkUnloaded true (Some (delete "dashboards_registered" dd2)) closed s)
                | Some _ => None
                end
            | _ :: _ => Some (mkUnloaded true (Some dd1) closed [])
            end
        | _ => None
        end
      else Some (mkUnloaded unload_ok hass_domain false [])
  | None => Some (mkUnloaded unload_ok None false [])
  end.

(** the loop of [_async_register_dashboards] over [DASHBOARD_FILES]: the
    registered set after it, and the panels registered, in order *)
Fixpoint register_loop (file_exists : string -> bool) (dashboard_files : list (string * string))
  (registered : list string) : list string * list string :=
  match dashboard_files with
  | [] => (registered, [])
  | (url_path, filename) :: rest =>
      if negb (file_exists filename) || existsb (String.eqb url_path) registered
      then register_loop file_exists rest registered
      else let '(reg, panels) := register_loop file_exists rest (registered ++ [url_path]) in
           (reg, url_path :: panels)
  end.

(** [_async_register_dashboards(hass, domain_data)]; [DASHBOARD_FILES] (of
    [const.py]) and the files of the dashboards directory are inputs.
    [async_register_built_in_panel] is taken to return. [None]: the
    [dashboards_registered] key holds something other than the set this
    module stores there, which the model does not follow. *)
Definition _async_register_dashboards (dashboard_files : PyDict.dict string) (dir_exists : bool)
  (file_exists : string -> bool) (domain_data : PyDict.dict DomainVal)
  : option (PyDict.dict DomainVal * list string) :=
  if negb dir_exists then Some (domain_data, []) else
  match PyDict.get "dashboards_registered" domain_data with
  | Some (DSet s) =>
      let '(reg, panels) := register_loop file_exists dashboard_files s in
      Some (PyDict.set "dashboards_registered" (DSet reg) domain_data, panels)
  | None =>
      let '(reg, panels) := register_loop file_exists dashboard_files [] in
      Some (PyDict.set "dashboards_registered" (DSet reg) domain_data, panels)
  | Some _ => None
  end.

(** [_notify_restart_required_fallback(hass)]: [hass.data[DOMAIN]] after
    it, and whether the persistent notification is created *)
Definition _notify_restart_required_fallback (hass_domain : option (PyDict.dict DomainVal))
  : PyDict.dict DomainVal * bool :=
  let domain_data := match hass_domain with Some d => d | None => [] end in
  let shown := match PyDict.get "restart_notification_shown" domain_data with
               | Some v => domain_truthy v
               | None => false
               end in
  if shown then (domain_data, false)
  else (PyDict.set "restart_notification_shown" (DValue (PBool true)) domain_data, true).

(** [_report_restart_required(hass)]; [issue_ok]: the issue registry is
    imported and [async_create_issue] returns. The result: the new
    [hass.data[DOMAIN]], whether a persistent notification is created, and
    whether a Repairs issue is created. *)
Definition _report_restart_required (issue_ok : bool) (hass_domain : option (PyDict.dict DomainVal))
  : option (PyDict.dict DomainVal) * bool * bool :=
  if issue_ok then (hass_domain, false, true)
  else let '(d, notified) := _notify_restart_required_fallback hass_domain in (Some d, notified, false).

(** successive calls of [_report_restart_required] in one runtime, with
    the outcome of the issue registry at each: [hass.data[DOMAIN]] after
    them and the number of persistent notifications created *)
Fixpoint report_restart_calls (outcomes : list bool) (hass_domain : option (PyDict.dict DomainVal))
  : option (PyDict.dict DomainVal) * nat :=
  match outcomes with
  | [] => (hass_domain, O)
  | ok :: rest =>
      let '(hd1, notified, _) := _report_restart_required ok hass_domain in
      let '(hd2, n) := report_restart_calls rest hd1 in
      (hd2, ((if notified then 1 else 0) + n)%nat)
  end.

Definition dep (name repository : string) : PyDict.dict PyObj :=
  [("name", PStr name); ("repository", PStr repository)].

(** [defaults] of [_load_dashboard_dependencies] *)
Definition default_dependencies : list (PyDict.dict PyObj) :=
  [dep "Energy Period Selector Plus" "flixlix/energy-period-selector-plus";
   dep "Energy Flow Card Plus" "flixlix/energy-flow-card-plus";
   dep "Energy Entity Row" "zeronounours/lovelace-energy-entity-row";
   dep "Power Flow Card Plus" "flixlix/power-flow-card-plus";
   dep "Horizon Card" "rejuvenate/lovelace-horizon-card";
   dep "ApexCharts Card" "RomRider/apexcharts-card";
   dep "Weather Chart Card" "mlamberts78/weather-chart-card";
   dep "History Explorer Card" "alexarch21/history-explorer-card";
   dep "Meteoalarm Card" "MrBartusek/MeteoalarmCard";
   dep "Atomic Calendar Revive" "totaldebug/atomic-calendar-revive"].

(** one [entry] of the loaded list: skipped unless a dict with
    [repository], else [{"name": entry.get("name", entry["repository"]),
    "repository": entry["repository"]}] *)
Definition dependency_of (entry : PyObj) : list (PyDict.dict PyObj) :=
  match entry with
  | PDict d =>
      match PyDict.get "repository" d with
      | Some r => [[("name", match PyDict.get "name" d with Some n => n | None => r end);
                    ("repository", r)]]
      | None => []
      end
  | _ => []
  end.

(** [[x for x in xs]] with a step that may raise *)
Fixpoint all_some {A} (l : list (option A)) : option (list A) :=
  match l with
  | [] => Some []
  | Some x :: l' => match all_some l' with Some xs => Some (x :: xs) | None => None end
  | None :: _ => None
  end.

Definition newline : string := String (Ascii.ascii_of_nat 10) EmptyString.

Record Notification := mkNotification {
  note_title : string;
  note_id : string;
  note_reason : string;           (* the message is fixed text with [reason] *)
  note_dependency_list : string   (* and [dependency_list], twice, substituted *)
}.

Section Deps.
Context `{PyParsers} `{PyRepr}.

(** [_load_dashboard_dependencies()]; the file is
    [DASHBOARD_DEPENDENCIES_PATH], read with [read_text()]. An
    [OSError] or a [json.JSONDecodeError] gives the defaults; a decoding
    error of the text is neither and escapes. *)
Definition _load_dashboard_dependencies (f : FileState) : Exc (list (PyDict.dict PyObj)) :=
  match f with
  | FMissing | FUnreadable => inr default_dependencies
  | FUndecodable => inl UnicodeDecodeError
  | FText t =>
      match json_loads t with
      | None => inr default_dependencies
      | Some data =>
          let dependencies := match data with PList l => flat_map dependency_of l | _ => [] end in
          match dependencies with
          | [] => inr default_dependencies
          | _ :: _ => inr dependencies
          end
      end
  end.

(** [f"- {item.get('name', item['repository'])} ({item['repository']})"];
    [None] is the [KeyError] of [item['repository']] *)
Definition dependency_line (item : PyDict.dict PyObj) : option string :=
  match PyDict.get "repository" item with
  | None => None
  | Some r =>
      let n := match PyDict.get "name" item with Some n => n | None => r end in
      Some ("- " ++ py_str n ++ " (" ++ py_str r ++ ")")
  end.

(** [dependency_list = "\n".join(...)] *)
Definition dependency_list (dependencies : list (PyDict.dict PyObj)) : option string :=
  match all_some (map dependency_line dependencies) with
  | Some lines => Some (String.concat newline lines)
  | None => None
  end.

(** [_notify_dependency_install(hass, dependencies, reason)]: the
    notification created, [None] if building the text raises *)
Definition _notify_dependency_install (dependencies : list (PyDict.dict PyObj)) (reason : string)
  : option Notification :=
  match dependency_list dependencies with
  | Some dl => Some (mkNotification "Solar Cube dashboard dependencies"
                                    "solar_cube_dashboard_dependencies" reason dl)
  | None => None
  end.

End Deps.
End Setup.

(** ** Concrete inputs

    A host runtime where a [datetime] is its own ISO text, every time zone is
    UTC and floats are rationals; used to run the code on explicit rows. *)

Module Inputs.
Import Reshape.

Definition utc_time_lib : PyTimeLib := {|
  Datetime := string;
  TZ := unit;
  fromisoformat := fun s => Some s;
  get_time_zone := fun _ => Some tt;
  astimezone_isoformat := fun _ d => d;
  Float := Q;
  round_float3 := fun q => q
|}.

(** one row of a field outside the seven optimal-actions fields *)
Definition unrecognized_action_rows : @QueryResult utc_time_lib :=
  [[@mkRecord utc_time_lib (@TimeDatetime utc_time_lib "2024-06-01T12:00:00+00:00")
      "cs/opt_actions/zz" (@VInt utc_time_lib 5)]].

(** three rows over two timestamps, fields of the optimal-actions query *)
Definition action_rows : @QueryResult utc_time_lib :=
  [[@mkRecord utc_time_lib (@TimeString utc_time_lib "2024-06-01T13:00:00+00:00")
      "cs/opt_actions/bc" (@VInt utc_time_lib 1);
    @mkRecord utc_time_lib (@TimeDatetime utc_time_lib "2024-06-01T12:00:00+00:00")
      "cs/opt_actions/pg" (@VBool utc_time_lib true)];
   [@mkRecord utc_time_lib (@TimeDatetime utc_time_lib "2024-06-01T13:00:00+00:00")
      "cs/opt_actions/gb" (@VNone utc_time_lib)]].

Definition action_row_keys : list string :=
  ["2024-06-01T13:00:00+00:00"; "2024-06-01T12:00:00+00:00"; "2024-06-01T13:00:00+00:00"].

(** a backend whose every call raises [err] *)
Definition failing_client (err : Api.ApiException) : @Api.InfluxClient utc_time_lib := {|
  Api.query := fun _ => inl err;
  Api.find_buckets := inl err;
  Api.api_exception_details := Api.err_str
|}.

Definition unauthorized : Api.ApiException := Api.mkApiException (Some 401%Z) "(401) Unauthorized".
Definition bad_request : Api.ApiException := Api.mkApiException (Some 400%Z) "(400) Bad Request".

(** parsers that reject every raw text, e.g. an unterminated [[] *)
Definition rejecting_parsers : Provision.PyParsers := {|
  Provision.yaml_safe_load_raw := fun _ => None;
  Provision.json_loads_raw := fun _ => None
|}.

(** [repr] of floats and containers; the examples hold neither *)
Definition plain_repr : Py.PyRepr := {|
  Py.float_repr := fun _ => "<float>";
  Py.container_repr := fun _ => "<container>"
|}.

(** Lovelace dashboards counted by the number of imports that ran *)
Definition counting_lovelace : Runtime.LovelaceHost := {|
  Runtime.DashState := nat;
  Runtime.storage_import_body := fun n => (S n, true)
|}.

(** every file missing, every write succeeding *)
Definition empty_fs : Provision.FS := {|
  Provision.automations_yaml := Provision.FMissing;
  Provision.shipped_automations := Provision.FMissing;
  Provision.automations_writable := true;
  Provision.energy_store := Provision.FMissing;
  Provision.energy_template := Provision.FMissing;
  Provision.storage_dir_ok := true;
  Provision.energy_writable := true;
  Provision.energy_backup_writable := true;
  Provision.energy_backups := []
|}.

Definition with_energy_store (f : Provision.FileState) (fs : Provision.FS) : Provision.FS :=
  Provision.set_energy f (Provision.energy_backups fs) fs.

(** the energy store and template of the spec's example *)
Definition spec_energy_store : Py.PyObj :=
  Py.PDict [("version", Py.PInt 1);
            ("data", Py.PDict [("energy_sources", Py.PList []);
                               ("device_consumption", Py.PList [Py.PDict [("x", Py.PInt 1)]])])].

Definition spec_template_data : list (string * Py.PyObj) :=
  [("energy_sources", Py.PList [Py.PDict [("type", Py.PStr "solar")]]);
   ("device_consumption", Py.PList [])].

(** a template whose [energy_sources] is not a list *)
Definition string_sources_template : list (string * Py.PyObj) :=
  [("energy_sources", Py.PStr "solar")].

(** a store with a [key] of its own *)
Definition custom_key_store : Py.PyObj :=
  Py.PDict [("key", Py.PStr "custom"); ("data", Py.PDict [])].

Definition sources_template : list (string * Py.PyObj) :=
  [("energy_sources", Py.PList [])].

(** the automations of the spec's examples *)
Definition with_automations (f : Provision.FileState) (fs : Provision.FS) : Provision.FS :=
  Provision.set_automations_yaml f fs.

Definition automation_a1_foo : list (string * Py.PyObj) :=
  [("id", Py.PStr "a1"); ("alias", Py.PStr "Foo")].
Definition automation_a1_bar : list (string * Py.PyObj) :=
  [("id", Py.PStr "a1"); ("alias", Py.PStr "Bar")].

(** an automation whose [id] is an integer *)
Definition automation_id5 : list (string * Py.PyObj) := [("id", Py.PInt 5)].

(** a world before any provisioning, with the energy template shipped *)
Definition fresh_world : @Runtime.World counting_lovelace :=
  @Runtime.mkWorld counting_lovelace []
    {| Provision.automations_yaml := Provision.FMissing;
       Provision.shipped_automations := Provision.FMissing;
       Provision.automations_writable := true;
       Provision.energy_store := Provision.FMissing;
       Provision.energy_template :=
           Provision.FText (Provision.TDumped (Py.PDict [("data", Py.PDict spec_template_data)]));
       Provision.storage_dir_ok := true;
       Provision.energy_writable := true;
       Provision.energy_backup_writable := true;
       Provision.energy_backups := [] |}
    true O O.

(** an [automations.yaml] and an energy store that do not parse *)
Definition unparseable_fs : Provision.FS :=
  with_energy_store (Provision.FText (Provision.TRaw "{unclosed"))
    (with_automations (Provision.FText (Provision.TRaw "[unclosed")) empty_fs).

(** a time library whose [fromisoformat] rejects the text [not-a-date] *)
Definition strict_time_lib : PyTimeLib := {|
  Datetime := string;
  TZ := unit;
  fromisoformat := fun s => if String.eqb s "not-a-date" then None else Some s;
  get_time_zone := fun _ => Some tt;
  astimezone_isoformat := fun _ d => d;
  Float := Q;
  round_float3 := fun q => q
|}.

(** a row with a good timestamp, then one whose timestamp does not parse *)
Definition bad_time_rows : @QueryResult strict_time_lib :=
  [[@mkRecord strict_time_lib (@TimeString strict_time_lib "2024-06-01T12:00:00+00:00")
      "cs/schedule/controller" (@VInt strict_time_lib 1)];
   [@mkRecord strict_time_lib (@TimeString strict_time_lib "not-a-date")
      "cs/schedule/controller" (@VInt strict_time_lib 2)]].

(** a backend whose queries all answer [result] *)
Definition answering_client (Lib : PyTimeLib) (result : @QueryResult Lib) : @Api.InfluxClient Lib := {|
  Api.query := fun _ => inr result;
  Api.find_buckets := inr tt;
  Api.api_exception_details := Api.err_str
|}.

(** the controller of one timestamp written in two tables, 1 then 2 *)
Definition repeated_forecast_rows : @QueryResult utc_time_lib :=
  [[@mkRecord utc_time_lib (@TimeDatetime utc_time_lib "2024-06-01T12:00:00+00:00")
      "cs/schedule/controller" (@VInt utc_time_lib 1);
    @mkRecord utc_time_lib (@TimeString utc_time_lib "2024-06-01T13:00:00+00:00")
      "cs/prices/sell_price_per_kwh" (@VInt utc_time_lib 3)];
   [@mkRecord utc_time_lib (@TimeString utc_time_lib "2024-06-01T12:00:00+00:00")
      "cs/schedule/controller" (@VInt utc_time_lib 2)]].

(** a decoder that replaces every byte by U+FFFD, and a [repr] that is not
    looked at *)
Definition replacing_details : Details.DetailsLib := {|
  Details.decode_utf8_replace := map (fun _ => 65533%Z);
  Details.repr_body := fun _ => []
|}.

(** every file missing, the energy store not writable *)
Definition readonly_energy_fs : Provision.FS := {|
  Provision.automations_yaml := Provision.FMissing;
  Provision.shipped_automations := Provision.FMissing;
  Provision.automations_writable := true;
  Provision.energy_store := Provision.FMissing;
  Provision.energy_template := Provision.FMissing;
  Provision.storage_dir_ok := true;
  Provision.energy_writable := false;
  Provision.energy_backup_writable := true;
  Provision.energy_backups := []
|}.

End Inputs.

(** * Proofs *)

Open Scope list_scope.

(** ** Dictionary operations *)

Module PyDictFacts.
Import PyDict.

Lemma mem_In {A} k (d : dict A) : mem k d = true <-> In k (map fst d).
Proof.
  unfold mem. rewrite existsb_exists. split.
  - intros [x [Hin Heq]]. apply String.eqb_eq in Heq. subst. exact Hin.
  - intros Hin. exists k. split; [exact Hin | apply String.eqb_refl].
Qed.

Lemma set_keys_present {A} k (v : A) d : In k (map fst d) -> map fst (set k v d) = map fst d.
Proof.
  induction d as [|[k' v'] d IH]; simpl; intros Hin; [contradiction|].
  destruct (String.eqb_spec k k') as [->|Hne]; simpl; [reflexivity|].
  destruct Hin as [->|Hin]; [congruence|]. rewrite IH; auto.
Qed.

Lemma set_new {A} k (v : A) d : ~ In k (map fst d) -> set k v d = d ++ [(k, v)].
Proof.
  induction d as [|[k' v'] d IH]; simpl; intros Hnin; [reflexivity|].
  destruct (String.eqb_spec k k') as [->|Hne]; [exfalso; auto|].
  rewrite IH; auto.
Qed.

Lemma update_keys {A} k (f : A -> A) d : map fst (update k f d) = map fst d.
Proof.
  induction d as [|[k' v'] d IH]; simpl; [reflexivity|].
  destruct (String.eqb k k'); simpl; [reflexivity|]. now rewrite IH.
Qed.

Lemma get_set_other {A} k k' (v : A) d : k <> k' -> get k (set k' v d) = get k d.
Proof.
  intros Hne. induction d as [|[k'' v''] d IH]; simpl.
  - apply String.eqb_neq in Hne. now rewrite Hne.
  - destruct (String.eqb_spec k' k'') as [->|Hne']; simpl.
    + apply String.eqb_neq in Hne. now rewrite Hne.
    + destruct (String.eqb k k''); auto.
Qed.

Lemma get_set_same {A} k (v : A) d : get k (set k v d) = Some v.
Proof.
  induction d as [|[k' v'] d IH]; simpl; [now rewrite String.eqb_refl|].
  destruct (String.eqb_spec k k') as [->|Hne]; simpl; [now rewrite String.eqb_refl|].
  apply String.eqb_neq in Hne. now rewrite Hne.
Qed.

Lemma get_update_other {A} k k' (f : A -> A) d : k <> k' -> get k (update k' f d) = get k d.
Proof.
  intros Hne. induction d as [|[k'' v''] d IH]; simpl; [reflexivity|].
  destruct (String.eqb_spec k' k'') as [->|Hne']; simpl.
  - apply String.eqb_neq in Hne. now rewrite Hne.
  - destruct (String.eqb k k''); auto.
Qed.

Lemma get_update_same {A} k (f : A -> A) d :
  get k (update k f d) = option_map f (get k d).
Proof.
  induction d as [|[k' v'] d IH]; simpl; [reflexivity|].
  destruct (String.eqb_spec k k') as [->|Hne]; simpl; [now rewrite String.eqb_refl|].
  apply String.eqb_neq in Hne. now rewrite Hne.
Qed.

Lemma In_get {A} k (d : dict A) : In k (map fst d) -> exists v, get k d = Some v /\ In (k, v) d.
Proof.
  induction d as [|[k' v'] d IH]; simpl; [contradiction|]. intros Hin.
  destruct (String.eqb_spec k k') as [->|Hne].
  - exists v'. auto.
  - destruct Hin as [->|Hin]; [congruence|]. destruct (IH Hin) as [v [H1 H2]]. eauto.
Qed.

Lemma get_In {A} k v (d : dict A) : get k d = Some v -> In (k, v) d.
Proof.
  induction d as [|[k' v'] d IH]; simpl; [discriminate|].
  destruct (String.eqb_spec k k') as [->|Hne]; [intros [= ->]; auto|auto].
Qed.

Lemma get_None {A} k (d : dict A) : ~ In k (map fst d) -> get k d = None.
Proof.
  induction d as [|[k' v'] d IH]; simpl; [reflexivity|]. intros Hnin.
  destruct (String.eqb_spec k k') as [->|Hne]; [exfalso; auto|auto].
Qed.

(** [{k0: v0, **d}] when [d] has distinct keys, none of them [k0] *)
Lemma fold_set_fresh {A} (d pre : dict A) :
  NoDup (map fst d) -> (forall k, In k (map fst d) -> ~ In k (map fst pre)) ->
  fold_left (fun acc kv => set (fst kv) (snd kv) acc) d pre = pre ++ d.
Proof.
  revert pre. induction d as [|[k v] d IH]; intros pre Hnd Hfr; simpl; [now rewrite app_nil_r|].
  inversion Hnd as [|? ? Hk Hnd']; subst.
  rewrite set_new by (apply Hfr; simpl; auto).
  rewrite IH; [now rewrite <- app_assoc|exact Hnd'|].
  intros k' Hk'. rewrite map_app, in_app_iff. simpl. intros [H|[H|H]]; [|subst; contradiction|contradiction].
  exact (Hfr k' (or_intror Hk') H).
Qed.

Lemma splat_fresh {A} k0 (v0 : A) d :
  NoDup (map fst d) -> ~ In k0 (map fst d) -> splat k0 v0 d = (k0, v0) :: d.
Proof.
  intros Hnd Hnin. unfold splat. rewrite fold_set_fresh; auto.
  intros k Hk [H|[]]. subst. contradiction.
Qed.

End PyDictFacts.

(** ** String order and [sorted] *)

Module StrOrderFacts.
Import StrOrder.

Lemma ascii_compare_trans_lt a b c :
  Ascii.compare a b = Lt -> Ascii.compare b c = Lt -> Ascii.compare a c = Lt.
Proof. unfold Ascii.compare. rewrite !N.compare_lt_iff. lia. Qed.

Lemma ascii_compare_lt_eq a b c :
  Ascii.compare a b = Lt -> Ascii.compare b c = Eq -> Ascii.compare a c = Lt.
Proof. intros H1 H2. apply Ascii.compare_eq_iff in H2. now subst. Qed.

Lemma lt_trans s1 s2 s3 : lt s1 s2 -> lt s2 s3 -> lt s1 s3.
Proof.
  unfold lt. revert s2 s3.
  induction s1 as [|a s1 IH]; intros [|b s2] [|c s3]; simpl; try discriminate; auto.
  destruct (Ascii.compare a b) eqn:Hab; try discriminate;
  destruct (Ascii.compare b c) eqn:Hbc; try discriminate; intros H1 H2.
  - apply Ascii.compare_eq_iff in Hab, Hbc. subst.
    assert (Hcc : Ascii.compare c c = Eq) by (unfold Ascii.compare; apply N.compare_refl).
    rewrite Hcc. eauto.
  - apply Ascii.compare_eq_iff in Hab. subst. now rewrite Hbc.
  - apply Ascii.compare_eq_iff in Hbc. subst. now rewrite Hab.
  - now rewrite (ascii_compare_trans_lt _ _ _ Hab Hbc).
Qed.

Lemma leb_lt_or_eq s t : String.leb s t = true -> lt s t \/ s = t.
Proof.
  unfold String.leb, lt. destruct (String.compare s t) eqn:H; try discriminate; auto.
  intros _. right. now apply String.compare_eq_iff.
Qed.

Lemma leb_trans s1 s2 s3 : String.leb s1 s2 = true -> String.leb s2 s3 = true -> String.leb s1 s3 = true.
Proof.
  intros H1 H2. destruct (leb_lt_or_eq _ _ H1) as [L1| ->]; [|exact H2].
  destruct (leb_lt_or_eq _ _ H2) as [L2| ->].
  - unfold String.leb. unfold lt in *. now rewrite (lt_trans _ _ _ L1 L2).
  - unfold String.leb. unfold lt in L1. now rewrite L1.
Qed.

Lemma leb_false_ge s t : String.leb s t = false -> String.leb t s = true.
Proof. intros H. destruct (String.leb_total s t); congruence. Qed.

Lemma insert_perm {A} (kv : string * A) l : Permutation (insert_by_key kv l) (kv :: l).
Proof.
  induction l as [|kv' l IH]; simpl; [auto|].
  destruct (String.leb (fst kv) (fst kv')); [auto|].
  rewrite IH. apply perm_swap.
Qed.

Lemma sort_perm {A} (l : list (string * A)) : Permutation (sort_items l) l.
Proof.
  induction l as [|kv l IH]; simpl; [auto|].
  rewrite insert_perm. now apply perm_skip.
Qed.

Definition key_le {A} (a b : string * A) : Prop := String.leb (fst a) (fst b) = true.

Lemma insert_sorted {A} (kv : string * A) l :
  Sorted key_le l -> Sorted key_le (insert_by_key kv l).
Proof.
  induction 1 as [|kv' l Hs IH Hhd]; simpl.
  - auto.
  - destruct (String.leb (fst kv) (fst kv')) eqn:Hle.
    + constructor; [constructor; auto|]. constructor. exact Hle.
    + constructor; [exact IH|].
      apply leb_false_ge in Hle.
      destruct l as [|kv'' l]; simpl; [constructor; exact Hle|].
      inversion Hhd; subst.
      destruct (String.leb (fst kv) (fst kv'')); constructor; assumption.
Qed.

Lemma sort_sorted {A} (l : list (string * A)) : Sorted key_le (sort_items l).
Proof. induction l; simpl; auto using insert_sorted. Qed.

Lemma sort_strongly_sorted_keys {A} (l : list (string * A)) :
  NoDup (map fst l) -> StronglySorted lt (map fst (sort_items l)).
Proof.
  intros Hnd.
  assert (Hnd' : NoDup (map fst (sort_items l))).
  { apply (Permutation_NoDup (Permutation_map fst (Permutation_sym (sort_perm l)))). exact Hnd. }
  assert (Hss : StronglySorted key_le (sort_items l)).
  { apply Sorted_StronglySorted; [|apply sort_sorted].
    intros x y z. unfold key_le. apply leb_trans. }
  clear Hnd. induction Hss as [|a l' Hss IH Hall]; simpl; constructor.
  - inversion Hnd'; auto.
  - inversion Hnd' as [|? ? Hnin _]; subst.
    apply Forall_forall. intros k Hk. apply in_map_iff in Hk as [b [<- Hb]].
    rewrite Forall_forall in Hall. specialize (Hall b Hb). unfold key_le in Hall.
    destruct (leb_lt_or_eq _ _ Hall) as [L|E]; [exact L|].
    exfalso. apply Hnin. rewrite E. now apply in_map.
Qed.

End StrOrderFacts.

(** ** The reshaping loops *)

Module ReshapeFacts.
Import Reshape PyDictFacts.

Section Facts.
Context `{Lib : PyTimeLib}.

(** the accumulator has one entry per hour key seen so far, each entry
    with exactly the keys of [init] *)
Definition inv (init : PyDict.dict FluxValue) (acc : Acc) (seen : list string) : Prop :=
  NoDup (map fst acc) /\ (forall k, In k (map fst acc) <-> In k seen) /\
  (forall k d, In (k, d) acc -> map fst d = map fst init).

Lemma inv_nil init : inv init [] [].
Proof. split; [constructor|split; [tauto|simpl; tauto]]. Qed.

Lemma inv_ensure init acc seen hk :
  inv init acc seen ->
  inv init (if PyDict.mem hk acc then acc else PyDict.set hk init acc) (seen ++ [hk]).
Proof.
  intros [Hnd [Hks Hvs]]. destruct (PyDict.mem hk acc) eqn:Hm.
  - apply mem_In in Hm. split; [exact Hnd|split; [|exact Hvs]].
    intros k. rewrite Hks, in_app_iff. simpl. split; [tauto|].
    intros [Hx|[<-|[]]]; [exact Hx|]. now apply Hks.
  - assert (Hn : ~ In hk (map fst acc)) by (intros Hi; apply mem_In in Hi; congruence).
    rewrite set_new by exact Hn. split; [|split].
    + rewrite map_app. simpl. apply NoDup_app; auto using NoDup_cons, NoDup_nil.
      * intros x Hx [<-|[]]. contradiction.
    + intros k. rewrite map_app, !in_app_iff, Hks. simpl. tauto.
    + intros k d. rewrite in_app_iff. simpl. intros [Hin|[[= <- <-]|[]]]; [eauto|reflexivity].
Qed.

Lemma inv_update init acc seen hk g :
  inv init acc seen ->
  (forall d, map fst d = map fst init -> map fst (g d) = map fst init) ->
  inv init (PyDict.update hk g acc) seen.
Proof.
  intros [Hnd [Hks Hvs]] Hg. split; [|split].
  - now rewrite update_keys.
  - intros k. now rewrite update_keys.
  - clear Hnd Hks. induction acc as [|[k' d'] acc IH]; simpl; [tauto|].
    intros k d. destruct (String.eqb hk k').
    + simpl. intros [[= <- <-]|Hin]; [apply Hg; eapply Hvs; left; reflexivity|].
      eapply Hvs. right. exact Hin.
    + simpl. intros [[= <- <-]|Hin]; [eapply Hvs; left; reflexivity|].
      eapply IH; [|exact Hin]. intros k'' d'' Hi. eapply Hvs. right. exact Hi.
Qed.

Lemma set_keeps_init (init : PyDict.dict FluxValue) (k : string) (v : FluxValue) :
  In k (map fst init) ->
  forall d : PyDict.dict FluxValue, map fst d = map fst init -> map fst (PyDict.set k v d) = map fst init.
Proof. intros Hk d Hd. rewrite set_keys_present; [exact Hd|]. now rewrite Hd. Qed.

(** the fold over the rows, given a step that keeps the invariant *)
Lemma fold_rows_inv init tz (step : Acc -> FluxRecord -> option Acc) (P : FluxRecord -> Prop) :
  (forall acc seen r hk, hour_key_of tz r = Some hk -> P r -> inv init acc seen ->
     exists acc', step acc r = Some acc' /\ inv init acc' (seen ++ [hk])) ->
  forall rs keys acc seen,
    map (hour_key_of tz) rs = map Some keys -> (forall r, In r rs -> P r) ->
    inv init acc seen ->
    exists acc', fold_rows step acc rs = Some acc' /\ inv init acc' (seen ++ keys).
Proof.
  intros Hstep rs. induction rs as [|r rs IH]; intros keys acc seen Hk HP Hinv.
  - destruct keys; [|discriminate]. exists acc. rewrite app_nil_r. auto.
  - destruct keys as [|hk keys]; [discriminate|]. simpl in Hk. injection Hk as Hr Hk.
    destruct (Hstep acc seen r hk Hr (HP r (or_introl eq_refl)) Hinv) as [acc1 [Hs Hinv1]].
    simpl. rewrite Hs.
    destruct (IH keys acc1 (seen ++ [hk]) Hk (fun r' Hr' => HP r' (or_intror Hr')) Hinv1)
      as [acc' [Hf Hinv']].
    exists acc'. split; [exact Hf|]. now rewrite <- app_assoc in Hinv'.
Qed.

Lemma forecast_step_inv tz acc seen r hk :
  hour_key_of tz r = Some hk -> inv forecast_init acc seen ->
  exists acc', forecast_step tz acc r = Some acc' /\ inv forecast_init acc' (seen ++ [hk]).
Proof.
  intros Hr Hinv. unfold forecast_step. rewrite Hr.
  pose proof (inv_ensure _ _ _ hk Hinv) as Hinv1.
  destruct (forecast_slot (rec_field r)) as [k|] eqn:Hslot; eexists; split; try reflexivity.
  - apply inv_update; [exact Hinv1|]. apply set_keeps_init.
    unfold forecast_slot in Hslot.
    repeat match type of Hslot with
           | context [String.eqb ?a ?b] => destruct (String.eqb a b)
           end; inversion Hslot; subst; simpl; tauto.
  - exact Hinv1.
Qed.

Lemma actions_step_inv tz acc seen r hk :
  hour_key_of tz r = Some hk -> In (rec_field r) actions_fields -> inv actions_init acc seen ->
  exists acc', actions_step tz acc r = Some acc' /\ inv actions_init acc' (seen ++ [hk]).
Proof.
  intros Hr Hf Hinv. unfold actions_step. rewrite Hr. eexists; split; [reflexivity|].
  apply inv_update; [exact (inv_ensure _ _ _ hk Hinv)|]. apply set_keeps_init.
  unfold actions_fields in Hf. simpl in Hf.
  repeat (destruct Hf as [Hf|Hf]; [rewrite <- Hf; simpl; tauto|]). contradiction.
Qed.

(** what [emit] makes of an accumulator that satisfies the invariant *)
Lemma emit_spec init acc keys :
  inv init acc keys -> NoDup (map fst init) -> ~ In "dt" (map fst init) ->
  exists dts,
    map record_dt (emit acc) = map Some dts /\
    StronglySorted StrOrder.lt dts /\
    NoDup dts /\
    (forall k, In k dts <-> In k keys) /\
    (forall rec, In rec (emit acc) -> map fst rec = "dt" :: map fst init).
Proof.
  intros [Hnd [Hks Hvs]] Hndi Hdt.
  set (sorted := StrOrder.sort_items acc).
  assert (Hperm : Permutation sorted acc) by apply StrOrderFacts.sort_perm.
  assert (Hvs' : forall k d, In (k, d) sorted -> map fst d = map fst init).
  { intros k d Hin. eapply Hvs. eapply Permutation_in; eauto. }
  assert (Hemit : emit acc = map (fun kv => ("dt", VStr (fst kv)) :: snd kv) sorted).
  { unfold emit. fold sorted. apply map_ext_in. intros [k d] Hin. simpl.
    apply splat_fresh; rewrite (Hvs' k d Hin); assumption. }
  exists (map fst sorted). split; [|split; [|split; [|split]]].
  - rewrite Hemit, !map_map. apply map_ext. intros [k d]. unfold record_dt. simpl. reflexivity.
  - apply StrOrderFacts.sort_strongly_sorted_keys. exact Hnd.
  - apply (Permutation_NoDup (Permutation_map fst (Permutation_sym Hperm))). exact Hnd.
  - intros k. rewrite <- Hks. split; apply Permutation_in;
      [|apply Permutation_sym]; apply Permutation_map; exact Hperm.
  - rewrite Hemit. intros rec Hin. apply in_map_iff in Hin as [[k d] [<- Hin]].
    simpl. f_equal. eapply Hvs'. exact Hin.
Qed.

Lemma NoDup_same_length (l1 l2 : list string) :
  NoDup l1 -> (forall k, In k l1 <-> In k (nodup string_dec l2)) ->
  length l1 = length (nodup string_dec l2).
Proof.
  intros Hnd Hiff. apply Permutation_length. apply NoDup_Permutation; auto using NoDup_nodup.
Qed.

End Facts.
End ReshapeFacts.

Module ReshapeClaims.
Import Reshape PyDictFacts ReshapeFacts.

Section Claims.
Context `{Lib : PyTimeLib}.

Lemma reshaped_of_inv init acc keys :
  inv init acc ([] ++ keys) -> NoDup (map fst init) -> ~ In "dt" (map fst init) ->
  reshaped init keys (emit acc).
Proof.
  simpl. intros Hinv Hnd Hdt.
  destruct (emit_spec init acc keys Hinv Hnd Hdt) as [dts [Hm [Hs [Hndd [Hk Hr]]]]].
  split; [|exists dts; auto].
  assert (Hlen : length (emit acc) = length dts)
    by (rewrite <- (length_map record_dt), Hm; apply length_map).
  rewrite Hlen. apply NoDup_same_length; [exact Hndd|].
  intros k. rewrite nodup_In. apply Hk.
Qed.

Lemma forecast_init_ok : NoDup (map fst forecast_init) /\ ~ In "dt" (map fst forecast_init).
Proof.
  split.
  - simpl. repeat constructor; simpl; intuition discriminate.
  - simpl. intuition discriminate.
Qed.

Lemma actions_init_ok : NoDup (map fst actions_init) /\ ~ In "dt" (map fst actions_init).
Proof.
  split.
  - simpl. repeat constructor; simpl; intuition discriminate.
  - simpl. intuition discriminate.
Qed.

Lemma forecast_fold_inv tz result keys :
  map (hour_key_of tz) (rows result) = map Some keys ->
  exists acc, fold_rows (forecast_step tz) [] (rows result) = Some acc /\
              inv forecast_init acc ([] ++ keys).
Proof.
  intros Hk.
  apply (fold_rows_inv forecast_init tz (forecast_step tz) (fun _ => True));
    auto using inv_nil.
  intros acc seen r hk Hr _ Hinv. now apply forecast_step_inv.
Qed.

(** C1 *)
(** For rows whose local timestamps are [keys] (every timestamp converts),
    the forecast reshaping returns one record per distinct timestamp, each
    with [dt] and the seven forecast short keys, sorted ascending by [dt];
    the optimal-actions reshaping does the same with its seven keys when
    every field is one the optimal-actions query asks for. *)
Theorem reshape_one_record_per_timestamp hass_timezone result keys :
  map (hour_key_of (get_time_zone hass_timezone)) (rows result) = map Some keys ->
  (exists out, async_get_forecast_reshape hass_timezone result = Some out /\
               reshaped forecast_init keys out) /\
  ((forall r, In r (rows result) -> In (rec_field r) actions_fields) ->
   exists out, async_get_optimal_actions_reshape hass_timezone result = Some out /\
               reshaped actions_init keys out).
Proof.
  intros Hk. split.
  - destruct (forecast_fold_inv _ _ _ Hk) as [acc [Hf Hinv]].
    exists (emit acc). unfold async_get_forecast_reshape. rewrite Hf. split; [reflexivity|].
    apply reshaped_of_inv; [exact Hinv|apply forecast_init_ok|apply forecast_init_ok].
  - intros Hfields.
    destruct (fold_rows_inv actions_init _ (actions_step (get_time_zone hass_timezone))
                (fun r => In (rec_field r) actions_fields)
                (fun acc seen r hk Hr Hp Hi => actions_step_inv _ acc seen r hk Hr Hp Hi)
                (rows result) keys [] [] Hk Hfields (inv_nil _)) as [acc [Hf Hinv]].
    exists (emit acc). unfold async_get_optimal_actions_reshape. rewrite Hf. split; [reflexivity|].
    apply reshaped_of_inv; [exact Hinv|apply actions_init_ok|apply actions_init_ok].
Qed.

Lemma mem_set_iff {A} k k' (v : A) d :
  In k (map fst (PyDict.set k' v d)) <-> k = k' \/ In k (map fst d).
Proof.
  induction d as [|[k'' v''] d IH]; simpl; [intuition congruence|].
  destruct (String.eqb_spec k' k'') as [->|Hne]; simpl; [intuition congruence|].
  rewrite IH. intuition congruence.
Qed.

(** a timestamp none of whose rows has a recognized field keeps the record
    [forecast_init] *)
Lemma forecast_fold_untouched tz hk rs :
  (forall r, In r rs -> hour_key_of tz r = Some hk -> forecast_slot (rec_field r) = None) ->
  forall acc acc',
    (In hk (map fst acc) -> PyDict.get hk acc = Some forecast_init) ->
    fold_rows (forecast_step tz) acc rs = Some acc' ->
    In hk (map fst acc') -> PyDict.get hk acc' = Some forecast_init.
Proof.
  induction rs as [|r rs IH]; intros Hrows acc acc' Hacc Hf.
  - simpl in Hf. injection Hf as <-. exact Hacc.
  - simpl in Hf. destruct (forecast_step tz acc r) as [acc1|] eqn:Hs; [|discriminate].
    apply (IH (fun r' Hr' => Hrows r' (or_intror Hr')) acc1 acc'); [|exact Hf].
    unfold forecast_step in Hs. destruct (hour_key_of tz r) as [hkr|] eqn:Hr; [|discriminate].
    set (acc0 := if PyDict.mem hkr acc then acc else PyDict.set hkr forecast_init acc) in Hs.
    assert (H0 : In hk (map fst acc0) -> PyDict.get hk acc0 = Some forecast_init).
    { unfold acc0. destruct (PyDict.mem hkr acc) eqn:Hm; [exact Hacc|].
      rewrite mem_set_iff. intros Hin.
      destruct (String.eqb_spec hk hkr) as [->|Hne]; [apply get_set_same|].
      rewrite get_set_other by exact Hne. apply Hacc. tauto. }
    destruct (String.eqb_spec hk hkr) as [->|Hne].
    + rewrite (Hrows r (or_introl eq_refl) Hr) in Hs. injection Hs as <-. exact H0.
    + destruct (forecast_slot (rec_field r)); injection Hs as <-; [|exact H0].
      rewrite update_keys, get_update_other by exact Hne. exact H0.
Qed.

(** C10 *)
(** In the forecast reshaping a record is created for every row's local
    timestamp before its field is looked at: the output has one record per
    distinct local timestamp of all rows, and a timestamp whose rows all
    carry unrecognized fields yields the record with [dt] and every short
    key null. *)
Theorem forecast_record_created_before_field hass_timezone result keys :
  map (hour_key_of (get_time_zone hass_timezone)) (rows result) = map Some keys ->
  exists out,
    async_get_forecast_reshape hass_timezone result = Some out /\
    length out = length (nodup string_dec keys) /\
    forall hk, In hk keys ->
      (forall r, In r (rows result) -> hour_key_of (get_time_zone hass_timezone) r = Some hk ->
                 forecast_slot (rec_field r) = None) ->
      In (("dt", VStr hk) :: forecast_init) out.
Proof.
  intros Hk. destruct (forecast_fold_inv _ _ _ Hk) as [acc [Hf Hinv]].
  exists (emit acc). unfold async_get_forecast_reshape. rewrite Hf.
  split; [reflexivity|]. split.
  - destruct (reshaped_of_inv _ _ _ Hinv (proj1 forecast_init_ok) (proj2 forecast_init_ok)) as [Hl _].
    exact Hl.
  - intros hk Hin Hrows.
    destruct Hinv as [Hnd [Hks Hvs]].
    assert (Hin' : In hk (map fst acc)) by (apply Hks; exact Hin).
    assert (Hg : PyDict.get hk acc = Some forecast_init).
    { eapply forecast_fold_untouched; [exact Hrows| |exact Hf|exact Hin']. simpl. tauto. }
    apply get_In in Hg.
    unfold emit. apply in_map_iff. exists (hk, forecast_init). split.
    + simpl. apply splat_fresh; apply forecast_init_ok.
    + apply Permutation_in with (l := acc); [apply Permutation_sym, StrOrderFacts.sort_perm|exact Hg].
Qed.

Lemma fold_set_keys {A} (d pre : PyDict.dict A) x :
  In x (map fst (fold_left (fun acc kv => PyDict.set (fst kv) (snd kv) acc) d pre)) ->
  In x (map fst pre) \/ In x (map fst d).
Proof.
  revert pre. induction d as [|[k v] d IH]; intros pre Hin; simpl in *; [tauto|].
  destruct (IH _ Hin) as [H1|H1]; [|tauto]. apply mem_set_iff in H1. intuition.
Qed.

Lemma update_In {A} hk (g : A -> A) acc k d' :
  In (k, d') (PyDict.update hk g acc) -> In (k, d') acc \/ exists d, In (k, d) acc /\ d' = g d.
Proof.
  induction acc as [|[k0 d0] acc IH]; simpl; [tauto|].
  destruct (String.eqb hk k0); simpl.
  - intros [[= <- <-]|Hin]; [right; exists d0; auto|auto].
  - intros [E|Hin]; [auto|]. destruct (IH Hin) as [H1|[d [H1 H2]]]; eauto.
Qed.

(** the keys of an optimal-actions entry: the seven keys, or the last
    segment of a field already seen *)
Definition action_keys_from (rs : list FluxRecord) (acc : Acc) : Prop :=
  forall k d, In (k, d) acc -> forall x, In x (map fst d) ->
    In x (map fst actions_init) \/ exists r, In r rs /\ last_segment (rec_field r) = x.

Lemma set_In {A} k k' (v : A) acc d :
  In (k, d) (PyDict.set k' v acc) -> In (k, d) acc \/ (k = k' /\ d = v).
Proof.
  induction acc as [|[k0 d0] acc IH]; simpl.
  - intros [[= <- <-]|[]]. auto.
  - destruct (String.eqb k' k0); simpl.
    + intros [[= <- <-]|Hin]; auto.
    + intros [E|Hin]; [auto|]. destruct (IH Hin); auto.
Qed.

Lemma action_keys_mono rs rs' acc :
  incl rs rs' -> action_keys_from rs acc -> action_keys_from rs' acc.
Proof.
  intros Hi Ha k d Hin x Hx. destruct (Ha k d Hin x Hx) as [H1|[r [H1 H2]]]; [auto|].
  right. exists r. auto.
Qed.

Lemma action_keys_step tz done acc r acc' :
  action_keys_from done acc -> actions_step tz acc r = Some acc' ->
  action_keys_from (done ++ [r]) acc'.
Proof.
  intros Hacc Hs. unfold actions_step in Hs.
  destruct (hour_key_of tz r) as [hk|]; [|discriminate]. injection Hs as <-.
  set (acc1 := if PyDict.mem hk acc then acc else PyDict.set hk actions_init acc).
  assert (H1 : action_keys_from (done ++ [r]) acc1).
  { apply (action_keys_mono done); [intros x Hx; apply in_or_app; auto|].
    unfold acc1. destruct (PyDict.mem hk acc); [exact Hacc|].
    intros k d Hin x Hx. apply set_In in Hin as [Hin|[_ ->]]; [eapply Hacc; eauto|auto]. }
  intros k d Hin x Hx. apply update_In in Hin as [Hin|[d0 [Hin ->]]]; [eapply H1; eauto|].
  apply mem_set_iff in Hx as [->|Hx].
  - right. exists r. split; [apply in_or_app; simpl; auto|reflexivity].
  - eapply H1; eauto.
Qed.

Lemma actions_fold_total tz rs :
  forall keys acc done,
    map (hour_key_of tz) rs = map Some keys -> action_keys_from done acc ->
    exists acc', fold_rows (actions_step tz) acc rs = Some acc' /\
                 action_keys_from (done ++ rs) acc'.
Proof.
  induction rs as [|r rs IH]; intros keys acc done Hk Hacc.
  - exists acc. rewrite app_nil_r. auto.
  - destruct keys as [|hk keys]; [discriminate|]. simpl in Hk. injection Hk as Hr Hk.
    simpl. destruct (actions_step tz acc r) as [acc1|] eqn:Hs.
    + replace (done ++ r :: rs) with ((done ++ [r]) ++ rs) by (now rewrite <- app_assoc).
      apply (IH keys); [exact Hk|]. eapply action_keys_step; eauto.
    + unfold actions_step in Hs. rewrite Hr in Hs. discriminate.
Qed.

Lemma splat_keys {A} k0 (v0 : A) d x :
  In x (map fst (PyDict.splat k0 v0 d)) -> x = k0 \/ In x (map fst d).
Proof.
  unfold PyDict.splat. intros Hin. apply fold_set_keys in Hin as [Hin|Hin]; [|auto].
  simpl in Hin. destruct Hin as [->|[]]. auto.
Qed.

(** C2 *)
(** Counterexample: a row of the field [cs/opt_actions/zz], outside the
    seven optimal-actions fields, puts a key [zz] into the reshaped record. *)
Lemma actions_unrecognized_field_adds_key :
  exists out rec,
    @async_get_optimal_actions_reshape Inputs.utc_time_lib "UTC" Inputs.unrecognized_action_rows
      = Some out /\
    In rec out /\ In "zz" (map fst rec) /\
    ~ ("zz" = "dt" \/ In "zz" (map fst (@actions_init Inputs.utc_time_lib))).
Proof.
  eexists. eexists. split; [vm_compute; reflexivity|].
  split; [left; reflexivity|]. split.
  - vm_compute. tauto.
  - simpl. intuition discriminate.
Qed.

End Claims.

#[local] Existing Instance Inputs.utc_time_lib.

Lemma reshape_one_record_per_timestamp_witness :
  map (@hour_key_of Inputs.utc_time_lib (@get_time_zone Inputs.utc_time_lib "UTC"))
      (rows Inputs.action_rows) = map Some Inputs.action_row_keys /\
  (exists out, async_get_forecast_reshape "UTC" Inputs.action_rows = Some out /\
               reshaped forecast_init Inputs.action_row_keys out) /\
  ((forall r, In r (rows Inputs.action_rows) -> In (rec_field r) actions_fields) ->
   exists out, async_get_optimal_actions_reshape "UTC" Inputs.action_rows = Some out /\
               reshaped actions_init Inputs.action_row_keys out).
Proof.
  split; [reflexivity|].
  apply (reshape_one_record_per_timestamp (Lib := Inputs.utc_time_lib) "UTC" _
    Inputs.action_row_keys). reflexivity.
Defined.

Lemma forecast_record_created_before_field_witness :
  map (@hour_key_of Inputs.utc_time_lib (@get_time_zone Inputs.utc_time_lib "UTC"))
      (rows Inputs.action_rows) = map Some Inputs.action_row_keys /\
  exists out,
    async_get_forecast_reshape "UTC" Inputs.action_rows = Some out /\
    length out = length (nodup string_dec Inputs.action_row_keys) /\
    forall hk, In hk Inputs.action_row_keys ->
      (forall r, In r (rows Inputs.action_rows) ->
                 @hour_key_of Inputs.utc_time_lib (@get_time_zone Inputs.utc_time_lib "UTC") r = Some hk ->
                 forecast_slot (rec_field r) = None) ->
      In (("dt", VStr hk) :: forecast_init) out.
Proof.
  split; [reflexivity|].
  apply (forecast_record_created_before_field (Lib := Inputs.utc_time_lib) "UTC" _
    Inputs.action_row_keys). reflexivity.
Defined.

End ReshapeClaims.

Module ApiClaims.
Import FluxLiteral Api.

Lemma on_api_exception_kinds {Lib : PyTimeLib} {Cl : @InfluxClient Lib} A op flux err :
  raises_auth (on_api_exception (A := A) op flux err) = status_is 401 err /\
  raises_request (on_api_exception (A := A) op flux err) = negb (status_is 401 err).
Proof.
  unfold on_api_exception, raises_auth, raises_request.
  destruct (status_is 401 err), (status_is 400 err); split; reflexivity.
Qed.

Section Claims.
Context {Lib : PyTimeLib} {Cl : @InfluxClient Lib}.

(** C3 *)
(** When the backend raises an [ApiException] [err] on every call, each of
    the four query operations (validate, with or without a bucket,
    last-value, forecast, optimal actions) raises [SolarCubeApiAuthError]
    exactly when the status of [err] is 401, and [SolarCubeApiRequestError]
    exactly when it is not. *)
Theorem api_error_status_mapping err bucket b measurement field range_start hass_timezone :
  (forall q, query q = inl err) ->
  find_buckets = inl err ->
  let auth := status_is 401 err in
  (raises_auth (async_validate bucket) = auth /\
   raises_request (async_validate bucket) = negb auth) /\
  (raises_auth (async_query_last b measurement field range_start) = auth /\
   raises_request (async_query_last b measurement field range_start) = negb auth) /\
  (raises_auth (async_get_forecast b hass_timezone) = auth /\
   raises_request (async_get_forecast b hass_timezone) = negb auth) /\
  (raises_auth (async_get_optimal_actions b hass_timezone) = auth /\
   raises_request (async_get_optimal_actions b hass_timezone) = negb auth).
Proof.
  intros Hq Hb auth. subst auth.
  unfold async_validate, async_query_last, async_get_forecast, async_get_optimal_actions.
  rewrite !Hq.
  repeat split; try apply on_api_exception_kinds;
    destruct bucket as [[|c cs]|]; rewrite ?Hq, ?Hb; apply on_api_exception_kinds.
Qed.

End Claims.

Lemma api_error_status_mapping_witness :
  (forall q, @query Inputs.utc_time_lib (Inputs.failing_client Inputs.unauthorized) q
             = inl Inputs.unauthorized) /\
  @find_buckets Inputs.utc_time_lib (Inputs.failing_client Inputs.unauthorized) = inl Inputs.unauthorized /\
  raises_auth (@async_validate Inputs.utc_time_lib (Inputs.failing_client Inputs.unauthorized)
                 (Some (pystr_of_string "solar"))) = true /\
  raises_request (@async_get_forecast Inputs.utc_time_lib (Inputs.failing_client Inputs.unauthorized)
                 (pystr_of_string "solar") "UTC") = false.
Proof.
  split; [intros q; reflexivity|]. split; [reflexivity|].
  destruct (api_error_status_mapping (Lib := Inputs.utc_time_lib)
              (Cl := Inputs.failing_client Inputs.unauthorized) Inputs.unauthorized
              (Some (pystr_of_string "solar")) (pystr_of_string "solar")
              (pystr_of_string "m") (pystr_of_string "f") (pystr_of_string "-5m") "UTC"
              (fun q => eq_refl) eq_refl)
    as [[Ha _] [_ [[_ Hr] _]]].
  split; [exact Ha | exact Hr].
Defined.

End ApiClaims.

Module PyFacts.
Import Py PyDictFacts.

Lemma mem_get {A} k (d : PyDict.dict A) :
  PyDict.mem k d = match PyDict.get k d with Some _ => true | None => false end.
Proof.
  induction d as [|[k' v'] d IH]; [reflexivity|].
  unfold PyDict.mem in *. simpl. destruct (String.eqb k k'); simpl; auto.
Qed.

Lemma set_get_same {A} k (v : A) d : PyDict.get k d = Some v -> PyDict.set k v d = d.
Proof.
  induction d as [|[k' v'] d IH]; simpl; [discriminate|].
  destruct (String.eqb_spec k k') as [->|Hne]; [intros [= ->]; reflexivity|].
  intros Hg. now rewrite IH.
Qed.

(** [if k' not in d: d[k'] = v] *)
Lemma get_default {A} k k' (v : A) (d : list (string * A)) :
  PyDict.get k (match PyDict.mem k' d return list (string * A) with
                | true => d
                | false => PyDict.set k' v d
                end) =
  if String.eqb k k' then Some (match PyDict.get k' d with Some w => w | None => v end)
  else PyDict.get k d.
Proof.
  rewrite mem_get. destruct (String.eqb_spec k k') as [->|Hne].
  - destruct (PyDict.get k' d) eqn:E; [exact E|]. apply get_set_same.
  - destruct (PyDict.get k' d); [reflexivity|]. now apply get_set_other.
Qed.

Lemma get_app_notin {A} k (pre d : PyDict.dict A) :
  ~ In k (map fst pre) -> PyDict.get k (pre ++ d) = PyDict.get k d.
Proof.
  induction pre as [|[k' v'] pre IH]; simpl; [reflexivity|]. intros Hn.
  destruct (String.eqb_spec k k') as [->|Hne]; [exfalso; auto|auto].
Qed.

(** induction on values, with the hypothesis on every element of a list
    and every value of a dict *)
Lemma PyObj_ind' (P : PyObj -> Prop)
  (HNone : P PNone) (HBool : forall b, P (PBool b)) (HInt : forall z, P (PInt z))
  (HFloat : forall q, P (PFloat q)) (HStr : forall s, P (PStr s))
  (HList : forall l, Forall P l -> P (PList l))
  (HDict : forall d, Forall (fun kv => P (snd kv)) d -> P (PDict d)) :
  forall v, P v.
Proof.
  fix IH 1. intros [|b|z|q|s|l|d];
    [exact HNone|apply HBool|apply HInt|apply HFloat|apply HStr| |].
  - apply HList. revert l. fix IHl 1. intros [|x l]; constructor; [apply IH|apply IHl].
  - apply HDict. revert d. fix IHd 1. intros [|[k x] d]; constructor; [apply IH|apply IHd].
Qed.

Lemma dict_eq_go_refl (eq : PyObj -> PyObj -> bool) xs : forall pre seen,
  Forall (fun kv => eq (snd kv) (snd kv) = true) xs ->
  (forall k, In k (map fst pre) -> In k seen) ->
  dict_eq_go eq (pre ++ xs) xs seen = true.
Proof.
  induction xs as [|[k v] xs IH]; intros pre seen HF Hs; [reflexivity|].
  inversion HF as [|? ? Hv HF']; subst. simpl.
  replace (pre ++ (k, v) :: xs) with ((pre ++ [(k, v)]) ++ xs) by (rewrite <- app_assoc; reflexivity).
  rewrite IH; [rewrite andb_true_r| exact HF' |].
  - destruct (existsb (String.eqb k) seen) eqn:E; [reflexivity|].
    rewrite <- app_assoc, get_app_notin; simpl.
    + rewrite String.eqb_refl. exact Hv.
    + intros Hin. apply Hs in Hin.
      assert (existsb (String.eqb k) seen = true)
        by (apply existsb_exists; exists k; split; [exact Hin|apply String.eqb_refl]).
      congruence.
  - intros k' Hin. rewrite map_app, in_app_iff in Hin. simpl in Hin.
    destruct Hin as [Hin|[<-|[]]]; [right; auto|left; reflexivity].
Qed.

(** [x == x] *)
Lemma py_eq_refl v : py_eq v v = true.
Proof.
  induction v using PyObj_ind'; simpl.
  - reflexivity.
  - destruct b; reflexivity.
  - apply Qeq_bool_refl.
  - apply Qeq_bool_refl.
  - apply String.eqb_refl.
  - induction H as [|x l Hx _ IHl]; simpl; [reflexivity|]. now rewrite Hx, IHl.
  - rewrite Nat.eqb_refl. simpl. apply (dict_eq_go_refl py_eq d [] []); [exact H|intros k []].
Qed.

End PyFacts.

Module ProvisionFacts.
Import Py Provision PyDictFacts PyFacts.

Section Facts.
Context `{PP : PyParsers} `{PR : PyRepr}.

Lemma merge_loop_spec ids aliases shipped : forall existing changed,
  merge_loop ids aliases existing changed shipped =
  (existing ++ filter (fun a => negb (already_present ids aliases a)) shipped,
   changed || existsb (fun a => negb (already_present ids aliases a)) shipped).
Proof.
  induction shipped as [|a shipped IH]; intros existing changed; simpl.
  - now rewrite app_nil_r, orb_false_r.
  - destruct (already_present ids aliases a); simpl; rewrite IH; [reflexivity|].
    f_equal; [now rewrite <- app_assoc|now rewrite !orb_true_r].
Qed.

Lemma existsb_filter {A} (f : A -> bool) l :
  existsb f l = match filter f l with [] => false | _ :: _ => true end.
Proof. induction l as [|a l IH]; simpl; [reflexivity|]. now destruct (f a). Qed.

(** [_read_merge_write] once [existing] is loaded: the shipped automations
    not already present are appended, and the file is written iff there is
    one *)
Lemma read_merge_write_spec shipped fs existing :
  (if exists_ (automations_yaml fs) then _load_yaml_list (automations_yaml fs) else inr []) = inr existing ->
  _read_merge_write shipped fs =
    match filter (fun a => negb (already_present (existing_ids existing) (existing_aliases existing) a)) shipped with
    | [] => (inr false, fs)
    | appended =>
        if automations_writable fs
        then (inr true, set_automations_yaml (FText (TDumped (PList (map PDict (existing ++ appended))))) fs)
        else (inr false, fs)
    end.
Proof.
  intros Hl. unfold _read_merge_write. rewrite Hl. cbv beta iota zeta.
  rewrite merge_loop_spec. simpl orb. rewrite existsb_filter.
  destruct (filter _ shipped); reflexivity.
Qed.

Lemma existing_ids_iff existing x :
  existsb (String.eqb x) (existing_ids existing) = true <->
  exists e, In e existing /\ str_field "id" e = Some x.
Proof.
  rewrite existsb_exists. unfold existing_ids. split.
  - intros [y [Hy Heq]]. apply String.eqb_eq in Heq; subst y.
    apply in_flat_map in Hy as [e [He Hy]].
    destruct (str_field "id" e) eqn:E; [destruct Hy as [->|[]]|destruct Hy]. eauto.
  - intros [e [He Hs]]. exists x. split; [|apply String.eqb_refl].
    apply in_flat_map. exists e. rewrite Hs. simpl. auto.
Qed.

Lemma existing_aliases_iff existing x :
  existsb (String.eqb x) (existing_aliases existing) = true <->
  exists e s, In e existing /\ str_field "alias" e = Some s /\ lower s = x.
Proof.
  rewrite existsb_exists. unfold existing_aliases. split.
  - intros [y [Hy Heq]]. apply String.eqb_eq in Heq; subst y.
    apply in_flat_map in Hy as [e [He Hy]].
    destruct (str_field "alias" e) eqn:E; [destruct Hy as [Hy|[]]|destruct Hy]. subst x. eauto.
  - intros [e [s [He [Hs Hl]]]]. exists x. split; [|apply String.eqb_refl].
    apply in_flat_map. exists e. rewrite Hs. simpl. auto.
Qed.

(** the two [continue] tests in terms of the existing entries *)
Lemma already_present_iff existing a :
  already_present (existing_ids existing) (existing_aliases existing) a = true <->
  (or_empty_str "id" a <> EmptyString /\
   exists e, In e existing /\ str_field "id" e = Some (or_empty_str "id" a)) \/
  (or_empty_str "id" a = EmptyString /\ or_empty_str "alias" a <> EmptyString /\
   exists e s, In e existing /\ str_field "alias" e = Some s /\ lower s = lower (or_empty_str "alias" a)).
Proof.
  unfold already_present.
  pose proof (existing_ids_iff existing (or_empty_str "id" a)) as Hid.
  pose proof (existing_aliases_iff existing (lower (or_empty_str "alias" a))) as Hal.
  rewrite <- Hid, <- Hal.
  destruct (String.eqb_spec (or_empty_str "id" a) EmptyString) as [Ei|Ei];
  destruct (String.eqb_spec (or_empty_str "alias" a) EmptyString) as [Ea|Ea];
  destruct (existsb (String.eqb (or_empty_str "id" a)) (existing_ids existing));
  destruct (existsb (String.eqb (lower (or_empty_str "alias" a))) (existing_aliases existing));
  simpl; intuition congruence.
Qed.

Lemma get_es_step td c k :
  PyDict.get k (match PyDict.get "energy_sources" td with
                | Some (PList l) => PyDict.set "energy_sources" (PList l) c
                | _ => c end) =
  if String.eqb k "energy_sources" then
    match PyDict.get "energy_sources" td with
    | Some (PList l) => Some (PList l)
    | _ => PyDict.get "energy_sources" c
    end
  else PyDict.get k c.
Proof.
  destruct (String.eqb_spec k "energy_sources") as [->|Hne];
  destruct (PyDict.get "energy_sources" td) as [[]|]; try reflexivity;
  [apply get_set_same|now apply get_set_other].
Qed.

(** a key of [new_data] *)
Lemma get_merge_energy_data td c k :
  PyDict.get k (merge_energy_data td c) =
  if String.eqb k "device_consumption_water" then
    Some (match PyDict.get "device_consumption_water" c with
          | Some w => w
          | None => match PyDict.get "device_consumption_water" td with Some v => v | None => PList [] end
          end)
  else if String.eqb k "device_consumption" then
    Some (match PyDict.get "device_consumption" c with
          | Some w => w
          | None => match PyDict.get "device_consumption" td with Some v => v | None => PList [] end
          end)
  else if String.eqb k "energy_sources" then
    match PyDict.get "energy_sources" td with
    | Some (PList l) => Some (PList l)
    | _ => PyDict.get "energy_sources" c
    end
  else PyDict.get k c.
Proof.
  unfold merge_energy_data. cbv zeta. rewrite !get_default, !get_es_step.
  destruct (String.eqb k "device_consumption_water") eqn:E1;
    [apply String.eqb_eq in E1; subst k; reflexivity|].
  destruct (String.eqb k "device_consumption") eqn:E2;
    [apply String.eqb_eq in E2; subst k; reflexivity|].
  reflexivity.
Qed.

(** merging the template twice is merging it once *)
Lemma merge_energy_data_idem td c :
  merge_energy_data td (merge_energy_data td c) = merge_energy_data td c.
Proof.
  set (m := merge_energy_data td c).
  assert (Hes : match PyDict.get "energy_sources" td with
                | Some (PList l) => PyDict.set "energy_sources" (PList l) m
                | _ => m end = m).
  { destruct (PyDict.get "energy_sources" td) as [[]|] eqn:E; try reflexivity.
    apply set_get_same. unfold m. rewrite get_merge_energy_data, E. reflexivity. }
  assert (Hdc : PyDict.mem "device_consumption" m = true).
  { unfold m. rewrite mem_get, get_merge_energy_data. reflexivity. }
  assert (Hw : PyDict.mem "device_consumption_water" m = true).
  { unfold m. rewrite mem_get, get_merge_energy_data. reflexivity. }
  unfold merge_energy_data at 1. cbv zeta. rewrite Hes, Hdc, Hw. reflexivity.
Qed.

(** a key of [out] *)
Lemma get_energy_out existing new_data k :
  PyDict.get k (energy_out existing new_data) =
  if String.eqb k "data" then Some (PDict new_data)
  else if String.eqb k "key" then Some (PStr "energy")
  else if String.eqb k "minor_version" then
    Some (match PyDict.get "minor_version" existing with Some w => w | None => PInt 2 end)
  else if String.eqb k "version" then
    Some (match PyDict.get "version" existing with Some w => w | None => PInt 1 end)
  else PyDict.get k existing.
Proof.
  unfold energy_out. cbv zeta.
  destruct (String.eqb_spec k "data") as [->|H1]; [apply get_set_same|rewrite get_set_other by exact H1].
  destruct (String.eqb_spec k "key") as [->|H2]; [apply get_set_same|rewrite get_set_other by exact H2].
  rewrite !get_default.
  destruct (String.eqb k "minor_version") eqn:E1;
    [apply String.eqb_eq in E1; subst k; reflexivity|].
  reflexivity.
Qed.

(** a run that writes the store writes [energy_out existing new_data] *)
Lemma read_modify_write_written td fs fs' :
  _read_modify_write td fs = (inr true, fs') ->
  exists raw existing0,
    storage_dir_ok fs = true /\ energy_writable fs = true /\
    read_store (energy_store fs) = ReadOk raw existing0 /\
    let existing := match existing0 with PDict d => d | _ => [] end in
    energy_store fs' =
      FText (TDumped (PDict (energy_out existing
                               (merge_energy_data td (as_dict (PyDict.get "data" existing)))))).
Proof.
  unfold _read_modify_write.
  destruct (storage_dir_ok fs) eqn:Hd; simpl; [|discriminate].
  destruct (read_store (energy_store fs)) as [raw e0| |e] eqn:Hr; try discriminate.
  cbv zeta.
  destruct (_ && _); [discriminate|].
  destruct (energy_writable fs) eqn:Hw; [|discriminate].
  intros [= <-]. exists raw, e0. repeat split; reflexivity.
Qed.

(** a run that leaves the store as it was *)
Lemma read_modify_write_store td fs :
  energy_store (snd (_read_modify_write td fs)) <> energy_store fs ->
  exists raw existing0,
    storage_dir_ok fs = true /\ energy_writable fs = true /\
    read_store (energy_store fs) = ReadOk raw existing0 /\
    let existing := match existing0 with PDict d => d | _ => [] end in
    energy_store (snd (_read_modify_write td fs)) =
      FText (TDumped (PDict (energy_out existing
                               (merge_energy_data td (as_dict (PyDict.get "data" existing)))))).
Proof.
  intros Hne. destruct (_read_modify_write td fs) as [r fs'] eqn:E. simpl in *.
  destruct r as [e|[|]].
  - exfalso. apply Hne. unfold _read_modify_write in E.
    destruct (storage_dir_ok fs); simpl in E; [|congruence].
    destruct (read_store (energy_store fs)); try congruence. cbv zeta in E.
    destruct (_ && _); [congruence|]. destruct (energy_writable fs); congruence.
  - apply read_modify_write_written in E. exact E.
  - exfalso. apply Hne. unfold _read_modify_write in E.
    destruct (storage_dir_ok fs); simpl in E; [|congruence].
    destruct (read_store (energy_store fs)); try congruence. cbv zeta in E.
    destruct (_ && _); [congruence|]. destruct (energy_writable fs); [congruence|].
    injection E as <-. reflexivity.
Qed.

End Facts.
End ProvisionFacts.

Module ProvisionClaims.
Import Py Provision PyDictFacts PyFacts ProvisionFacts.

Section Claims.
Context `{PP : PyParsers} `{PR : PyRepr}.

(** C4 *)
(** When [_read_modify_write] writes the energy store, the written [data]
    has: [energy_sources] replaced by the template's when that is a list,
    and otherwise kept as it was (or absent); [device_consumption] and
    [device_consumption_water] kept when present and otherwise taken from
    the template, or [[]] when the template lacks them; every other key of
    the current [data] unchanged. [version] and [minor_version] default to
    1 and 2 when absent. *)
Theorem energy_merge_postcondition td fs fs' :
  _read_modify_write td fs = (inr true, fs') ->
  exists existing new_data out,
    (exists raw existing0, read_store (energy_store fs) = ReadOk raw existing0 /\
       existing = match existing0 with PDict d => d | _ => [] end) /\
    energy_store fs' = FText (TDumped (PDict out)) /\
    PyDict.get "data" out = Some (PDict new_data) /\
    (let current := as_dict (PyDict.get "data" existing) in
     PyDict.get "energy_sources" new_data =
       match PyDict.get "energy_sources" td with
       | Some (PList l) => Some (PList l)
       | _ => PyDict.get "energy_sources" current
       end /\
     PyDict.get "device_consumption" new_data =
       Some (match PyDict.get "device_consumption" current with
             | Some w => w
             | None => match PyDict.get "device_consumption" td with Some v => v | None => PList [] end
             end) /\
     PyDict.get "device_consumption_water" new_data =
       Some (match PyDict.get "device_consumption_water" current with
             | Some w => w
             | None => match PyDict.get "device_consumption_water" td with Some v => v | None => PList [] end
             end) /\
     (forall k, k <> "energy_sources" -> k <> "device_consumption" -> k <> "device_consumption_water" ->
        PyDict.get k new_data = PyDict.get k current)) /\
    PyDict.get "version" out =
      Some (match PyDict.get "version" existing with Some w => w | None => PInt 1 end) /\
    PyDict.get "minor_version" out =
      Some (match PyDict.get "minor_version" existing with Some w => w | None => PInt 2 end).
Proof.
  intros Hw. apply read_modify_write_written in Hw as [raw [e0 [_ [_ [Hr Hs]]]]].
  set (existing := match e0 with PDict d => d | _ => [] end) in *.
  set (current := as_dict (PyDict.get "data" existing)).
  exists existing, (merge_energy_data td current), (energy_out existing (merge_energy_data td current)).
  split; [eauto|]. split; [exact Hs|].
  split; [rewrite get_energy_out; reflexivity|].
  split; [|split; rewrite get_energy_out; reflexivity].
  split; [rewrite get_merge_energy_data; reflexivity|].
  split; [rewrite get_merge_energy_data; reflexivity|].
  split; [rewrite get_merge_energy_data; reflexivity|].
  intros k H1 H2 H3. rewrite get_merge_energy_data.
  apply String.eqb_neq in H1, H2, H3. now rewrite H1, H2, H3.
Qed.

(** C5 *)
(** When [_read_modify_write] writes the energy store, every top-level key
    of the existing store other than [data] and [key] keeps its value;
    [key] becomes ["energy"]; [version] and [minor_version] are set to 1
    and 2 only when absent. *)
Theorem energy_merge_frame td fs fs' :
  _read_modify_write td fs = (inr true, fs') ->
  exists raw existing0 out,
    read_store (energy_store fs) = ReadOk raw existing0 /\
    energy_store fs' = FText (TDumped (PDict out)) /\
    let existing := match existing0 with PDict d => d | _ => [] end in
    (forall k, k <> "data" -> k <> "key" -> PyDict.get k existing <> None ->
       PyDict.get k out = PyDict.get k existing) /\
    PyDict.get "key" out = Some (PStr "energy") /\
    (PyDict.get "version" existing = None -> PyDict.get "version" out = Some (PInt 1)) /\
    (PyDict.get "minor_version" existing = None -> PyDict.get "minor_version" out = Some (PInt 2)).
Proof.
  intros Hw. apply read_modify_write_written in Hw as [raw [e0 [_ [_ [Hr Hs]]]]].
  exists raw, e0. eexists. split; [exact Hr|]. split; [exact Hs|].
  set (existing := match e0 with PDict d => d | _ => [] end).
  split; [|split; [rewrite get_energy_out; reflexivity|split]].
  - intros k H1 H2 Hk. rewrite get_energy_out.
    apply String.eqb_neq in H1, H2. rewrite H1, H2.
    destruct (String.eqb_spec k "minor_version") as [->|_].
    + destruct (PyDict.get "minor_version" existing); [reflexivity|congruence].
    + destruct (String.eqb_spec k "version") as [->|_]; [|reflexivity].
      destruct (PyDict.get "version" existing); [reflexivity|congruence].
  - intros Hv. rewrite get_energy_out. simpl. now rewrite Hv.
  - intros Hv. rewrite get_energy_out. simpl. now rewrite Hv.
Qed.

(** C6 *)
(** Once the user file is loaded as the list of its dict entries
    [existing]: the shipped automations that are not already present are
    appended, in order, after [existing]. The file is written, and [True]
    returned, iff there is at least one and [config_path.write_text]
    succeeds; when that write raises [OSError], [False] is returned and the
    file is left as it was. A shipped automation is already present iff its
    [str(id or '').strip()] is non-empty and is the stripped [id] of an
    existing entry whose [id] is a non-blank string, or that text is empty,
    its [str(alias or '').strip()] is non-empty, and its lower case is the
    lower case of the stripped [alias] of an existing entry whose [alias] is
    a non-blank string. *)
Theorem automations_merge_spec shipped fs existing :
  (if exists_ (automations_yaml fs) then _load_yaml_list (automations_yaml fs) else inr []) = inr existing ->
  _read_merge_write shipped fs =
    match filter (fun a => negb (already_present (existing_ids existing) (existing_aliases existing) a)) shipped with
    | [] => (inr false, fs)
    | appended =>
        if automations_writable fs
        then (inr true, set_automations_yaml (FText (TDumped (PList (map PDict (existing ++ appended))))) fs)
        else (inr false, fs)
    end /\
  forall a,
    already_present (existing_ids existing) (existing_aliases existing) a = true <->
    (or_empty_str "id" a <> EmptyString /\
     exists e, In e existing /\ str_field "id" e = Some (or_empty_str "id" a)) \/
    (or_empty_str "id" a = EmptyString /\ or_empty_str "alias" a <> EmptyString /\
     exists e s, In e existing /\ str_field "alias" e = Some s /\ lower s = lower (or_empty_str "alias" a)).
Proof.
  intros Hl. split; [now apply read_merge_write_spec|]. intros a. apply already_present_iff.
Qed.

End Claims.

#[local] Existing Instance Inputs.rejecting_parsers.
#[local] Existing Instance Inputs.plain_repr.

(** C4: the template's [energy_sources] is a string: the store is written
    without [energy_sources] *)
Lemma energy_sources_not_list_not_copied :
  PyDict.get "energy_sources" Inputs.string_sources_template = Some (PStr "solar") /\
  _read_modify_write Inputs.string_sources_template Inputs.empty_fs =
    (inr true,
     set_energy (FText (TDumped (PDict
       [("version", PInt 1); ("minor_version", PInt 2); ("key", PStr "energy");
        ("data", PDict [("device_consumption", PList []); ("device_consumption_water", PList [])])])))
       [] Inputs.empty_fs).
Proof. split; vm_compute; reflexivity. Qed.

(** C5: an existing [key] of the store is overwritten *)
Lemma energy_store_key_overwritten :
  _read_modify_write Inputs.sources_template
    (Inputs.with_energy_store (FText (TDumped Inputs.custom_key_store)) Inputs.empty_fs) =
    (inr true,
     set_energy (FText (TDumped (PDict
       [("key", PStr "energy");
        ("data", PDict [("energy_sources", PList []); ("device_consumption", PList []);
                        ("device_consumption_water", PList [])]);
        ("version", PInt 1); ("minor_version", PInt 2)])))
       [TDumped Inputs.custom_key_store]
       (Inputs.with_energy_store (FText (TDumped Inputs.custom_key_store)) Inputs.empty_fs)).
Proof. vm_compute. reflexivity. Qed.

(** C6: an existing automation with the integer [id] 5 does not stop the
    shipped automation with [id] 5 from being appended *)
Lemma automation_int_id_duplicated :
  _read_merge_write [Inputs.automation_id5]
    (Inputs.with_automations (FText (TDumped (PList [PDict Inputs.automation_id5]))) Inputs.empty_fs) =
    (inr true,
     set_automations_yaml (FText (TDumped (PList [PDict Inputs.automation_id5; PDict Inputs.automation_id5])))
       (Inputs.with_automations (FText (TDumped (PList [PDict Inputs.automation_id5]))) Inputs.empty_fs)).
Proof. vm_compute. reflexivity. Qed.

Lemma energy_merge_postcondition_witness :
  _read_modify_write Inputs.spec_template_data
    (Inputs.with_energy_store (FText (TDumped Inputs.spec_energy_store)) Inputs.empty_fs) =
    (inr true, snd (_read_modify_write Inputs.spec_template_data
      (Inputs.with_energy_store (FText (TDumped Inputs.spec_energy_store)) Inputs.empty_fs))) /\
  exists new_data out,
    energy_store (snd (_read_modify_write Inputs.spec_template_data
      (Inputs.with_energy_store (FText (TDumped Inputs.spec_energy_store)) Inputs.empty_fs)))
      = FText (TDumped (PDict out)) /\
    PyDict.get "data" out = Some (PDict new_data) /\
    PyDict.get "energy_sources" new_data = Some (PList [PDict [("type", PStr "solar")]]) /\
    PyDict.get "device_consumption" new_data = Some (PList [PDict [("x", PInt 1)]]) /\
    PyDict.get "device_consumption_water" new_data = Some (PList []) /\
    PyDict.get "version" out = Some (PInt 1) /\
    PyDict.get "minor_version" out = Some (PInt 2).
Proof.
  assert (Hw : _read_modify_write Inputs.spec_template_data
    (Inputs.with_energy_store (FText (TDumped Inputs.spec_energy_store)) Inputs.empty_fs) =
    (inr true, snd (_read_modify_write Inputs.spec_template_data
      (Inputs.with_energy_store (FText (TDumped Inputs.spec_energy_store)) Inputs.empty_fs))))
    by (vm_compute; reflexivity).
  split; [exact Hw|].
  destruct (energy_merge_postcondition _ _ _ Hw)
    as [existing [new_data [out [[raw [e0 [Hr He]]] [Hs [Hd [[Hes [Hdc [Hdw _]]] [Hv Hm]]]]]]]].
  vm_compute in Hr. injection Hr as <- <-. subst existing.
  exists new_data, out. repeat split; assumption.
Defined.

Lemma energy_merge_frame_witness :
  _read_modify_write Inputs.spec_template_data
    (Inputs.with_energy_store (FText (TDumped Inputs.spec_energy_store)) Inputs.empty_fs) =
    (inr true, snd (_read_modify_write Inputs.spec_template_data
      (Inputs.with_energy_store (FText (TDumped Inputs.spec_energy_store)) Inputs.empty_fs))) /\
  exists out,
    energy_store (snd (_read_modify_write Inputs.spec_template_data
      (Inputs.with_energy_store (FText (TDumped Inputs.spec_energy_store)) Inputs.empty_fs)))
      = FText (TDumped (PDict out)) /\
    PyDict.get "version" out = Some (PInt 1) /\
    PyDict.get "key" out = Some (PStr "energy") /\
    PyDict.get "minor_version" out = Some (PInt 2).
Proof.
  assert (Hw : _read_modify_write Inputs.spec_template_data
    (Inputs.with_energy_store (FText (TDumped Inputs.spec_energy_store)) Inputs.empty_fs) =
    (inr true, snd (_read_modify_write Inputs.spec_template_data
      (Inputs.with_energy_store (FText (TDumped Inputs.spec_energy_store)) Inputs.empty_fs))))
    by (vm_compute; reflexivity).
  split; [exact Hw|].
  destruct (energy_merge_frame _ _ _ Hw) as [raw [e0 [out [Hr [Hs [Hkeep [Hk [_ Hm]]]]]]]].
  vm_compute in Hr. injection Hr as <- <-.
  exists out. split; [exact Hs|]. split; [|split; [exact Hk|apply Hm; reflexivity]].
  rewrite (Hkeep "version"); [reflexivity|discriminate|discriminate|discriminate].
Defined.

Lemma automations_merge_spec_witness :
  (if exists_ (FText (TDumped (PList [PDict Inputs.automation_a1_bar])))
   then _load_yaml_list (FText (TDumped (PList [PDict Inputs.automation_a1_bar]))) else inr [])
    = inr [Inputs.automation_a1_bar] /\
  _read_merge_write [Inputs.automation_a1_foo]
    (Inputs.with_automations (FText (TDumped (PList [PDict Inputs.automation_a1_bar]))) Inputs.empty_fs) =
    (inr false,
     Inputs.with_automations (FText (TDumped (PList [PDict Inputs.automation_a1_bar]))) Inputs.empty_fs).
Proof.
  split; [reflexivity|].
  destruct (automations_merge_spec [Inputs.automation_a1_foo]
              (Inputs.with_automations (FText (TDumped (PList [PDict Inputs.automation_a1_bar])))
                 Inputs.empty_fs)
              [Inputs.automation_a1_bar] eq_refl) as [He _].
  rewrite He. vm_compute. reflexivity.
Defined.

End ProvisionClaims.

Module RuntimeClaims.
Import Py Provision Runtime PyFacts ProvisionFacts.

Section Claims.
Context `{PP : PyParsers} `{PR : PyRepr} `{LH : LovelaceHost}.

Lemma already_present_nil a : already_present [] [] a = false.
Proof. unfold already_present. simpl. now rewrite !andb_false_r. Qed.

Lemma filter_not_present_nil shipped :
  filter (fun a => negb (already_present [] [] a)) shipped = shipped.
Proof.
  induction shipped as [|a shipped IH]; simpl; [reflexivity|].
  rewrite already_present_nil. simpl. now rewrite IH.
Qed.

Lemma with_files_same w : with_files (files w) w = w.
Proof. destruct w; reflexivity. Qed.

Lemma has_set_flag k w : has_flag k (set_flag k w) = true.
Proof. unfold has_flag, set_flag. simpl. rewrite ?String.eqb_refl; reflexivity. Qed.

(** C9 *)
(** A parse error does not escape: an existing [automations.yaml] that
    does not parse, or parses to a non-list, loads as the empty list and the
    merge goes on as for an empty file; a non-blank energy store that does
    not parse ends [_read_modify_write] with [False] and no write; an energy
    template that does not parse loads as [None] and the energy dashboard
    step returns [False] with nothing changed. *)
Theorem parse_errors_do_not_escape shipped fs td w :
  (forall t, automations_yaml fs = FText t ->
     (yaml_safe_load t = None \/ exists v, yaml_safe_load t = Some v /\ is_list v = false) ->
     _load_yaml_list (FText t) = inr [] /\
     _read_merge_write shipped fs =
       match shipped with
       | [] => (inr false, fs)
       | _ :: _ =>
           if automations_writable fs
           then (inr true, set_automations_yaml (FText (TDumped (PList (map PDict shipped)))) fs)
           else (inr false, fs)
       end) /\
  (forall t, energy_store fs = FText t -> blank t = false -> json_loads t = None ->
     _read_modify_write td fs = (inr false, fs)) /\
  (forall t, energy_template (files w) = FText t -> json_loads t = None ->
     _load_template_data (FText t) = inr None /\
     _async_configure_energy_dashboard w = (inr false, w)).
Proof.
  split; [|split].
  - intros t Hf Hp.
    assert (Hl : _load_yaml_list (FText t) = inr []).
    { simpl. destruct (blank t); [reflexivity|].
      destruct Hp as [-> | [v [-> Hv]]]; [reflexivity|]. destruct v; try reflexivity; discriminate. }
    split; [exact Hl|].
    rewrite (read_merge_write_spec shipped fs []) by (rewrite Hf; exact Hl).
    simpl existing_ids. simpl existing_aliases. rewrite filter_not_present_nil.
    destruct shipped; reflexivity.
  - intros t Hf Hb Hj. unfold _read_modify_write.
    destruct (storage_dir_ok fs); [|reflexivity]. simpl.
    rewrite Hf. simpl. now rewrite Hb, Hj.
  - intros t Hf Hj.
    assert (Hl : _load_template_data (FText t) = inr None) by (simpl; now rewrite Hj).
    split; [exact Hl|].
    unfold _async_configure_energy_dashboard. rewrite Hf, Hl. reflexivity.
Qed.

(** C7 *)
(** Run twice in a row: the automations merge and the storage dashboard
    import do nothing the second time, as their flags are set by the first
    run; the energy dashboard step has no flag, but when its first run
    changed the energy store, the second run finds the merged data equal to
    the stored data and changes nothing. *)
Theorem provisioning_second_run_no_change w :
  (let '(_, w1) := _async_ensure_automations w in
   _async_ensure_automations w1 = (inr false, w1)) /\
  (let '(_, w1) := _async_ensure_storage_dashboards w in
   _async_ensure_storage_dashboards w1 = (inr false, w1)) /\
  (let '(_, w1) := _async_configure_energy_dashboard w in
   energy_store (files w1) <> energy_store (files w) ->
   _async_configure_energy_dashboard w1 = (inr false, w1)).
Proof.
  split; [|split].
  - destruct (_async_ensure_automations w) as [r w1] eqn:E.
    assert (Hf : has_flag "automations_imported" w1 = true).
    { unfold _async_ensure_automations in E.
      destruct (has_flag "automations_imported" w) eqn:Hw; [congruence|].
      destruct (negb _); [injection E as _ <-; apply has_set_flag|].
      destruct (_load_yaml_list _) as [e|[|a l]];
        [injection E as _ <-; apply has_set_flag|injection E as _ <-; apply has_set_flag|].
      destruct (_read_merge_write _ _) as [r' fs']. injection E as _ <-.
      unfold has_flag, with_files, set_flag. simpl. rewrite ?String.eqb_refl; reflexivity. }
    unfold _async_ensure_automations at 1. now rewrite Hf.
  - destruct (_async_ensure_storage_dashboards w) as [r w1] eqn:E.
    unfold _async_ensure_storage_dashboards in E.
    destruct (lovelace_loaded w) eqn:Hl; simpl in E.
    + destruct (has_flag "storage_dashboards_imported" w) eqn:Hw.
      * injection E as _ <-. unfold _async_ensure_storage_dashboards. now rewrite Hl, Hw.
      * destruct (storage_import_body _) as [d' c]. injection E as _ <-.
        unfold _async_ensure_storage_dashboards. simpl. rewrite Hl. simpl.
        rewrite ?String.eqb_refl; reflexivity.
    + destruct (has_flag "lovelace_retry_scheduled" w) eqn:Hw.
      * injection E as _ <-. unfold _async_ensure_storage_dashboards. now rewrite Hl, Hw.
      * injection E as _ <-. unfold _async_ensure_storage_dashboards. simpl. rewrite Hl. simpl.
        rewrite ?String.eqb_refl; reflexivity.
  - destruct (_async_configure_energy_dashboard w) as [r w1] eqn:E. intros Hne.
    unfold _async_configure_energy_dashboard in E.
    destruct (negb (exists_ (energy_template (files w)))) eqn:Ht; [injection E as _ <-; congruence|].
    destruct (_load_template_data (energy_template (files w))) as [e|[[|kv td']|]] eqn:Hd;
      try (injection E as _ <-; congruence).
    set (td := kv :: td') in *.
    destruct (_read_modify_write td (files w)) as [r' fs'] eqn:Ew. injection E as _ <-.
    simpl in Hne.
    assert (Hne' : energy_store (snd (_read_modify_write td (files w))) <> energy_store (files w))
      by (rewrite Ew; exact Hne).
    destruct (read_modify_write_store td (files w) Hne') as [raw [e0 [Hsd [Hwr [Hr Hs]]]]].
    rewrite Ew in Hs. simpl in Hs.
    assert (Htpl : energy_template fs' = energy_template (files w) /\ storage_dir_ok fs' = true).
    { unfold _read_modify_write in Ew. rewrite Hsd, Hr, Hwr in Ew. simpl in Ew. cbv zeta in Ew.
      destruct (_ && _); injection Ew as _ <-; split; [reflexivity|exact Hsd|reflexivity|exact Hsd]. }
    destruct Htpl as [Htpl Hsd'].
    unfold _async_configure_energy_dashboard, with_files. simpl. rewrite Htpl, Ht, Hd.
    fold td.
    unfold _read_modify_write. rewrite Hsd', Hs. cbn -[py_eq merge_energy_data energy_out].
    rewrite get_energy_out. cbn -[py_eq merge_energy_data energy_out].
    rewrite merge_energy_data_idem, py_eq_refl. cbn -[py_eq merge_energy_data energy_out].
    destruct fs'; reflexivity.
Qed.

End Claims.

#[local] Existing Instance Inputs.rejecting_parsers.
#[local] Existing Instance Inputs.plain_repr.
#[local] Existing Instance Inputs.counting_lovelace.

Lemma parse_errors_do_not_escape_witness :
  _load_yaml_list (FText (TRaw "[unclosed")) = inr [] /\
  _read_merge_write [Inputs.automation_a1_foo] Inputs.unparseable_fs =
    (inr true, set_automations_yaml (FText (TDumped (PList [PDict Inputs.automation_a1_foo])))
                 Inputs.unparseable_fs) /\
  _read_modify_write Inputs.spec_template_data Inputs.unparseable_fs =
    (inr false, Inputs.unparseable_fs).
Proof.
  destruct (parse_errors_do_not_escape [Inputs.automation_a1_foo] Inputs.unparseable_fs
              Inputs.spec_template_data Inputs.fresh_world) as [Ha [He _]].
  destruct (Ha (TRaw "[unclosed") eq_refl (or_introl eq_refl)) as [Hl Hm].
  split; [exact Hl|]. split.
  - rewrite Hm. reflexivity.
  - apply (He (TRaw "{unclosed") eq_refl eq_refl eq_refl).
Defined.

Lemma provisioning_second_run_no_change_witness :
  energy_store (files (snd (_async_configure_energy_dashboard Inputs.fresh_world)))
    <> energy_store (files Inputs.fresh_world) /\
  _async_configure_energy_dashboard (snd (_async_configure_energy_dashboard Inputs.fresh_world)) =
    (inr false, snd (_async_configure_energy_dashboard Inputs.fresh_world)).
Proof.
  assert (Hne : energy_store (files (snd (_async_configure_energy_dashboard Inputs.fresh_world)))
                <> energy_store (files Inputs.fresh_world)) by (vm_compute; discriminate).
  split; [exact Hne|].
  destruct (provisioning_second_run_no_change Inputs.fresh_world) as [_ [_ He]].
  destruct (_async_configure_energy_dashboard Inputs.fresh_world) as [r w1]. simpl in *.
  exact (He Hne).
Defined.

End RuntimeClaims.

Module FluxFacts.
Import FluxLiteral.
Local Open Scope Z_scope.

(** a [match] on integer literals: split [x] bit by bit until the branch
    is known *)
Ltac zlit_cases x :=
  let p := fresh "p" in
  destruct x as [|p|p]; try reflexivity;
  do 8 (try (destruct p as [p|p|]; try reflexivity));
  try (exfalso; match goal with H : _ <> _ |- _ => apply H; reflexivity end).

Definition cons_result (c : Z) (o : option (pystr * pystr)) : option (pystr * pystr) :=
  match o with Some (s, r) => Some (c :: s, r) | None => None end.

Lemma scanstring_char c rest :
  c <> 34 -> c <> 92 ->
  scanstring (c :: rest) = if c <? 32 then None else cons_result c (scanstring rest).
Proof. intros H1 H2. zlit_cases c. Qed.

Lemma scanstring_backslash x rest :
  x <> 117 ->
  scanstring (92 :: x :: rest) =
    match simple_escape x with Some c => cons_result c (scanstring rest) | None => None end.
Proof. intros H1. zlit_cases x. Qed.

Lemma scanstring_u a b c d rest u :
  hex4_value a b c d = Some u -> is_high_surrogate u = false ->
  scanstring (92 :: 117 :: a :: b :: c :: d :: rest) = cons_result u (scanstring rest).
Proof. intros H1 H2. cbn [scanstring]. rewrite H1, H2. reflexivity. Qed.

Lemma scanstring_high_alone a b c d rest u :
  hex4_value a b c d = Some u -> is_high_surrogate u = true ->
  (forall t, rest <> 92 :: 117 :: t) ->
  scanstring (92 :: 117 :: a :: b :: c :: d :: rest) = cons_result u (scanstring rest).
Proof.
  intros H1 H2 H3. cbn [scanstring]. rewrite H1, H2.
  destruct rest as [|x1 [|x2 t]]; [reflexivity|zlit_cases x1|].
  destruct (Z.eq_dec x1 92) as [->|Hx1]; [|zlit_cases x1].
  assert (Hx2 : x2 <> 117) by (intros ->; exact (H3 t eq_refl)).
  zlit_cases x2.
Qed.

Lemma scanstring_high_then_other a b c d e f g h rest u u2 :
  hex4_value a b c d = Some u -> is_high_surrogate u = true ->
  hex4_value e f g h = Some u2 -> is_low_surrogate u2 = false ->
  scanstring (92 :: 117 :: a :: b :: c :: d :: 92 :: 117 :: e :: f :: g :: h :: rest) =
    cons_result u (scanstring (92 :: 117 :: e :: f :: g :: h :: rest)).
Proof.
  intros H1 H2 H3 H4. cbn [scanstring]. rewrite H1, H2, H3, H4. reflexivity.
Qed.

Lemma scanstring_high_low a b c d e f g h rest u u2 :
  hex4_value a b c d = Some u -> is_high_surrogate u = true ->
  hex4_value e f g h = Some u2 -> is_low_surrogate u2 = true ->
  scanstring (92 :: 117 :: a :: b :: c :: d :: 92 :: 117 :: e :: f :: g :: h :: rest) =
    cons_result (join_surrogates u u2) (scanstring rest).
Proof.
  intros H1 H2 H3 H4. cbn [scanstring]. rewrite H1, H2, H3, H4. reflexivity.
Qed.

Lemma land15 x : Z.land x 15 = x mod 16.
Proof. change 15 with (Z.ones 4). rewrite Z.land_ones by lia. reflexivity. Qed.

Lemma land1023 x : Z.land x 1023 = x mod 1024.
Proof. change 1023 with (Z.ones 10). rewrite Z.land_ones by lia. reflexivity. Qed.

Lemma hex_value_digit d : 0 <= d < 16 -> hex_value (Py_hexdigit d) = Some d.
Proof.
  intros Hd.
  assert (d = 0 \/ d = 1 \/ d = 2 \/ d = 3 \/ d = 4 \/ d = 5 \/ d = 6 \/ d = 7 \/ d = 8 \/
          d = 9 \/ d = 10 \/ d = 11 \/ d = 12 \/ d = 13 \/ d = 14 \/ d = 15) as Hc by lia.
  repeat destruct Hc as [->|Hc]; try reflexivity. subst. reflexivity.
Qed.

Lemma hexdigit_not_special d : 0 <= d < 16 -> Py_hexdigit d <> 34 /\ Py_hexdigit d <> 92.
Proof. intros Hd. unfold Py_hexdigit. destruct (Z.ltb_spec d 10); lia. Qed.

Lemma digit_bound x : 0 <= Z.land x 15 < 16.
Proof. rewrite land15. apply Z.mod_pos_bound. lia. Qed.

(** the four hex digits of [u_escape u] read back as [u] *)
Lemma hex4_u_escape u :
  0 <= u < 65536 ->
  hex4_value (Py_hexdigit (Z.land (Z.shiftr u 12) 15)) (Py_hexdigit (Z.land (Z.shiftr u 8) 15))
             (Py_hexdigit (Z.land (Z.shiftr u 4) 15)) (Py_hexdigit (Z.land u 15)) = Some u.
Proof.
  intros Hu. unfold hex4_value. rewrite !hex_value_digit by apply digit_bound.
  rewrite !Z.shiftr_div_pow2, !land15 by lia. f_equal.
  change (2 ^ 12) with 4096. change (2 ^ 8) with 256. change (2 ^ 4) with 16.
  Z.div_mod_to_equations. nia.
Qed.

Lemma lor_shiftl_small x y : 0 <= y < 1024 -> Z.lor (Z.shiftl x 10) y = Z.shiftl x 10 + y.
Proof.
  intros Hy.
  assert (Hl : Z.land (Z.shiftl x 10) y = 0).
  { apply Z.bits_inj'. intros n Hn. rewrite Z.land_spec, Z.testbit_0_l.
    destruct (Z.lt_ge_cases n 10) as [Hlt|Hge].
    - rewrite Z.shiftl_spec_low by exact Hlt. reflexivity.
    - replace y with (y mod 2 ^ 10) by (rewrite Z.mod_small; [reflexivity|change (2 ^ 10) with 1024; lia]).
      rewrite Z.mod_pow2_bits_high by lia. apply andb_false_r. }
  rewrite Z.add_nocarry_lxor, Z.lxor_lor by exact Hl. reflexivity.
Qed.

Section Supplementary.
Variable c : Z.
Hypothesis Hc : 65536 <= c <= 1114111.

Lemma high_surrogate_value : Py_UNICODE_HIGH_SURROGATE c = 55232 + c / 1024.
Proof. unfold Py_UNICODE_HIGH_SURROGATE. rewrite (Z.shiftr_div_pow2 c 10) by lia. reflexivity. Qed.

Lemma low_surrogate_value : Py_UNICODE_LOW_SURROGATE c = 56320 + c mod 1024.
Proof. unfold Py_UNICODE_LOW_SURROGATE. now rewrite land1023. Qed.

Lemma high_surrogate_range :
  0 <= Py_UNICODE_HIGH_SURROGATE c < 65536 /\ is_high_surrogate (Py_UNICODE_HIGH_SURROGATE c) = true.
Proof.
  rewrite high_surrogate_value. unfold is_high_surrogate.
  assert (64 <= c / 1024 <= 1087) by (Z.div_mod_to_equations; lia).
  split; [lia|]. apply andb_true_iff. split; apply Z.leb_le; lia.
Qed.

Lemma low_surrogate_range :
  0 <= Py_UNICODE_LOW_SURROGATE c < 65536 /\ is_low_surrogate (Py_UNICODE_LOW_SURROGATE c) = true.
Proof.
  rewrite low_surrogate_value. unfold is_low_surrogate.
  assert (0 <= c mod 1024 < 1024) by (apply Z.mod_pos_bound; lia).
  split; [lia|]. apply andb_true_iff. split; apply Z.leb_le; lia.
Qed.

Lemma join_surrogates_inv :
  join_surrogates (Py_UNICODE_HIGH_SURROGATE c) (Py_UNICODE_LOW_SURROGATE c) = c.
Proof.
  unfold join_surrogates. rewrite high_surrogate_value, low_surrogate_value, !land1023.
  assert (Hq : (55232 + c / 1024) mod 1024 = c / 1024 - 64) by (Z.div_mod_to_equations; lia).
  assert (Hr : (56320 + c mod 1024) mod 1024 = c mod 1024) by (Z.div_mod_to_equations; lia).
  rewrite Hq, Hr, lor_shiftl_small by (apply Z.mod_pos_bound; lia).
  rewrite Z.shiftl_mul_pow2 by lia. change (2 ^ 10) with 1024.
  Z.div_mod_to_equations. lia.
Qed.

End Supplementary.

Lemma S_CHAR_spec c : S_CHAR c = true -> 32 <= c /\ c <> 92 /\ c <> 34.
Proof.
  unfold S_CHAR. rewrite !andb_true_iff, !negb_true_iff, !Z.leb_le, !Z.eqb_neq. tauto.
Qed.

Lemma high_not_low u : is_high_surrogate u = true -> is_low_surrogate u = false.
Proof.
  unfold is_high_surrogate, is_low_surrogate. rewrite andb_true_iff, !Z.leb_le. intros Hu.
  destruct (Z.leb_spec 56320 u); [lia|reflexivity].
Qed.

(** the four shapes of [encode_char c] *)
Lemma encode_char_cases c :
  code_point c ->
  (S_CHAR c = true /\ encode_char c = [c]) \/
  (exists x, encode_char c = [92; x] /\ x <> 117 /\ simple_escape x = Some c) \/
  (c < 65536 /\ encode_char c = u_escape c) \/
  (65536 <= c /\
   encode_char c = u_escape (Py_UNICODE_HIGH_SURROGATE c) ++ u_escape (Py_UNICODE_LOW_SURROGATE c)).
Proof.
  intros Hc. unfold encode_char. destruct (S_CHAR c) eqn:Hs; [left; auto|right].
  unfold ascii_escape_unichar.
  destruct (Z.eqb_spec c 92) as [->|_];
    [left; eexists; split; [reflexivity|split; [discriminate|reflexivity]]|].
  destruct (Z.eqb_spec c 34) as [->|_];
    [left; eexists; split; [reflexivity|split; [discriminate|reflexivity]]|].
  destruct (Z.eqb_spec c 8) as [->|_];
    [left; eexists; split; [reflexivity|split; [discriminate|reflexivity]]|].
  destruct (Z.eqb_spec c 12) as [->|_];
    [left; eexists; split; [reflexivity|split; [discriminate|reflexivity]]|].
  destruct (Z.eqb_spec c 10) as [->|_];
    [left; eexists; split; [reflexivity|split; [discriminate|reflexivity]]|].
  destruct (Z.eqb_spec c 13) as [->|_];
    [left; eexists; split; [reflexivity|split; [discriminate|reflexivity]]|].
  destruct (Z.eqb_spec c 9) as [->|_];
    [left; eexists; split; [reflexivity|split; [discriminate|reflexivity]]|].
  right. destruct (Z.leb_spec 65536 c); [right; auto|left; split; [lia|reflexivity]].
Qed.

(** decoding one encoded character; a high surrogate [\uXXXX] must not be
    followed by the escape of a low surrogate *)
Lemma scan_head c T :
  code_point c ->
  (is_high_surrogate c = true -> c < 65536 ->
     (forall t, T <> 92 :: 117 :: t) \/
     exists a b cc d t u2, T = 92 :: 117 :: a :: b :: cc :: d :: t /\
       hex4_value a b cc d = Some u2 /\ is_low_surrogate u2 = false) ->
  scanstring (encode_char c ++ T) = cons_result c (scanstring T).
Proof.
  intros Hc HT. unfold code_point in Hc.
  destruct (encode_char_cases c Hc) as [[Hs He]|[[x [He [Hx Hsx]]]|[[Hlt He]|[Hge He]]]];
    rewrite He.
  - destruct (S_CHAR_spec c Hs) as [H32 [H92 H34]]. cbn [app].
    rewrite scanstring_char by assumption.
    destruct (Z.ltb_spec c 32); [lia|reflexivity].
  - cbn [app]. rewrite scanstring_backslash, Hsx by exact Hx. reflexivity.
  - unfold u_escape. cbn [app]. destruct (is_high_surrogate c) eqn:Hh.
    + destruct (HT eq_refl Hlt) as [Hn|[a [b [cc [d [t [u2 [-> [H4 Hl]]]]]]]]].
      * apply scanstring_high_alone; [apply hex4_u_escape; lia|exact Hh|exact Hn].
      * apply scanstring_high_then_other with (u2 := u2); [apply hex4_u_escape; lia|exact Hh|exact H4|exact Hl].
    + apply scanstring_u; [apply hex4_u_escape; lia|exact Hh].
  - assert (Hc' : 65536 <= c <= 1114111) by lia.
    destruct (high_surrogate_range c Hc') as [Hhr Hh].
    destruct (low_surrogate_range c) as [Hlr Hl].
    unfold u_escape. cbn [app].
    rewrite (scanstring_high_low _ _ _ _ _ _ _ _ T _ _ (hex4_u_escape _ Hhr) Hh (hex4_u_escape _ Hlr) Hl).
    now rewrite join_surrogates_inv.
Qed.

(** what follows a character that is not a low surrogate *)
Lemma next_not_low c T :
  code_point c -> is_low_surrogate c = false ->
  (forall t, encode_char c ++ T <> 92 :: 117 :: t) \/
  exists a b cc d t u2, encode_char c ++ T = 92 :: 117 :: a :: b :: cc :: d :: t /\
    hex4_value a b cc d = Some u2 /\ is_low_surrogate u2 = false.
Proof.
  intros Hc Hl. pose proof Hc as Hc0. unfold code_point in Hc0.
  destruct (encode_char_cases c Hc) as [[Hs He]|[[x [He [Hx Hsx]]]|[[Hlt He]|[Hge He]]]];
    rewrite He.
  - left. intros t Ht. injection Ht as H1 _. apply (proj1 (proj2 (S_CHAR_spec c Hs))). exact H1.
  - left. intros t Ht. injection Ht as H1 _. exact (Hx H1).
  - right. unfold u_escape. cbn [app]. do 6 eexists. split; [reflexivity|].
    split; [apply hex4_u_escape; lia|exact Hl].
  - right. assert (Hc' : 65536 <= c <= 1114111) by lia.
    destruct (high_surrogate_range c Hc') as [Hhr Hh].
    unfold u_escape. cbn [app]. do 6 eexists. split; [reflexivity|].
    split; [apply (hex4_u_escape _ Hhr)|apply high_not_low, Hh].
Qed.

Lemma no_surrogate_pair_tail c s : no_surrogate_pair (c :: s) = true -> no_surrogate_pair s = true.
Proof. destruct s as [|c' s]; [reflexivity|]. simpl. rewrite andb_true_iff. tauto. Qed.

(** the scanner reads the encoded characters back *)
Lemma scan_encoded s r :
  Forall code_point s -> no_surrogate_pair s = true ->
  scanstring (concat (map encode_char s) ++ 34 :: r) = Some (s, r).
Proof.
  induction s as [|c s IH]; intros Hf Hn; [reflexivity|].
  inversion Hf as [|? ? Hc Hf']; subst.
  pose proof (no_surrogate_pair_tail c s Hn) as Hn'.
  cbn [concat map]. rewrite <- app_assoc. rewrite scan_head; [rewrite IH by assumption; reflexivity|assumption|].
  intros Hh _. destruct s as [|c' s'].
  - left. intros t Ht. discriminate.
  - cbn [concat map]. rewrite <- app_assoc. apply next_not_low; [inversion Hf'; assumption|].
    simpl in Hn. rewrite Hh in Hn. simpl in Hn.
    destruct (is_low_surrogate c'); [discriminate|reflexivity].
Qed.

Lemma json_roundtrip s :
  Forall code_point s -> no_surrogate_pair s = true -> json_loads_str (json_dumps_str s) = Some s.
Proof.
  intros Hf Hn. unfold json_loads_str, json_dumps_str. cbn [app].
  rewrite scan_encoded by assumption. reflexivity.
Qed.

Lemma lstrip_suffix s : exists a, s = a ++ lstrip s.
Proof.
  induction s as [|c s [a Ha]]; simpl; [exists []; reflexivity|].
  destruct (py_isspace c); [exists (c :: a); simpl; congruence|exists []; reflexivity].
Qed.

(** [s.strip()] is a piece of [s] *)
Lemma strip_infix s : exists a b, s = a ++ strip s ++ b.
Proof.
  destruct (lstrip_suffix s) as [a Ha].
  destruct (lstrip_suffix (rev (lstrip s))) as [b Hb].
  exists a, (rev b). unfold strip.
  assert (H : lstrip s = rev (lstrip (rev (lstrip s))) ++ rev b).
  { rewrite <- (rev_involutive (lstrip s)) at 1. rewrite Hb at 1. apply rev_app_distr. }
  rewrite <- H. exact Ha.
Qed.

Lemma no_surrogate_pair_app_r x y : no_surrogate_pair (x ++ y) = true -> no_surrogate_pair y = true.
Proof.
  induction x as [|c x IH]; [auto|]. intros H. apply IH. exact (no_surrogate_pair_tail c _ H).
Qed.

Lemma no_surrogate_pair_app_l x y : no_surrogate_pair (x ++ y) = true -> no_surrogate_pair x = true.
Proof.
  induction x as [|c x IH]; [reflexivity|]. destruct x as [|c' x']; [reflexivity|].
  intros H. simpl in H |- *. apply andb_true_iff in H as [H1 H2]. rewrite H1. apply IH. exact H2.
Qed.

Lemma strip_no_surrogate_pair s :
  no_surrogate_pair s = true -> no_surrogate_pair (strip s) = true.
Proof.
  destruct (strip_infix s) as [a [b Hs]]. rewrite Hs at 1. intros H.
  apply no_surrogate_pair_app_r in H. exact (no_surrogate_pair_app_l _ _ H).
Qed.

Lemma strip_code_points s : Forall code_point s -> Forall code_point (strip s).
Proof.
  destruct (strip_infix s) as [a [b Hs]]. rewrite Hs at 1. intros H.
  apply Forall_app in H as [_ H]. apply Forall_app in H as [H _]. exact H.
Qed.

Lemma flux_close_char c rest :
  c <> 34 -> c <> 92 -> flux_string_close (c :: rest) = flux_string_close rest.
Proof. intros H1 H2. zlit_cases c. Qed.

Lemma flux_close_backslash x rest : flux_string_close (92 :: x :: rest) = flux_string_close rest.
Proof. reflexivity. Qed.

Lemma flux_close_digit x rest :
  flux_string_close (Py_hexdigit (Z.land x 15) :: rest) = flux_string_close rest.
Proof.
  destruct (hexdigit_not_special _ (digit_bound x)) as [H1 H2]. apply flux_close_char; assumption.
Qed.

Lemma flux_close_u_escape u rest : flux_string_close (u_escape u ++ rest) = flux_string_close rest.
Proof.
  unfold u_escape. cbn [app]. rewrite flux_close_backslash, !flux_close_digit. reflexivity.
Qed.

Lemma flux_close_encode c rest :
  flux_string_close (encode_char c ++ rest) = flux_string_close rest.
Proof.
  unfold encode_char. destruct (S_CHAR c) eqn:Hs.
  - destruct (S_CHAR_spec c Hs) as [_ [H1 H2]]. apply flux_close_char; assumption.
  - unfold ascii_escape_unichar.
    repeat (destruct (c =? _); [reflexivity|]).
    destruct (65536 <=? c); [rewrite <- app_assoc|]; now rewrite !flux_close_u_escape.
Qed.

Lemma flux_close_encoded s rest :
  flux_string_close (concat (map encode_char s) ++ rest) = flux_string_close rest.
Proof.
  induction s as [|c s IH]; [reflexivity|].
  cbn [concat map]. now rewrite <- app_assoc, flux_close_encode.
Qed.

Lemma flux_rest_json_dumps s : flux_literal_rest (json_dumps_str s) = Some [].
Proof.
  unfold flux_literal_rest, json_dumps_str. cbn [app]. now rewrite flux_close_encoded.
Qed.

(** a surrogate is written as its own [\uXXXX] *)
Lemma encode_surrogate c : is_surrogate c = true -> encode_char c = u_escape c.
Proof.
  unfold is_surrogate. rewrite andb_true_iff, !Z.leb_le. intros Hc.
  unfold encode_char, S_CHAR, ascii_escape_unichar.
  replace (c <=? 126) with false by (symmetry; apply Z.leb_gt; lia).
  rewrite andb_false_r. cbn [andb].
  replace (c =? 92) with false by (symmetry; apply Z.eqb_neq; lia).
  replace (c =? 34) with false by (symmetry; apply Z.eqb_neq; lia).
  replace (c =? 8) with false by (symmetry; apply Z.eqb_neq; lia).
  replace (c =? 12) with false by (symmetry; apply Z.eqb_neq; lia).
  replace (c =? 10) with false by (symmetry; apply Z.eqb_neq; lia).
  replace (c =? 13) with false by (symmetry; apply Z.eqb_neq; lia).
  replace (c =? 9) with false by (symmetry; apply Z.eqb_neq; lia).
  replace (65536 <=? c) with false by (symmetry; apply Z.leb_gt; lia).
  reflexivity.
Qed.

Lemma high_is_surrogate c : is_high_surrogate c = true -> is_surrogate c = true /\ 0 <= c < 65536.
Proof.
  unfold is_high_surrogate, is_surrogate. rewrite !andb_true_iff, !Z.leb_le. lia.
Qed.

Lemma low_is_surrogate c : is_low_surrogate c = true -> is_surrogate c = true /\ 0 <= c < 65536.
Proof.
  unfold is_low_surrogate, is_surrogate. rewrite !andb_true_iff, !Z.leb_le. lia.
Qed.

(** the scanner reads the encoded characters back, joining each high
    surrogate that is directly followed by a low one *)
Lemma scan_encoded_joined (n : nat) :
  forall s r, (length s <= n)%nat -> Forall code_point s ->
  scanstring (concat (map encode_char s) ++ 34 :: r) = Some (join_surrogate_pairs s, r).
Proof.
  induction n as [|n IH]; intros s r Hlen Hf.
  - destruct s; [reflexivity|simpl in Hlen; lia].
  - destruct s as [|c [|c' s'']]; [reflexivity| |].
    + inversion Hf as [|? ? Hc _]; subst. cbn [concat map join_surrogate_pairs]. rewrite app_nil_r.
      rewrite scan_head; [reflexivity|exact Hc|]. intros _ _. left. intros t Ht. discriminate.
    + inversion Hf as [|? ? Hc Hf']; subst. inversion Hf' as [|? ? Hc' Hf'']; subst.
      cbn [join_surrogate_pairs].
      destruct (is_high_surrogate c && is_low_surrogate c') eqn:Hp.
      * apply andb_true_iff in Hp as [Hh Hl].
        destruct (high_is_surrogate c Hh) as [Hsc Hrc]. destruct (low_is_surrogate c' Hl) as [Hsc' Hrc'].
        cbn [concat map]. rewrite <- !app_assoc.
        rewrite (encode_surrogate c Hsc), (encode_surrogate c' Hsc'). unfold u_escape. cbn [app].
        rewrite (scanstring_high_low _ _ _ _ _ _ _ _ _ c c' (hex4_u_escape c Hrc) Hh
                   (hex4_u_escape c' Hrc') Hl).
        rewrite IH; [reflexivity|simpl in Hlen; lia|exact Hf''].
      * cbn [concat map]. rewrite <- !app_assoc. rewrite scan_head; [|exact Hc|].
        -- replace (encode_char c' ++ concat (map encode_char s'') ++ 34 :: r)
             with (concat (map encode_char (c' :: s'')) ++ 34 :: r)
             by (cbn [concat map]; now rewrite <- app_assoc).
           rewrite IH; [reflexivity|simpl in Hlen |- *; lia|exact Hf'].
        -- intros Hh _. rewrite Hh in Hp. simpl in Hp. apply next_not_low; assumption.
Qed.

Lemma json_decode_joined s :
  Forall code_point s -> json_loads_str (json_dumps_str s) = Some (join_surrogate_pairs s).
Proof.
  intros Hf. unfold json_loads_str, json_dumps_str. cbn [app].
  rewrite (scan_encoded_joined (length s) s [] (le_n _) Hf). reflexivity.
Qed.

(** the first surrogate pair of a string is joined, the text before it
    kept as is *)
Lemma join_first_pair x hi lo y :
  no_surrogate_pair (x ++ [hi]) = true -> is_high_surrogate hi = true -> is_low_surrogate lo = true ->
  join_surrogate_pairs (x ++ hi :: lo :: y) = x ++ join_surrogates hi lo :: join_surrogate_pairs y.
Proof.
  intros Hx Hh Hl. induction x as [|c x IH].
  - simpl. rewrite Hh, Hl. reflexivity.
  - assert (Hx' : no_surrogate_pair (x ++ [hi]) = true)
      by exact (no_surrogate_pair_tail c _ Hx).
    destruct x as [|c1 x1].
    + simpl in Hx |- *. apply andb_true_iff in Hx as [Hx _]. apply negb_true_iff in Hx.
      rewrite Hx. f_equal. exact (IH Hx').
    + simpl in Hx |- *. apply andb_true_iff in Hx as [Hx _]. apply negb_true_iff in Hx.
      rewrite Hx. f_equal. exact (IH Hx').
Qed.

End FluxFacts.

Module FluxClaims.
Import FluxLiteral FluxFacts.
Local Open Scope Z_scope.

(** the joined code point of a high and a low surrogate is a
    supplementary character *)
Lemma join_surrogates_supplementary hi lo :
  65536 <= join_surrogates hi lo <= 1114111.
Proof.
  unfold join_surrogates. rewrite !land1023.
  assert (Hh : 0 <= hi mod 1024 < 1024) by (apply Z.mod_pos_bound; lia).
  assert (Hl : 0 <= lo mod 1024 < 1024) by (apply Z.mod_pos_bound; lia).
  rewrite lor_shiftl_small by exact Hl. rewrite Z.shiftl_mul_pow2 by lia.
  change (2 ^ 10) with 1024. nia.
Qed.

(** C8 (amended). For every string [s] of code points with no high
    surrogate immediately followed by a low surrogate, the JSON decoding of
    [_flux_str_literal(s)] is [s], and the JSON decoding of
    [_bucket_literal(bucket)] is [bucket.strip()] under the same condition
    on [bucket]. For every string, surrogates included, a Flux reader that
    takes [\] with the next character as an escape reaches the closing
    quote of either literal at its last character, so nothing of the
    literal is read as query text. (Flux's own escape set, [${]
    interpolation and the absence of [\u] in Flux, are not modelled.)
    For every string of code points, with or without surrogate pairs, the
    decoding is the string with each high surrogate directly followed by a
    low surrogate joined into one character; in particular a string whose
    first such pair is [hi lo] decodes to the text before the pair, then
    the single supplementary character (at least U+10000) that the pair
    encodes, then the decoding of the rest. *)
Theorem flux_literal_json_roundtrip (s bucket : pystr) :
  (Forall code_point s -> no_surrogate_pair s = true ->
   json_loads_str (_flux_str_literal s) = Some s) /\
  (Forall code_point bucket -> no_surrogate_pair bucket = true ->
   json_loads_str (_bucket_literal (Some bucket)) = Some (strip bucket)) /\
  flux_literal_rest (_flux_str_literal s) = Some [] /\
  flux_literal_rest (_bucket_literal (Some bucket)) = Some [] /\
  (Forall code_point s ->
   json_loads_str (_flux_str_literal s) = Some (join_surrogate_pairs s)) /\
  (Forall code_point bucket ->
   json_loads_str (_bucket_literal (Some bucket)) = Some (join_surrogate_pairs (strip bucket))) /\
  (forall x hi lo y,
   s = x ++ hi :: lo :: y -> Forall code_point s ->
   no_surrogate_pair (x ++ [hi]) = true -> is_high_surrogate hi = true -> is_low_surrogate lo = true ->
   json_loads_str (_flux_str_literal s) = Some (x ++ join_surrogates hi lo :: join_surrogate_pairs y) /\
   65536 <= join_surrogates hi lo <= 1114111).
Proof.
  split; [|split; [|split; [|split; [|split; [|split]]]]].
  - apply json_roundtrip.
  - intros Hf Hn. apply json_roundtrip;
      [apply strip_code_points, Hf|apply strip_no_surrogate_pair, Hn].
  - apply flux_rest_json_dumps.
  - apply flux_rest_json_dumps.
  - apply json_decode_joined.
  - intros Hf. apply json_decode_joined, strip_code_points, Hf.
  - intros x hi lo y -> Hf Hx Hh Hl. split; [|apply join_surrogates_supplementary].
    unfold _flux_str_literal. rewrite json_decode_joined by exact Hf.
    now rewrite join_first_pair.
Qed.

Lemma flux_literal_json_roundtrip_witness :
  json_loads_str (_flux_str_literal [97; 34; 92; 10; 98]) = Some [97; 34; 92; 10; 98] /\
  json_loads_str (_bucket_literal (Some [32; 98; 34; 32])) = Some [98; 34] /\
  flux_literal_rest (_flux_str_literal [97; 34; 92; 10; 98]) = Some [] /\
  json_loads_str (_flux_str_literal [97; 55296; 56320; 98]) =
    Some [97; join_surrogates 55296 56320; 98].
Proof.
  destruct (flux_literal_json_roundtrip [97; 34; 92; 10; 98] [32; 98; 34; 32]) as [H1 [H2 [H3 _]]].
  destruct (flux_literal_json_roundtrip [97; 55296; 56320; 98] []) as [_ [_ [_ [_ [_ [_ H7]]]]]].
  split; [|split; [|split; [exact H3|]]].
  - apply H1; [repeat constructor; lia|reflexivity].
  - apply H2; [repeat constructor; lia|reflexivity].
  - apply (H7 [97] 55296 56320 [98]); [reflexivity|repeat constructor; lia|reflexivity..].
Defined.

(** C8 counterexample: the two-character string U+D800 U+DC00 is dumped as
    [\ud800\udc00], which [json.loads] reads back as the single character
    U+10000. *)
Lemma surrogate_pair_joined :
  json_loads_str (_flux_str_literal [55296; 56320]) = Some [65536] /\
  json_loads_str (_flux_str_literal [55296; 56320]) <> Some [55296; 56320].
Proof. split; vm_compute; [reflexivity|discriminate]. Qed.

End FluxClaims.

(** ** [_normalize_token] and the characters of a Flux literal *)

Module TokenFacts.
Import FluxLiteral Token FluxFacts.
Local Open Scope Z_scope.

Lemma lstrip_idem s : lstrip (lstrip s) = lstrip s.
Proof.
  induction s as [|c s IH]; [reflexivity|]. simpl.
  destruct (py_isspace c) eqn:Hc; [exact IH|simpl; now rewrite Hc].
Qed.

Lemma lstrip_length s : (length (lstrip s) <= length s)%nat.
Proof. induction s as [|c s IH]; simpl; [lia|]. destruct (py_isspace c); simpl; lia. Qed.

Lemma lstrip_spaces_app a y :
  Forall (fun c => py_isspace c = true) a -> lstrip (a ++ y) = lstrip y.
Proof. induction 1 as [|c a Hc _ IH]; [reflexivity|]. simpl. now rewrite Hc. Qed.

Lemma lstrip_app_nonspace x y :
  ~ Forall (fun c => py_isspace c = true) x -> lstrip (x ++ y) = lstrip x ++ y.
Proof.
  induction x as [|c x IH]; intros Hx; [exfalso; apply Hx; constructor|]. simpl.
  destruct (py_isspace c) eqn:Hc; [|reflexivity].
  apply IH. intros Hf. apply Hx. constructor; assumption.
Qed.

Lemma lstrip_nil_spaces x : lstrip x = [] -> Forall (fun c => py_isspace c = true) x.
Proof.
  induction x as [|c x IH]; [constructor|]. simpl.
  destruct (py_isspace c) eqn:Hc; [intros H; constructor; auto|discriminate].
Qed.

Lemma lstrip_split t : exists a, Forall (fun c => py_isspace c = true) a /\ t = a ++ lstrip t.
Proof.
  induction t as [|c t [a [Ha Ht]]]; [exists []; split; [constructor|reflexivity]|]. simpl.
  destruct (py_isspace c) eqn:Hc.
  - exists (c :: a). split; [constructor; assumption|simpl; congruence].
  - exists []. split; [constructor|reflexivity].
Qed.

Lemma lstrip_fixed_head y :
  lstrip y = y -> y = [] \/ exists c r, y = c :: r /\ py_isspace c = false.
Proof.
  intros Hy. destruct y as [|c r]; [left; reflexivity|right]. simpl in Hy.
  destruct (py_isspace c) eqn:Hc; [|eauto].
  pose proof (lstrip_length r) as Hl. rewrite Hy in Hl. simpl in Hl. lia.
Qed.

(** stripping the right end keeps a left-stripped text left-stripped *)
Lemma rstrip_keeps_lstripped y :
  lstrip y = y -> lstrip (rev (lstrip (rev y))) = rev (lstrip (rev y)).
Proof.
  intros Hy. destruct (lstrip_suffix (rev y)) as [a Ha].
  destruct (lstrip (rev y)) as [|z0 z] eqn:Hz; [reflexivity|].
  destruct (lstrip_fixed_head y Hy) as [->|[c [r [-> Hc]]]]; [discriminate|].
  destruct (exists_last (l := z0 :: z) ltac:(discriminate)) as [z' [x Hzx]].
  rewrite Hzx in Ha |- *. simpl rev in Ha. rewrite app_assoc in Ha.
  apply app_inj_tail in Ha as [_ <-]. rewrite rev_app_distr. simpl. now rewrite Hc.
Qed.

Lemma strip_idem s : strip (strip s) = strip s.
Proof.
  unfold strip.
  rewrite (rstrip_keeps_lstripped (lstrip s)) by apply lstrip_idem.
  rewrite rev_involutive, lstrip_idem. reflexivity.
Qed.

Lemma lstrip_rstrip_comm t :
  lstrip (rev (lstrip (rev t))) = rev (lstrip (rev (lstrip t))).
Proof.
  destruct (lstrip_split t) as [a [Ha Ht]].
  set (y := lstrip t) in *.
  assert (Hy : lstrip y = y) by apply lstrip_idem.
  rewrite Ht at 1. rewrite rev_app_distr.
  destruct (lstrip_fixed_head y Hy) as [Hy0|[c [r [Hyc Hc]]]].
  - rewrite Hy0. simpl.
    rewrite <- (app_nil_r (rev a)), lstrip_spaces_app by (apply Forall_rev; exact Ha).
    reflexivity.
  - assert (Hn : ~ Forall (fun c => py_isspace c = true) (rev y)).
    { rewrite Hyc. simpl. intros Hf. apply Forall_app in Hf as [_ Hf].
      inversion Hf; congruence. }
    rewrite lstrip_app_nonspace by exact Hn. rewrite rev_app_distr, rev_involutive.
    rewrite lstrip_spaces_app by exact Ha. apply rstrip_keeps_lstripped. exact Hy.
Qed.

End TokenFacts.

Module TokenExtras.
Import FluxLiteral Token FluxFacts TokenFacts.
Local Open Scope Z_scope.

Lemma startswith_app p u : startswith (p ++ u) p = true.
Proof. induction p as [|c p IH]; simpl; [now destruct u|]. now rewrite Z.eqb_refl. Qed.

(** stripping the right end first does not change [strip] *)
Lemma strip_rstrip t : strip (rev (lstrip (rev t))) = strip t.
Proof. unfold strip. rewrite (lstrip_rstrip_comm t), rev_involutive, lstrip_idem. reflexivity. Qed.

Lemma strip_prefixed w p t :
  Forall (fun c => py_isspace c = true) w ->
  (exists c r, p = c :: r /\ py_isspace c = false) ->
  ~ Forall (fun c => py_isspace c = true) t ->
  strip (w ++ p ++ t) = p ++ rev (lstrip (rev t)).
Proof.
  intros Hw [c [r [-> Hc]]] Ht. unfold strip.
  rewrite lstrip_spaces_app by exact Hw.
  assert (Hl : lstrip ((c :: r) ++ t) = (c :: r) ++ t) by (simpl; now rewrite Hc).
  rewrite Hl, rev_app_distr, lstrip_app_nonspace.
  - now rewrite rev_app_distr, rev_involutive.
  - intros Hf. apply Ht. rewrite <- (rev_involutive t). apply Forall_rev. exact Hf.
Qed.

(** X1. Whatever the token, the result of [_normalize_token] has no
    leading or trailing whitespace: stripping it changes nothing. *)
Theorem normalize_token_stripped (token : option pystr) :
  strip (_normalize_token token) = _normalize_token token.
Proof.
  unfold _normalize_token. cbv zeta. cbn [strip_scheme].
  destruct (startswith _ _); [apply strip_idem|].
  destruct (startswith _ _); apply strip_idem.
Qed.

(** X2. A token made of optional leading whitespace, the scheme word
    ["Token "] or ["Bearer "], and a rest with some non-blank character
    normalizes to the stripped rest: one scheme word is removed, and only
    one. *)
Theorem normalize_token_drops_scheme (w t : pystr) (scheme : string) :
  In scheme ["Token "; "Bearer "]%string ->
  Forall (fun c => py_isspace c = true) w -> strip t <> [] ->
  _normalize_token (Some (w ++ pystr_of_string scheme ++ t)) = strip t.
Proof.
  intros Hs Hw Ht.
  assert (Hnt : ~ Forall (fun c => py_isspace c = true) t).
  { intros Hf. apply Ht. unfold strip.
    rewrite <- (app_nil_r t), lstrip_spaces_app by exact Hf. reflexivity. }
  unfold _normalize_token. cbv zeta.
  destruct Hs as [<-|[<-|[]]].
  - change (pystr_of_string "Token ") with [84; 111; 107; 101; 110; 32].
    rewrite strip_prefixed by (eauto || (do 2 eexists; split; reflexivity)).
    cbn [strip_scheme]. rewrite startswith_app. cbn [length skipn]. apply strip_rstrip.
  - change (pystr_of_string "Bearer ") with [66; 101; 97; 114; 101; 114; 32].
    rewrite strip_prefixed by (eauto || (do 2 eexists; split; reflexivity)).
    cbn [strip_scheme]. change (pystr_of_string "Token ") with [84; 111; 107; 101; 110; 32].
    change (startswith ([66; 101; 97; 114; 101; 114; 32] ++ rev (lstrip (rev t)))
              [84; 111; 107; 101; 110; 32]) with false.
    cbn iota. rewrite startswith_app. cbn [length skipn]. apply strip_rstrip.
Qed.

Lemma normalize_token_drops_scheme_witness :
  _normalize_token (Some ([32] ++ pystr_of_string "Token " ++ pystr_of_string "Bearer abc"))
  = pystr_of_string "Bearer abc".
Proof.
  rewrite (normalize_token_drops_scheme [32] (pystr_of_string "Bearer abc") "Token ").
  - vm_compute. reflexivity.
  - simpl. auto.
  - constructor; [reflexivity|constructor].
  - vm_compute. discriminate.
Defined.

Lemma hexdigit_printable x : 32 <= Py_hexdigit (Z.land x 15) <= 126.
Proof. pose proof (digit_bound x). unfold Py_hexdigit. destruct (Z.ltb_spec (Z.land x 15) 10); lia. Qed.

Lemma u_escape_printable u : Forall (fun x => 32 <= x <= 126) (u_escape u).
Proof.
  unfold u_escape.
  repeat constructor; try lia; apply hexdigit_printable.
Qed.

Lemma encode_char_printable c : Forall (fun x => 32 <= x <= 126) (encode_char c).
Proof.
  unfold encode_char. destruct (S_CHAR c) eqn:Hs.
  - unfold S_CHAR in Hs. rewrite !andb_true_iff, !Z.leb_le in Hs. constructor; [lia|constructor].
  - unfold ascii_escape_unichar.
    repeat (destruct (c =? _); [repeat constructor; lia|]).
    destruct (65536 <=? c); [apply Forall_app; split|]; apply u_escape_printable.
Qed.

(** X17. Every character of a Flux string literal, and so of a bucket
    literal, is printable ASCII (codes 32 to 126): a name with newlines,
    control characters or non-ASCII text puts none of them in the query. *)
Theorem flux_literal_printable_ascii (s : pystr) (bucket : option pystr) :
  Forall (fun c => 32 <= c <= 126) (_flux_str_literal s) /\
  Forall (fun c => 32 <= c <= 126) (_bucket_literal bucket).
Proof.
  assert (H : forall s, Forall (fun c => 32 <= c <= 126) (_flux_str_literal s)).
  { intros s0. unfold _flux_str_literal, json_dumps_str.
    apply Forall_app; split; [repeat constructor; lia|].
    apply Forall_app; split; [|repeat constructor; lia].
    induction s0 as [|c s0 IH]; cbn [concat map]; [constructor|].
    apply Forall_app; split; [apply encode_char_printable|exact IH]. }
  split; [apply H|unfold _bucket_literal; apply H].
Qed.

End TokenExtras.

(** * Entry setup, reload and unload: [domain_data] *)

Module SetupFacts.
Import Py Provision Setup PyDictFacts PyFacts.

Lemma fold_set_get {A} (b acc : PyDict.dict A) k :
  NoDup (map fst b) ->
  PyDict.get k (fold_left (fun acc kv => PyDict.set (fst kv) (snd kv) acc) b acc) =
  match PyDict.get k b with Some v => Some v | None => PyDict.get k acc end.
Proof.
  revert acc. induction b as [|[k' v'] b IH]; intros acc Hnd; simpl; [reflexivity|].
  inversion Hnd as [|? ? Hni Hnd']; subst.
  rewrite IH by exact Hnd'.
  destruct (String.eqb_spec k k') as [->|Hne].
  - rewrite (get_None k' b Hni). apply get_set_same.
  - destruct (PyDict.get k b); [reflexivity|]. now apply get_set_other.
Qed.

Lemma get_delete_same {A} k (d : PyDict.dict A) : PyDict.get k (delete k d) = None.
Proof.
  unfold delete. induction d as [|[k' v'] d IH]; simpl; [reflexivity|].
  destruct (String.eqb_spec k k') as [->|Hne]; simpl; [exact IH|].
  apply String.eqb_neq in Hne. now rewrite Hne.
Qed.

Lemma get_delete_other {A} k k' (d : PyDict.dict A) : k <> k' -> PyDict.get k (delete k' d) = PyDict.get k d.
Proof.
  unfold delete. intros Hne. induction d as [|[k'' v''] d IH]; simpl; [reflexivity|].
  destruct (String.eqb_spec k' k'') as [->|Hne']; simpl.
  - rewrite IH. apply String.eqb_neq in Hne. now rewrite Hne.
  - destruct (String.eqb k k''); auto.
Qed.

Lemma delete_idem {A} k (d : PyDict.dict A) : delete k (delete k d) = delete k d.
Proof.
  unfold delete. induction d as [|[k' v'] d IH]; simpl; [reflexivity|].
  destruct (String.eqb k k') eqn:E; simpl; [exact IH|]. rewrite E. simpl. now rewrite IH.
Qed.

Lemma delete_keys {A} k k' (d : PyDict.dict A) :
  In k' (map fst (delete k d)) <-> In k' (map fst d) /\ k' <> k.
Proof.
  unfold delete. induction d as [|[k'' v''] d IH]; simpl; [tauto|].
  destruct (String.eqb_spec k k'') as [->|Hne]; simpl; rewrite IH.
  - split; [intros [H1 H2]; auto|intros [[<-|H1] H2]; [congruence|auto]].
  - split; [intros [<-|[H1 H2]]; auto|intros [[<-|H1] H2]; auto].
Qed.

Lemma delete_absent {A} k (d : PyDict.dict A) : ~ In k (map fst d) -> delete k d = d.
Proof.
  unfold delete. induction d as [|[k' v'] d IH]; simpl; intros Hnin; [reflexivity|].
  destruct (String.eqb_spec k k') as [->|Hne]; [exfalso; auto|]. simpl. rewrite IH; auto.
Qed.

Lemma delete_all {A} k (d : PyDict.dict A) : (forall x, In x (map fst d) -> x = k) -> delete k d = [].
Proof.
  unfold delete. induction d as [|[k' v'] d IH]; simpl; intros Hall; [reflexivity|].
  rewrite (Hall k' (or_introl eq_refl)), String.eqb_refl. simpl. apply IH. auto.
Qed.

Lemma filter_other_keys (l : list string) (x : string) :
  In x l -> x <> "dashboards_registered" ->
  filter (fun k => negb (String.eqb k "dashboards_registered")) l <> [].
Proof.
  intros Hin Hne Hnil.
  assert (Hf : In x (filter (fun k => negb (String.eqb k "dashboards_registered")) l)).
  { apply filter_In. split; [exact Hin|]. apply String.eqb_neq in Hne. now rewrite Hne. }
  rewrite Hnil in Hf. exact Hf.
Qed.

Lemma filter_no_other_keys (l : list string) :
  (forall x, In x l -> x = "dashboards_registered") ->
  filter (fun k => negb (String.eqb k "dashboards_registered")) l = [].
Proof.
  induction l as [|x l IH]; simpl; intros Hall; [reflexivity|].
  rewrite (Hall x (or_introl eq_refl)). simpl. apply IH. auto.
Qed.

Lemma register_loop_spec fe files : forall reg reg' panels,
  register_loop fe files reg = (reg', panels) ->
  NoDup panels /\ (forall u, In u panels -> ~ In u reg) /\ (forall u, In u reg -> In u reg') /\
  (forall u f, In (u, f) files -> fe f = true -> In u reg').
Proof.
  induction files as [|[u f] rest IH]; intros reg reg' panels Hl; simpl in Hl.
  - injection Hl as <- <-. split; [constructor|].
    split; [intros ? []|]. split; [auto|]. intros ? ? [].
  - destruct (negb (fe f) || existsb (String.eqb u) reg) eqn:Hc.
    + destruct (IH _ _ _ Hl) as (Hnd & Hfr & Hsub & Hall).
      split; [exact Hnd|]. split; [exact Hfr|]. split; [exact Hsub|].
      intros u' f' [Heq|Hin] Hf.
      * injection Heq as -> ->. rewrite Hf in Hc. simpl in Hc.
        apply existsb_exists in Hc as [x [Hx Hx']]. apply String.eqb_eq in Hx'. subst. auto.
      * eauto.
    + destruct (register_loop fe rest (reg ++ [u])) as [r p] eqn:Hr. injection Hl as <- <-.
      destruct (IH _ _ _ Hr) as (Hnd & Hfr & Hsub & Hall).
      apply orb_false_iff in Hc as [Hc1 Hc2].
      assert (Hu : ~ In u reg).
      { intros Hin.
        assert (existsb (String.eqb u) reg = true)
          by (apply existsb_exists; exists u; split; [exact Hin|apply String.eqb_refl]).
        congruence. }
      split; [|split; [|split]].
      * constructor; [|exact Hnd]. intros Hin. apply (Hfr u Hin). apply in_or_app. right. left. reflexivity.
      * intros u' [<-|Hin]; [exact Hu|]. intros Hin'. apply (Hfr u' Hin). apply in_or_app. left. exact Hin'.
      * intros u' Hin. apply Hsub. apply in_or_app. left. exact Hin.
      * intros u' f' [Heq|Hin] Hf; [|eauto].
        injection Heq as -> ->. apply Hsub. apply in_or_app. right. left. reflexivity.
Qed.

Lemma register_loop_done fe files reg :
  (forall u f, In (u, f) files -> fe f = true -> In u reg) -> register_loop fe files reg = (reg, []).
Proof.
  induction files as [|[u f] rest IH]; intros H; simpl; [reflexivity|].
  destruct (fe f) eqn:Hf; simpl.
  - assert (existsb (String.eqb u) reg = true) as ->.
    { apply existsb_exists. exists u. split; [apply (H u f); [left; reflexivity|exact Hf]|apply String.eqb_refl]. }
    apply IH. intros u' f' Hin Hf'. apply (H u' f'); [right; exact Hin|exact Hf'].
  - apply IH. intros u' f' Hin Hf'. apply (H u' f'); [right; exact Hin|exact Hf'].
Qed.

Lemma set_twice {A} k (v : A) d : PyDict.set k v (PyDict.set k v d) = PyDict.set k v d.
Proof. apply set_get_same. apply get_set_same. Qed.

Lemma fallback_notified hd d :
  _notify_restart_required_fallback hd = (d, true) ->
  PyDict.get "restart_notification_shown" d = Some (DValue (PBool true)).
Proof.
  unfold _notify_restart_required_fallback.
  destruct (match PyDict.get "restart_notification_shown" (match hd with Some d => d | None => [] end) with
            | Some v => domain_truthy v | None => false end); intros Heq; [discriminate|].
  injection Heq as <-. apply get_set_same.
Qed.

Lemma restart_shown_stays outcomes : forall d v,
  PyDict.get "restart_notification_shown" d = Some v -> domain_truthy v = true ->
  snd (report_restart_calls outcomes (Some d)) = 0%nat.
Proof.
  induction outcomes as [|ok rest IH]; intros d v Hg Ht; [reflexivity|].
  cbn [report_restart_calls]. destruct ok; cbn [_report_restart_required].
  - pose proof (IH d v Hg Ht) as IH'.
    destruct (report_restart_calls rest (Some d)) as [hd2 n]. simpl in *. now rewrite IH'.
  - unfold _notify_restart_required_fallback. rewrite Hg, Ht.
    pose proof (IH d v Hg Ht) as IH'.
    destruct (report_restart_calls rest (Some d)) as [hd2 n]. simpl in *. now rewrite IH'.
Qed.

Lemma dependency_of_repository e :
  Forall (fun d => exists r, PyDict.get "repository" d = Some r) (dependency_of e).
Proof.
  destruct e; simpl; try constructor.
  destruct (PyDict.get "repository" d) eqn:E; constructor; [|constructor].
  exists p. reflexivity.
Qed.

Lemma default_dependencies_repository :
  Forall (fun d => exists r, PyDict.get "repository" d = Some r) default_dependencies.
Proof. repeat (constructor; [eexists; reflexivity|]). constructor. Qed.

Lemma all_some_map {A B} (f : A -> option B) l :
  Forall (fun x => exists y, f x = Some y) l ->
  exists ys, all_some (map f l) = Some ys /\ length ys = length l.
Proof.
  induction 1 as [|x l [y Hy] _ [ys [Hys Hlen]]]; [exists []; auto|].
  exists (y :: ys). simpl. rewrite Hy, Hys. auto.
Qed.

Section Deps.
Context `{PyParsers} `{PyRepr}.

Lemma load_dependencies_repository f deps :
  _load_dashboard_dependencies f = inr deps ->
  deps <> [] /\ Forall (fun d => exists r, PyDict.get "repository" d = Some r) deps.
Proof.
  intros Hl. destruct f as [| | |t]; cbn [_load_dashboard_dependencies] in Hl.
  - injection Hl as <-. split; [discriminate|exact default_dependencies_repository].
  - injection Hl as <-. split; [discriminate|exact default_dependencies_repository].
  - discriminate.
  - destruct (json_loads t) as [data|]; [|injection Hl as <-; split; [discriminate|exact default_dependencies_repository]].
    destruct (match data with PList l => flat_map dependency_of l | _ => [] end) as [|d0 ds] eqn:Ed;
      injection Hl as <-; [split; [discriminate|exact default_dependencies_repository]|].
    split; [discriminate|]. rewrite <- Ed.
    destruct data; try constructor.
    apply Forall_forall. intros x Hx. apply in_flat_map in Hx as [e [_ He]].
    exact (proj1 (Forall_forall _ _) (dependency_of_repository e) x He).
Qed.

End Deps.

Lemma set_NoDup {A} k (v : A) (d : PyDict.dict A) :
  NoDup (map fst d) -> NoDup (map fst (PyDict.set k v d)).
Proof.
  intros Hnd. destruct (in_dec string_dec k (map fst d)) as [Hin|Hnin].
  - rewrite set_keys_present by exact Hin. exact Hnd.
  - rewrite set_new by exact Hnin. rewrite map_app. simpl.
    apply NoDup_app; auto using NoDup_cons, NoDup_nil.
    intros x Hx [<-|[]]. contradiction.
Qed.

Lemma dict_merge_NoDup {A} (a b : PyDict.dict A) : NoDup (map fst (dict_merge a b)).
Proof.
  unfold dict_merge.
  assert (Hf : forall (l acc : PyDict.dict A), NoDup (map fst acc) ->
            NoDup (map fst (fold_left (fun acc kv => PyDict.set (fst kv) (snd kv) acc) l acc))).
  { induction l as [|kv l IH]; intros acc Hacc; simpl; [exact Hacc|]. apply IH. now apply set_NoDup. }
  apply Hf, Hf. constructor.
Qed.

End SetupFacts.

Module SetupExtras.
Import Py Provision Setup PyDictFacts PyFacts SetupFacts.

(** X3: in [async_setup_entry], [config = {**entry.data, **entry.options}]:
    a key of the options takes the options' value, any other key the
    data's; the keys of each of the two dicts are distinct, as in any
    Python dict. *)
Theorem entry_config_options_override (entry : ConfigEntry) (k : string) :
  NoDup (map fst (entry_data entry)) -> NoDup (map fst (entry_options entry)) ->
  PyDict.get k (entry_config entry) =
  match PyDict.get k (entry_options entry) with
  | Some v => Some v
  | None => PyDict.get k (entry_data entry)
  end.
Proof.
  intros Hd Ho. unfold entry_config, dict_merge.
  rewrite (fold_set_get _ _ _ Ho), (fold_set_get _ _ _ Hd). simpl.
  destruct (PyDict.get k (entry_options entry)); [reflexivity|].
  destruct (PyDict.get k (entry_data entry)); reflexivity.
Qed.

Lemma entry_config_options_override_witness :
  PyDict.get "token" (entry_config (mkEntry "e1" "Solar Cube"
     [("url", PStr "http://influx:8086"); ("token", PStr "old"); ("org", PStr "home")]
     [("token", PStr "new")])) = Some (PStr "new").
Proof.
  rewrite (entry_config_options_override (mkEntry "e1" "Solar Cube"
     [("url", PStr "http://influx:8086"); ("token", PStr "old"); ("org", PStr "home")]
     [("token", PStr "new")]) "token"); [reflexivity| |];
  simpl; repeat constructor; simpl; intuition discriminate.
Defined.

(** X19: the one-shot options of [async_setup_entry] are switched off
    with [options={**entry.options, key: False}]; in the [config] the entry
    is next set up with, that key is [False], whatever [entry.data] holds. *)
Theorem one_shot_option_stays_off (entry : ConfigEntry) (k : string) :
  PyDict.get k (entry_config (mkEntry (entry_id entry) (entry_title entry) (entry_data entry)
                                      (dict_merge (entry_options entry) [(k, PBool false)])))
  = Some (PBool false).
Proof.
  unfold entry_config. cbn [entry_data entry_options].
  unfold dict_merge at 1. rewrite fold_set_get by apply dict_merge_NoDup.
  unfold dict_merge. cbn [fold_left fst snd]. now rewrite get_set_same.
Qed.

(** X4: [_async_reload_entry] with a truthy [_suppress_next_reload] in
    the entry's dict skips the reload and consumes the flag: a second
    update reloads the entry and leaves [domain_data] as it is. *)
Theorem reload_suppressed_once (dd : PyDict.dict DomainVal) (entry_id : string)
    (ed : PyDict.dict EntryVal) (v : EntryVal) :
  PyDict.get entry_id dd = Some (DEntry ed) ->
  PyDict.get "_suppress_next_reload" ed = Some v -> entry_truthy v = true ->
  exists dd1, _async_reload_entry (Some dd) entry_id = Some (Some dd1, false) /\
    PyDict.get entry_id dd1 = Some (DEntry (delete "_suppress_next_reload" ed)) /\
    _async_reload_entry (Some dd1) entry_id = Some (Some dd1, true).
Proof.
  intros Hg Hs Ht. eexists. split; [|split].
  - unfold _async_reload_entry. rewrite Hg, Hs, Ht. reflexivity.
  - apply get_set_same.
  - unfold _async_reload_entry. rewrite get_set_same, get_delete_same, delete_idem, set_twice.
    reflexivity.
Qed.

Lemma reload_suppressed_once_witness :
  exists dd1, _async_reload_entry
    (Some [("e1", DEntry [("api", EObject "api"); ("_suppress_next_reload", EValue (PBool true))])]) "e1"
    = Some (Some dd1, false) /\
    PyDict.get "e1" dd1 = Some (DEntry (delete "_suppress_next_reload"
                                         [("api", EObject "api"); ("_suppress_next_reload", EValue (PBool true))])) /\
    _async_reload_entry (Some dd1) "e1" = Some (Some dd1, true).
Proof.
  apply (reload_suppressed_once
    [("e1", DEntry [("api", EObject "api"); ("_suppress_next_reload", EValue (PBool true))])] "e1"
    [("api", EObject "api"); ("_suppress_next_reload", EValue (PBool true))] (EValue (PBool true)));
  reflexivity.
Defined.

(** X5: [async_unload_entry] removes the registered dashboard panels only
    when no key of [domain_data] is left but [dashboards_registered]: then
    it removes all of them and [domain_data] ends empty. Any other key
    (another entry, or a flag such as [automations_imported]) keeps every
    panel and only the entry is removed. *)
Theorem unload_removes_panels_only_when_last (entry_id : string) (dd : PyDict.dict DomainVal)
    (ed : PyDict.dict EntryVal) (regs : list string) :
  PyDict.get entry_id dd = Some (DEntry ed) ->
  PyDict.get "dashboards_registered" dd = Some (DSet regs) ->
  (forall k, In k (map fst dd) -> k <> entry_id -> k <> "dashboards_registered" ->
     exists closed, async_unload_entry true entry_id (Some dd)
                    = Some (mkUnloaded true (Some (delete entry_id dd)) closed [])) /\
  ((forall k, In k (map fst dd) -> k = entry_id \/ k = "dashboards_registered") ->
     exists closed, async_unload_entry true entry_id (Some dd)
                    = Some (mkUnloaded true (Some []) closed regs)).
Proof.
  intros Hg Hr.
  assert (Hne : entry_id <> "dashboards_registered") by (intros ->; congruence).
  assert (Hm : PyDict.mem entry_id dd = true) by (rewrite mem_get, Hg; reflexivity).
  unfold async_unload_entry. rewrite Hm. cbn [andb]. rewrite Hg. split.
  - intros k Hk Hk1 Hk2. eexists.
    destruct (filter (fun k => negb (String.eqb k "dashboards_registered")) (map fst (delete entry_id dd)))
      eqn:E; [|reflexivity].
    exfalso. apply (filter_other_keys (map fst (delete entry_id dd)) k); [|exact Hk2|exact E].
    apply delete_keys. auto.
  - intros Hall. eexists.
    assert (Hkeys : forall x, In x (map fst (delete entry_id dd)) -> x = "dashboards_registered").
    { intros x Hx. apply delete_keys in Hx as [Hx Hx']. destruct (Hall x Hx); [congruence|assumption]. }
    rewrite (filter_no_other_keys _ Hkeys).
    rewrite (delete_absent "dependencies_installed").
    2:{ intros Hin. apply Hkeys in Hin. discriminate. }
    rewrite (get_delete_other _ _ _ (not_eq_sym Hne)), Hr.
    rewrite (delete_all _ _ Hkeys). reflexivity.
Qed.

Lemma unload_removes_panels_only_when_last_witness :
  (exists closed, async_unload_entry true "e1"
     (Some [("e1", DEntry [("api", EObject "api")]); ("automations_imported", DValue (PBool true));
            ("dashboards_registered", DSet ["solar-cube"])])
     = Some (mkUnloaded true (Some (delete "e1"
         [("e1", DEntry [("api", EObject "api")]); ("automations_imported", DValue (PBool true));
          ("dashboards_registered", DSet ["solar-cube"])])) closed [])) /\
  (exists closed, async_unload_entry true "e1"
     (Some [("e1", DEntry [("api", EObject "api")]); ("dashboards_registered", DSet ["solar-cube"])])
     = Some (mkUnloaded true (Some []) closed ["solar-cube"])).
Proof.
  split.
  - apply (proj1 (unload_removes_panels_only_when_last "e1"
      [("e1", DEntry [("api", EObject "api")]); ("automations_imported", DValue (PBool true));
       ("dashboards_registered", DSet ["solar-cube"])] [("api", EObject "api")] ["solar-cube"]
      eq_refl eq_refl) "automations_imported"); [simpl; auto|discriminate|discriminate].
  - apply (proj2 (unload_removes_panels_only_when_last "e1"
      [("e1", DEntry [("api", EObject "api")]); ("dashboards_registered", DSet ["solar-cube"])]
      [("api", EObject "api")] ["solar-cube"] eq_refl eq_refl)).
    simpl. intros k [<-|[<-|[]]]; auto.
Defined.

(** X6: [_async_register_dashboards] registers each panel at most once and
    never one already in [dashboards_registered]; called again with the
    same files it registers nothing and leaves [domain_data] unchanged. *)
Theorem register_dashboards_once (dashboard_files : PyDict.dict string) (dir_exists : bool)
    (file_exists : string -> bool) (dd dd1 : PyDict.dict DomainVal) (panels : list string) :
  _async_register_dashboards dashboard_files dir_exists file_exists dd = Some (dd1, panels) ->
  NoDup panels /\
  (forall u s, PyDict.get "dashboards_registered" dd = Some (DSet s) -> In u panels -> ~ In u s) /\
  _async_register_dashboards dashboard_files dir_exists file_exists dd1 = Some (dd1, []).
Proof.
  intros Hreg. unfold _async_register_dashboards in *.
  destruct dir_exists; cbn [negb] in Hreg |- *.
  - destruct (PyDict.get "dashboards_registered" dd) as [[| |s]|] eqn:Hg; try discriminate.
    + destruct (register_loop file_exists dashboard_files s) as [reg p] eqn:Hl.
      injection Hreg as <- <-.
      destruct (register_loop_spec _ _ _ _ _ Hl) as (Hnd & Hfr & Hsub & Hall).
      split; [exact Hnd|split].
      * intros u s' Hs'. injection Hs' as <-. exact (Hfr u).
      * rewrite get_set_same, (register_loop_done _ _ _ Hall), set_twice. reflexivity.
    + destruct (register_loop file_exists dashboard_files []) as [reg p] eqn:Hl.
      injection Hreg as <- <-.
      destruct (register_loop_spec _ _ _ _ _ Hl) as (Hnd & Hfr & Hsub & Hall).
      split; [exact Hnd|split].
      * intros u s' Hs'. discriminate.
      * rewrite get_set_same, (register_loop_done _ _ _ Hall), set_twice. reflexivity.
  - injection Hreg as <- <-. split; [constructor|split; [intros ? ? ? []|reflexivity]].
Qed.

Lemma register_dashboards_once_witness :
  NoDup ["solar-cube"; "solar-cube-energy"] /\
  (forall u s, PyDict.get "dashboards_registered" [("e1", DValue PNone)] = Some (DSet s) ->
     In u ["solar-cube"; "solar-cube-energy"] -> ~ In u s) /\
  _async_register_dashboards [("solar-cube", "solar_cube.yaml"); ("solar-cube-energy", "energy.yaml")]
    true (fun _ => true)
    [("e1", DValue PNone); ("dashboards_registered", DSet ["solar-cube"; "solar-cube-energy"])]
  = Some ([("e1", DValue PNone); ("dashboards_registered", DSet ["solar-cube"; "solar-cube-energy"])], []).
Proof.
  apply (register_dashboards_once [("solar-cube", "solar_cube.yaml"); ("solar-cube-energy", "energy.yaml")]
           true (fun _ => true) [("e1", DValue PNone)]). reflexivity.
Defined.

(** X7: over any number of [_report_restart_required] calls in one
    runtime, whatever the issue registry does, at most one persistent
    restart notification is created, and none once
    [restart_notification_shown] is truthy in [domain_data]. *)
Theorem restart_notification_at_most_once (outcomes : list bool) (hd : option (PyDict.dict DomainVal)) :
  (snd (report_restart_calls outcomes hd) <= 1)%nat /\
  (forall d v, hd = Some d -> PyDict.get "restart_notification_shown" d = Some v ->
     domain_truthy v = true -> snd (report_restart_calls outcomes hd) = 0%nat).
Proof.
  split; [|intros d v -> Hg Ht; exact (restart_shown_stays outcomes d v Hg Ht)].
  revert hd. induction outcomes as [|ok rest IH]; intros hd; [simpl; lia|].
  cbn [report_restart_calls]. destruct ok; cbn [_report_restart_required].
  - specialize (IH hd). destruct (report_restart_calls rest hd) as [hd2 n]. simpl in *. lia.
  - destruct (_notify_restart_required_fallback hd) as [d notified] eqn:Ef.
    destruct notified.
    + pose proof (restart_shown_stays rest d _ (fallback_notified hd d Ef) eq_refl) as H0.
      destruct (report_restart_calls rest (Some d)) as [hd2 n]. simpl in *. lia.
    + specialize (IH (Some d)). destruct (report_restart_calls rest (Some d)) as [hd2 n]. simpl in *. lia.
Qed.

Lemma restart_notification_at_most_once_witness :
  (snd (report_restart_calls [false; false; true; false]
          (Some [("restart_notification_shown", DValue (PBool true))])) <= 1)%nat /\
  snd (report_restart_calls [false; false; true; false]
          (Some [("restart_notification_shown", DValue (PBool true))])) = 0%nat.
Proof.
  split; [apply (restart_notification_at_most_once [false; false; true; false]
                   (Some [("restart_notification_shown", DValue (PBool true))]))|].
  apply (proj2 (restart_notification_at_most_once [false; false; true; false]
                  (Some [("restart_notification_shown", DValue (PBool true))]))
           [("restart_notification_shown", DValue (PBool true))] (DValue (PBool true)));
    reflexivity.
Defined.

Section Deps.
Context `{PyParsers} `{PyRepr}.

(** X8: whatever [_load_dashboard_dependencies] returns is a non-empty
    list on which [_notify_dependency_install] does not raise: the
    notification lists one line per dependency. *)
Theorem dependency_notification_lists_each (f : FileState) (deps : list (PyDict.dict PyObj))
    (reason : string) :
  _load_dashboard_dependencies f = inr deps ->
  deps <> [] /\
  exists note lines, _notify_dependency_install deps reason = Some note /\
    note_dependency_list note = String.concat newline lines /\ length lines = length deps.
Proof.
  intros Hl. destruct (load_dependencies_repository f deps Hl) as [Hne Hrep].
  split; [exact Hne|].
  assert (Hlines : Forall (fun d => exists y, dependency_line d = Some y) deps).
  { apply Forall_forall. intros d Hd. destruct (proj1 (Forall_forall _ _) Hrep d Hd) as [r Hr].
    unfold dependency_line. rewrite Hr. eexists. reflexivity. }
  destruct (all_some_map dependency_line deps Hlines) as [lines [Hall Hlen]].
  unfold _notify_dependency_install, dependency_list. rewrite Hall.
  eexists. exists lines. auto.
Qed.

End Deps.

#[local] Existing Instance Inputs.rejecting_parsers.
#[local] Existing Instance Inputs.plain_repr.

Lemma dependency_notification_lists_each_witness :
  default_dependencies <> [] /\
  exists note lines,
    _notify_dependency_install default_dependencies "missing cards" = Some note /\
    note_dependency_list note = String.concat newline lines /\ length lines = length default_dependencies.
Proof.
  apply (dependency_notification_lists_each FMissing default_dependencies "missing cards").
  reflexivity.
Defined.

End SetupExtras.

(** * The cells of the reshaped forecast and optimal actions *)

Module CellsFacts.
Import Reshape ReshapeCells PyDictFacts PyFacts ReshapeFacts.

Section Facts.
Context `{Lib : PyTimeLib}.

Lemma NoDup_In_get {A} k (v : A) (d : PyDict.dict A) :
  NoDup (map fst d) -> In (k, v) d -> PyDict.get k d = Some v.
Proof.
  induction d as [|[k' v'] d IH]; simpl; [contradiction|]. intros Hnd [Heq|Hin].
  - injection Heq as -> ->. now rewrite String.eqb_refl.
  - inversion Hnd as [|? ? Hni Hnd']; subst.
    destruct (String.eqb_spec k k') as [->|Hne]; [|auto].
    exfalso. apply Hni. apply (in_map fst) in Hin. exact Hin.
Qed.

(** the accumulator holds, at each hour key it has and each short key of
    [init], the cell of the rows seen so far *)
Definition cells (init : PyDict.dict FluxValue) (tz : option TZ) (slot_of : FluxRecord -> option string)
  (acc : Acc) (seen : list FluxRecord) : Prop :=
  (forall k d, PyDict.get k acc = Some d -> forall s, In s (map fst init) ->
     PyDict.get s d = Some (last_cell tz slot_of k s seen)) /\
  (forall r hk, In r seen -> hour_key_of tz r = Some hk -> In hk (map fst acc)).

Lemma cells_nil init tz slot_of : cells init tz slot_of [] [].
Proof. split; [discriminate|intros ? ? []]. Qed.

Lemma last_cell_fold_absent tz slot_of k s (l : list FluxRecord) v0 :
  (forall r, In r l -> hour_key_of tz r <> Some k) ->
  fold_left (fun v r =>
               match hour_key_of tz r, slot_of r with
               | Some hk, Some s' => if String.eqb hk k && String.eqb s' s then round_value (rec_value r) else v
               | _, _ => v
               end) l v0 = v0.
Proof.
  revert v0. induction l as [|r l IH]; intros v0 Hno; simpl; [reflexivity|].
  rewrite IH by (intros r' Hr'; apply Hno; right; exact Hr').
  destruct (hour_key_of tz r) as [hk|] eqn:Hhk; [|reflexivity].
  destruct (slot_of r); [|reflexivity].
  destruct (String.eqb_spec hk k) as [->|]; [|reflexivity].
  exfalso. exact (Hno r (or_introl eq_refl) Hhk).
Qed.

Lemma last_cell_snoc tz slot_of k s seen r :
  last_cell tz slot_of k s (seen ++ [r]) =
  match hour_key_of tz r, slot_of r with
  | Some hk, Some s' => if String.eqb hk k && String.eqb s' s then round_value (rec_value r)
                        else last_cell tz slot_of k s seen
  | _, _ => last_cell tz slot_of k s seen
  end.
Proof. unfold last_cell. rewrite fold_left_app. reflexivity. Qed.

Lemma ensure_get (init : PyDict.dict FluxValue) (acc : Acc) hk k :
  PyDict.get k (if PyDict.mem hk acc then acc else PyDict.set hk init acc) =
  if String.eqb k hk then Some (match PyDict.get hk acc with Some d0 => d0 | None => init end)
  else PyDict.get k acc.
Proof.
  destruct (PyDict.mem hk acc) eqn:Hm; rewrite mem_get in Hm;
    destruct (String.eqb_spec k hk) as [->|Hne].
  - destruct (PyDict.get hk acc); [reflexivity|discriminate].
  - reflexivity.
  - rewrite get_set_same. destruct (PyDict.get hk acc); [discriminate|reflexivity].
  - now apply get_set_other.
Qed.

Lemma ensure_keys (init : PyDict.dict FluxValue) (acc : Acc) hk x :
  In x (map fst (if PyDict.mem hk acc then acc else PyDict.set hk init acc)) <->
  In x (map fst acc) \/ x = hk.
Proof.
  destruct (PyDict.mem hk acc) eqn:Hm.
  - apply mem_In in Hm. split; [auto|]. intros [H| ->]; assumption.
  - assert (Hn : ~ In hk (map fst acc)) by (intros Hi; apply mem_In in Hi; congruence).
    rewrite set_new by exact Hn. rewrite map_app, in_app_iff. simpl. intuition.
Qed.

(** one row: what [forecast_step] and [actions_step] make of the
    accumulator when the row's hour key is [hk] *)
Lemma cells_step init tz slot_of acc seen r hk :
  (forall s, In s (map fst init) -> PyDict.get s init = Some VNone) ->
  hour_key_of tz r = Some hk ->
  cells init tz slot_of acc seen ->
  cells init tz slot_of
    (let acc1 := if PyDict.mem hk acc then acc else PyDict.set hk init acc in
     match slot_of r with
     | Some sl => PyDict.update hk (PyDict.set sl (round_value (rec_value r))) acc1
     | None => acc1
     end) (seen ++ [r]).
Proof.
  intros Hinit Hhk [Hc Hk]. cbv zeta.
  set (acc1 := if PyDict.mem hk acc then acc else PyDict.set hk init acc).
  (* the entry of [hk] before the row *)
  assert (Hd1 : forall s, In s (map fst init) ->
            PyDict.get s (match PyDict.get hk acc with Some d0 => d0 | None => init end)
            = Some (last_cell tz slot_of hk s seen)).
  { intros s Hs. destruct (PyDict.get hk acc) as [d0|] eqn:Hg; [exact (Hc hk d0 Hg s Hs)|].
    rewrite (Hinit s Hs). f_equal. symmetry. unfold last_cell. apply last_cell_fold_absent.
    intros r' Hr' Hr'k. apply Hk in Hr'k; [|exact Hr'].
    apply In_get in Hr'k as [v [Hv _]]. congruence. }
  split.
  - intros k d Hg s Hs. rewrite last_cell_snoc, Hhk.
    destruct (slot_of r) as [sl|] eqn:Hsl.
    + destruct (String.eqb_spec k hk) as [->|Hne].
      * rewrite get_update_same in Hg. unfold acc1 in Hg. rewrite ensure_get, String.eqb_refl in Hg.
        injection Hg as <-. rewrite String.eqb_refl. simpl.
        destruct (String.eqb_spec sl s) as [->|Hne']; [apply get_set_same|].
        rewrite get_set_other by congruence. exact (Hd1 s Hs).
      * rewrite get_update_other in Hg by exact Hne. unfold acc1 in Hg. rewrite ensure_get in Hg.
        apply String.eqb_neq in Hne. rewrite Hne in Hg. rewrite String.eqb_sym, Hne. simpl.
        exact (Hc k d Hg s Hs).
    + unfold acc1 in Hg. rewrite ensure_get in Hg.
      destruct (String.eqb_spec k hk) as [->|Hne]; [injection Hg as <-; exact (Hd1 s Hs)|].
      exact (Hc k d Hg s Hs).
  - intros r' hk' Hr' Hr'k.
    assert (Hin1 : In hk' (map fst acc1)).
    { unfold acc1. apply ensure_keys. apply in_app_iff in Hr' as [Hr'|[<-|[]]].
      - left. exact (Hk r' hk' Hr' Hr'k).
      - right. congruence. }
    destruct (slot_of r); [rewrite update_keys|]; exact Hin1.
Qed.

Lemma fold_cells init tz slot_of (step : Acc -> FluxRecord -> option Acc) :
  (forall s, In s (map fst init) -> PyDict.get s init = Some VNone) ->
  (forall acc r, step acc r =
     match hour_key_of tz r with
     | None => None
     | Some hk =>
         Some (let acc1 := if PyDict.mem hk acc then acc else PyDict.set hk init acc in
               match slot_of r with
               | Some sl => PyDict.update hk (PyDict.set sl (round_value (rec_value r))) acc1
               | None => acc1
               end)
     end) ->
  forall rs acc seen acc', cells init tz slot_of acc seen -> fold_rows step acc rs = Some acc' ->
    cells init tz slot_of acc' (seen ++ rs) /\ exists keys, map (hour_key_of tz) rs = map Some keys.
Proof.
  intros Hinit Hstep rs. induction rs as [|r rs IH]; intros acc seen acc' Hc Hf; simpl in Hf.
  - injection Hf as <-. rewrite app_nil_r. split; [exact Hc|exists []; reflexivity].
  - rewrite Hstep in Hf. destruct (hour_key_of tz r) as [hk|] eqn:Hhk; [|discriminate].
    destruct (IH _ _ _ (cells_step init tz slot_of acc seen r hk Hinit Hhk Hc) Hf) as [Hc' [keys Hkeys]].
    rewrite <- app_assoc in Hc'. split; [exact Hc'|].
    exists (hk :: keys). simpl. now rewrite Hhk, Hkeys.
Qed.

Lemma emit_records init acc keys rec :
  inv init acc keys -> NoDup (map fst init) -> ~ In "dt" (map fst init) ->
  In rec (emit acc) -> exists k d, In (k, d) acc /\ rec = ("dt", VStr k) :: d.
Proof.
  intros [Hnd [Hks Hvs]] Hndi Hdt Hin. unfold emit in Hin.
  apply in_map_iff in Hin as [[k d] [<- Hin]].
  assert (Hin' : In (k, d) acc)
    by (eapply Permutation_in; [apply StrOrderFacts.sort_perm|exact Hin]).
  exists k, d. split; [exact Hin'|]. simpl.
  apply splat_fresh; rewrite (Hvs k d Hin'); assumption.
Qed.

(** a record of the output: its cells are the [last_cell]s of its [dt] *)
Lemma reshape_cells init tz slot_of step rs acc rec k s :
  (forall s, In s (map fst init) -> PyDict.get s init = Some VNone) ->
  NoDup (map fst init) -> ~ In "dt" (map fst init) ->
  (forall keys, map (hour_key_of tz) rs = map Some keys ->
     exists acc', fold_rows step [] rs = Some acc' /\ inv init acc' ([] ++ keys)) ->
  (forall acc r, step acc r =
     match hour_key_of tz r with
     | None => None
     | Some hk =>
         Some (let acc1 := if PyDict.mem hk acc then acc else PyDict.set hk init acc in
               match slot_of r with
               | Some sl => PyDict.update hk (PyDict.set sl (round_value (rec_value r))) acc1
               | None => acc1
               end)
     end) ->
  fold_rows step [] rs = Some acc ->
  In rec (emit acc) -> record_dt rec = Some k -> In s (map fst init) ->
  PyDict.get s rec = Some (last_cell tz slot_of k s rs).
Proof.
  intros Hinit Hndi Hdt Hinv Hstep Hf Hrec Hk Hs.
  destruct (fold_cells init tz slot_of step Hinit Hstep rs [] [] acc (cells_nil init tz slot_of) Hf)
    as [[Hc _] [keys Hkeys]].
  destruct (Hinv keys Hkeys) as [acc' [Hf' Hi]]. rewrite Hf in Hf'. injection Hf' as <-.
  destruct (emit_records _ _ _ _ Hi Hndi Hdt Hrec) as [k' [d [Hin ->]]].
  unfold record_dt in Hk. simpl in Hk. injection Hk as ->.
  assert (Hne : s <> "dt") by (intros ->; contradiction).
  simpl. apply String.eqb_neq in Hne. rewrite Hne.
  apply (Hc k d); [|exact Hs]. apply NoDup_In_get; [apply (proj1 Hi)|exact Hin].
Qed.

Lemma fold_rows_stuck {S} (step : S -> FluxRecord -> option S) r :
  (forall acc, step acc r = None) ->
  forall rs s, In r rs -> fold_rows step s rs = None.
Proof.
  intros Hr rs. induction rs as [|r0 rs IH]; intros s Hin; [contradiction|].
  simpl. destruct Hin as [<-|Hin]; [now rewrite Hr|].
  destruct (step s r0); [exact (IH _ Hin)|reflexivity].
Qed.

End Facts.
End CellsFacts.

Module ReshapeUnrecognized.
Import Reshape ReshapeCells PyDictFacts ReshapeFacts CellsFacts ReshapeClaims.

Section Claims.
Context `{Lib : PyTimeLib}.

(** the row [r] writes the short key [s] of the record of local time [k] *)
Definition row_at (tz : option TZ) (slot_of : FluxRecord -> option string) (k s : string)
  (r : FluxRecord) : bool :=
  match hour_key_of tz r, slot_of r with
  | Some hk, Some s' => String.eqb hk k && String.eqb s' s
  | _, _ => false
  end.

(** the entry at key [s] of the record of local time [k] after the rows
    [seen], starting from the entry of [init] (absent keys included) *)
Definition cell_opt (init : PyDict.dict FluxValue) (tz : option TZ)
  (slot_of : FluxRecord -> option string) (k s : string) (seen : list FluxRecord)
  : option FluxValue :=
  fold_left (fun v r => if row_at tz slot_of k s r then Some (round_value (rec_value r)) else v)
    seen (PyDict.get s init).

(** the accumulator: distinct hour keys, one per local time of the rows
    seen, and at each of them a dict with distinct keys whose every entry is
    the [cell_opt] of the rows seen *)
Definition acells (init : PyDict.dict FluxValue) (tz : option TZ)
  (slot_of : FluxRecord -> option string) (acc : Acc) (seen : list FluxRecord) : Prop :=
  NoDup (map fst acc) /\
  (forall k, In k (map fst acc) <-> exists r, In r seen /\ hour_key_of tz r = Some k) /\
  (forall k d, PyDict.get k acc = Some d ->
     NoDup (map fst d) /\ forall s, PyDict.get s d = cell_opt init tz slot_of k s seen).

Lemma cell_fold_absent tz slot_of k s (l : list FluxRecord) (v0 : option FluxValue) :
  existsb (row_at tz slot_of k s) l = false ->
  fold_left (fun v r => if row_at tz slot_of k s r then Some (round_value (rec_value r)) else v) l v0 = v0.
Proof.
  revert v0. induction l as [|r l IH]; intros v0 Hl; simpl in *; [reflexivity|].
  apply orb_false_iff in Hl as [H1 H2]. rewrite H1. apply IH, H2.
Qed.

Lemma last_cell_step_row_at tz slot_of k s v r :
  (match hour_key_of tz r, slot_of r with
   | Some hk, Some s' => if String.eqb hk k && String.eqb s' s then round_value (rec_value r) else v
   | _, _ => v
   end) = if row_at tz slot_of k s r then round_value (rec_value r) else v.
Proof. unfold row_at. destruct (hour_key_of tz r), (slot_of r); reflexivity. Qed.

Lemma last_cell_fold_absent' tz slot_of k s (l : list FluxRecord) v0 :
  existsb (row_at tz slot_of k s) l = false ->
  fold_left (fun v r =>
               match hour_key_of tz r, slot_of r with
               | Some hk, Some s' => if String.eqb hk k && String.eqb s' s then round_value (rec_value r) else v
               | _, _ => v
               end) l v0 = v0.
Proof.
  revert v0. induction l as [|r l IH]; intros v0 Hl; simpl in *; [reflexivity|].
  apply orb_false_iff in Hl as [H1 H2]. rewrite last_cell_step_row_at, H1. apply IH, H2.
Qed.

(** once a row has written the entry, it is the [last_cell] *)
Lemma cell_fold_written tz slot_of k s (l : list FluxRecord) o v :
  fold_left (fun v r => if row_at tz slot_of k s r then Some (round_value (rec_value r)) else v) l o =
  if existsb (row_at tz slot_of k s) l
  then Some (fold_left (fun v r =>
               match hour_key_of tz r, slot_of r with
               | Some hk, Some s' => if String.eqb hk k && String.eqb s' s then round_value (rec_value r) else v
               | _, _ => v
               end) l v)
  else o.
Proof.
  revert o v. induction l as [|r l IH]; intros o v; simpl; [reflexivity|].
  rewrite last_cell_step_row_at.
  rewrite (IH _ (if row_at tz slot_of k s r then round_value (rec_value r) else v)).
  destruct (existsb (row_at tz slot_of k s) l) eqn:Hl; [now rewrite orb_true_r|].
  rewrite orb_false_r. destruct (row_at tz slot_of k s r); [|reflexivity].
  now rewrite last_cell_fold_absent'.
Qed.

Lemma cell_opt_snoc init tz slot_of k s seen r :
  cell_opt init tz slot_of k s (seen ++ [r]) =
  if row_at tz slot_of k s r then Some (round_value (rec_value r)) else cell_opt init tz slot_of k s seen.
Proof. unfold cell_opt. rewrite fold_left_app. reflexivity. Qed.

Lemma set_NoDup_keys {A} k (v : A) d : NoDup (map fst d) -> NoDup (map fst (PyDict.set k v d)).
Proof.
  intros Hnd. destruct (in_dec string_dec k (map fst d)) as [Hin|Hn].
  - now rewrite set_keys_present.
  - rewrite set_new, map_app by exact Hn. simpl. apply NoDup_app; auto using NoDup_cons, NoDup_nil.
    intros x Hx [<-|[]]. contradiction.
Qed.

Lemma acells_nil init tz slot_of : acells init tz slot_of [] [].
Proof.
  split; [constructor|split; [|discriminate]].
  intros k. simpl. split; [contradiction|intros [r [[] _]]].
Qed.

Lemma acells_step init tz slot_of acc seen r hk :
  NoDup (map fst init) -> hour_key_of tz r = Some hk ->
  acells init tz slot_of acc seen ->
  acells init tz slot_of
    (let acc1 := if PyDict.mem hk acc then acc else PyDict.set hk init acc in
     match slot_of r with
     | Some sl => PyDict.update hk (PyDict.set sl (round_value (rec_value r))) acc1
     | None => acc1
     end) (seen ++ [r]).
Proof.
  intros Hndi Hhk [Hnd [Hks Hvs]]. cbv zeta.
  set (acc1 := if PyDict.mem hk acc then acc else PyDict.set hk init acc).
  set (d0 := match PyDict.get hk acc with Some d0 => d0 | None => init end).
  assert (Hd0 : NoDup (map fst d0) /\ forall s, PyDict.get s d0 = cell_opt init tz slot_of hk s seen).
  { unfold d0. destruct (PyDict.get hk acc) as [d|] eqn:Hg; [exact (Hvs hk d Hg)|].
    split; [exact Hndi|]. intros s. unfold cell_opt. symmetry. apply cell_fold_absent.
    apply Bool.not_true_iff_false. intros Hex. apply existsb_exists in Hex as [r' [Hr' Hat]].
    unfold row_at in Hat. destruct (hour_key_of tz r') as [hk'|] eqn:Hr'k; [|discriminate].
    destruct (slot_of r'); [|discriminate]. apply andb_true_iff in Hat as [Hat _].
    apply String.eqb_eq in Hat. subst hk'.
    destruct (In_get hk acc (proj2 (Hks hk) (ex_intro _ r' (conj Hr' Hr'k)))) as [v [Hv _]].
    congruence. }
  assert (Hg1 : forall k, PyDict.get k acc1 = if String.eqb k hk then Some d0 else PyDict.get k acc)
    by (intros k; apply ensure_get).
  assert (Hnd1 : NoDup (map fst acc1)).
  { unfold acc1. destruct (PyDict.mem hk acc); [exact Hnd|]. now apply set_NoDup_keys. }
  assert (Hkeys : forall x, In x (map fst (match slot_of r with
                    | Some sl => PyDict.update hk (PyDict.set sl (round_value (rec_value r))) acc1
                    | None => acc1 end)) <-> In x (map fst acc1))
    by (intros x; destruct (slot_of r); [rewrite update_keys|]; reflexivity).
  split; [|split].
  - destruct (slot_of r); [rewrite update_keys|]; exact Hnd1.
  - intros k. rewrite Hkeys. unfold acc1. rewrite ensure_keys, Hks. split.
    + intros [[r' [Hr' Hr'k]]| ->].
      * exists r'. split; [apply in_or_app; left; exact Hr'|exact Hr'k].
      * exists r. split; [apply in_or_app; right; left; reflexivity|exact Hhk].
    + intros [r' [Hr' Hr'k]]. apply in_app_iff in Hr' as [Hr'|[<-|[]]].
      * left. exists r'. auto.
      * right. congruence.
  - intros k d Hg.
    assert (Hother : k <> hk -> forall s, row_at tz slot_of k s r = false).
    { intros Hne s. unfold row_at. rewrite Hhk. destruct (slot_of r); [|reflexivity].
      destruct (String.eqb_spec hk k); [congruence|reflexivity]. }
    destruct (String.eqb_spec k hk) as [->|Hne].
    + destruct (slot_of r) as [sl|] eqn:Hsl.
      * rewrite get_update_same, Hg1, String.eqb_refl in Hg. simpl in Hg. injection Hg as <-.
        split; [apply set_NoDup_keys, (proj1 Hd0)|]. intros s. rewrite cell_opt_snoc.
        unfold row_at. rewrite Hhk, Hsl, String.eqb_refl. simpl.
        destruct (String.eqb_spec sl s) as [->|Hne']; [apply get_set_same|].
        rewrite get_set_other by congruence. apply (proj2 Hd0).
      * rewrite Hg1, String.eqb_refl in Hg. injection Hg as <-.
        split; [exact (proj1 Hd0)|]. intros s. rewrite cell_opt_snoc.
        unfold row_at. rewrite Hhk, Hsl. apply (proj2 Hd0).
    + assert (Hg' : PyDict.get k acc = Some d).
      { destruct (slot_of r); [rewrite get_update_other in Hg by exact Hne|];
          rewrite Hg1 in Hg; apply String.eqb_neq in Hne; rewrite Hne in Hg; exact Hg. }
      destruct (Hvs k d Hg') as [Hndd Hd]. split; [exact Hndd|]. intros s.
      rewrite cell_opt_snoc, (Hother Hne s). apply Hd.
Qed.

Lemma fold_acells init tz slot_of (step : Acc -> FluxRecord -> option Acc) :
  NoDup (map fst init) ->
  (forall acc r, step acc r =
     match hour_key_of tz r with
     | None => None
     | Some hk =>
         Some (let acc1 := if PyDict.mem hk acc then acc else PyDict.set hk init acc in
               match slot_of r with
               | Some sl => PyDict.update hk (PyDict.set sl (round_value (rec_value r))) acc1
               | None => acc1
               end)
     end) ->
  forall rs acc seen acc', acells init tz slot_of acc seen -> fold_rows step acc rs = Some acc' ->
    acells init tz slot_of acc' (seen ++ rs).
Proof.
  intros Hndi Hstep rs. induction rs as [|r rs IH]; intros acc seen acc' Hc Hf; simpl in Hf.
  - injection Hf as <-. now rewrite app_nil_r.
  - rewrite Hstep in Hf. destruct (hour_key_of tz r) as [hk|] eqn:Hhk; [|discriminate].
    pose proof (IH _ _ _ (acells_step init tz slot_of acc seen r hk Hndi Hhk Hc) Hf) as Hc'.
    now rewrite <- app_assoc in Hc'.
Qed.

Lemma get_fold_set {A} s (d pre : PyDict.dict A) :
  NoDup (map fst d) ->
  PyDict.get s (fold_left (fun acc kv => PyDict.set (fst kv) (snd kv) acc) d pre) =
  match PyDict.get s d with Some v => Some v | None => PyDict.get s pre end.
Proof.
  revert pre. induction d as [|[k v] d IH]; intros pre Hnd; simpl; [reflexivity|].
  inversion Hnd as [|? ? Hk Hnd']; subst. rewrite IH by exact Hnd'.
  destruct (String.eqb_spec s k) as [->|Hne].
  - rewrite get_None by exact Hk. apply get_set_same.
  - destruct (PyDict.get s d); [reflexivity|]. now apply get_set_other.
Qed.

Lemma get_Some_In {A} k (d : PyDict.dict A) : In k (map fst d) -> PyDict.get k d <> None.
Proof. intros Hin. destruct (In_get k d Hin) as [v [Hv _]]. congruence. Qed.

(** two rows that differ at most in the value of a field the forecast
    does not recognize are one step of [async_get_forecast] *)
Lemma forecast_step_ignores tz acc r r' :
  rec_time r = rec_time r' -> rec_field r = rec_field r' ->
  (forecast_slot (rec_field r) <> None -> rec_value r = rec_value r') ->
  forecast_step tz acc r = forecast_step tz acc r'.
Proof.
  intros Ht Hf Hv. unfold forecast_step, hour_key_of. rewrite Ht.
  rewrite Hf in Hv |- *.
  destruct (match rec_time r' with
            | TimeDatetime d => Some (astimezone_isoformat tz d)
            | TimeString s => match fromisoformat s with
                              | Some d => Some (astimezone_isoformat tz d) | None => None end
            end); [|reflexivity].
  destruct (forecast_slot (rec_field r')) eqn:Hs; [|reflexivity].
  rewrite Hv by discriminate. reflexivity.
Qed.

Lemma forecast_fold_ignores tz rs rs' :
  Forall2 (fun r r' => rec_time r = rec_time r' /\ rec_field r = rec_field r' /\
                       (forecast_slot (rec_field r) <> None -> rec_value r = rec_value r')) rs rs' ->
  forall acc, fold_rows (forecast_step tz) acc rs = fold_rows (forecast_step tz) acc rs'.
Proof.
  induction 1 as [|r r' rs rs' [Ht [Hf Hv]] _ IH]; intros acc; simpl; [reflexivity|].
  rewrite (forecast_step_ignores tz acc r r' Ht Hf Hv).
  destruct (forecast_step tz acc r'); [apply IH|reflexivity].
Qed.

(** C2 *)
(** Given rows whose timestamps all convert, neither reshaping fails,
    whatever the fields. The forecast reshaping ignores a row of an
    unrecognized field: its records hold exactly [dt] and the seven forecast
    keys, and changing the value of such a row changes no record. The
    optimal-actions reshaping stores every row's value under the last
    [/]-separated segment of its field: its records hold only [dt], the
    seven action keys and last segments of the rows' fields, and for
    every row, some record holds, under the row's last segment, the
    rounded value of the last row of the row's local time and that segment;
    when no field ends in the segment [dt] (which would overwrite the
    timestamp), that record is the one whose [dt] is the row's local time. *)
Theorem reshape_unrecognized_fields hass_timezone result keys :
  map (hour_key_of (get_time_zone hass_timezone)) (rows result) = map Some keys ->
  (exists out, async_get_forecast_reshape hass_timezone result = Some out /\
     (forall rec, In rec out -> map fst rec = "dt" :: map fst forecast_init) /\
     forall result',
       Forall2 (fun r r' => rec_time r = rec_time r' /\ rec_field r = rec_field r' /\
                  (forecast_slot (rec_field r) <> None -> rec_value r = rec_value r'))
         (rows result) (rows result') ->
       async_get_forecast_reshape hass_timezone result' = Some out) /\
  (exists out, async_get_optimal_actions_reshape hass_timezone result = Some out /\
     (forall rec, In rec out -> forall k, In k (map fst rec) ->
       k = "dt" \/ In k (map fst actions_init) \/
       exists r, In r (rows result) /\ last_segment (rec_field r) = k) /\
     forall r hk, In r (rows result) -> hour_key_of (get_time_zone hass_timezone) r = Some hk ->
       exists rec, In rec out /\
         PyDict.get (last_segment (rec_field r)) rec =
           Some (last_cell (get_time_zone hass_timezone) actions_slot_of hk
                   (last_segment (rec_field r)) (rows result)) /\
         ((forall r', In r' (rows result) -> last_segment (rec_field r') <> "dt") ->
          record_dt rec = Some hk)).
Proof.
  intros Hk. set (tz := get_time_zone hass_timezone) in *. split.
  - destruct (forecast_fold_inv _ _ _ Hk) as [acc [Hf Hinv]].
    exists (emit acc). unfold async_get_forecast_reshape. fold tz. rewrite Hf.
    split; [reflexivity|split].
    + destruct (reshaped_of_inv _ _ _ Hinv (proj1 forecast_init_ok) (proj2 forecast_init_ok))
        as [_ [dts [_ [_ [_ Hr]]]]].
      exact Hr.
    + intros result' Hrs. rewrite <- (forecast_fold_ignores tz _ _ Hrs []), Hf. reflexivity.
  - destruct (actions_fold_total _ (rows result) keys [] [] Hk) as [acc [Hf Ha]];
      [intros k d []|].
    exists (emit acc). unfold async_get_optimal_actions_reshape. fold tz. rewrite Hf.
    split; [reflexivity|split].
    + intros rec Hrec k Hin. unfold emit in Hrec.
      apply in_map_iff in Hrec as [[hk d] [<- Hkd]].
      apply splat_keys in Hin as [->|Hin]; [auto|right].
      apply Permutation_in with (l' := acc) in Hkd; [|apply StrOrderFacts.sort_perm].
      exact (Ha hk d Hkd k Hin).
    + intros r hk Hr Hrk.
      assert (Hc : acells actions_init tz actions_slot_of acc ([] ++ rows result)).
      { apply (fold_acells actions_init tz actions_slot_of (actions_step tz)
                 (proj1 actions_init_ok) (fun acc0 r0 => eq_refl) (rows result) [] [] acc
                 (acells_nil _ _ _) Hf). }
      destruct Hc as [_ [Hks Hvs]]. simpl in Hks, Hvs.
      destruct (In_get hk acc (proj2 (Hks hk) (ex_intro _ r (conj Hr Hrk)))) as [d [Hd Hin]].
      destruct (Hvs hk d Hd) as [Hndd Hcell].
      exists (PyDict.splat "dt" (VStr hk) d). split; [|split].
      * unfold emit. apply in_map_iff. exists (hk, d). split; [reflexivity|].
        apply Permutation_in with (l := acc); [apply Permutation_sym, StrOrderFacts.sort_perm|exact Hin].
      * unfold PyDict.splat. rewrite get_fold_set by exact Hndd.
        rewrite Hcell. unfold cell_opt. rewrite cell_fold_written with (v := VNone).
        replace (existsb (row_at tz actions_slot_of hk (last_segment (rec_field r))) (rows result))
          with true; [reflexivity|].
        symmetry. apply existsb_exists. exists r. split; [exact Hr|].
        unfold row_at, actions_slot_of. rewrite Hrk, !String.eqb_refl. reflexivity.
      * intros Hnodt.
        assert (Hdt : ~ In "dt" (map fst d)).
        { intros Hi. apply (get_Some_In "dt" d Hi). rewrite Hcell. unfold cell_opt.
          apply cell_fold_absent. apply Bool.not_true_iff_false. intros Hex.
          apply existsb_exists in Hex as [r' [Hr' Hat]]. unfold row_at, actions_slot_of in Hat.
          destruct (hour_key_of tz r'); [|discriminate]. apply andb_true_iff in Hat as [_ Hat].
          apply String.eqb_eq in Hat. exact (Hnodt r' Hr' Hat). }
        rewrite splat_fresh by assumption. reflexivity.
Qed.

End Claims.

#[local] Existing Instance Inputs.utc_time_lib.

Lemma reshape_unrecognized_fields_witness :
  map (@hour_key_of Inputs.utc_time_lib (@get_time_zone Inputs.utc_time_lib "UTC"))
      (rows Inputs.unrecognized_action_rows) = map Some ["2024-06-01T12:00:00+00:00"] /\
  (exists out, async_get_forecast_reshape "UTC" Inputs.unrecognized_action_rows = Some out /\
     (forall rec, In rec out -> map fst rec = "dt" :: map fst forecast_init) /\
     forall result',
       Forall2 (fun r r' => rec_time r = rec_time r' /\ rec_field r = rec_field r' /\
                  (forecast_slot (rec_field r) <> None -> rec_value r = rec_value r'))
         (rows Inputs.unrecognized_action_rows) (rows result') ->
       async_get_forecast_reshape "UTC" result' = Some out) /\
  (exists out, async_get_optimal_actions_reshape "UTC" Inputs.unrecognized_action_rows = Some out /\
     (forall rec, In rec out -> forall k, In k (map fst rec) ->
       k = "dt" \/ In k (map fst actions_init) \/
       exists r, In r (rows Inputs.unrecognized_action_rows) /\ last_segment (rec_field r) = k) /\
     forall r hk, In r (rows Inputs.unrecognized_action_rows) ->
       @hour_key_of Inputs.utc_time_lib (@get_time_zone Inputs.utc_time_lib "UTC") r = Some hk ->
       exists rec, In rec out /\
         PyDict.get (last_segment (rec_field r)) rec =
           Some (last_cell (@get_time_zone Inputs.utc_time_lib "UTC") actions_slot_of hk
                   (last_segment (rec_field r)) (rows Inputs.unrecognized_action_rows)) /\
         ((forall r', In r' (rows Inputs.unrecognized_action_rows) -> last_segment (rec_field r') <> "dt") ->
          record_dt rec = Some hk)).
Proof.
  split; [reflexivity|].
  apply (reshape_unrecognized_fields (Lib := Inputs.utc_time_lib) "UTC" _
    ["2024-06-01T12:00:00+00:00"]). reflexivity.
Defined.

End ReshapeUnrecognized.

Module ReshapeExtras.
Import Reshape ReshapeCells PyDictFacts ReshapeFacts CellsFacts.

Section Extras.
Context `{Lib : PyTimeLib}.

(** X11: in the result of [async_get_forecast], the entry of a short key
    in the record of timestamp [k] is the rounded value of the last row
    (in query order, across tables) of that local timestamp whose field
    maps to that key, and [None] if there is none: a later row overwrites
    an earlier one. *)
Theorem forecast_cell_is_last_row (hass_timezone : string) (result : QueryResult)
    (out : list (PyDict.dict FluxValue)) (rec : PyDict.dict FluxValue) (k s : string) :
  async_get_forecast_reshape hass_timezone result = Some out ->
  In rec out -> record_dt rec = Some k -> In s (map fst forecast_init) ->
  PyDict.get s rec = Some (last_cell (get_time_zone hass_timezone) forecast_slot_of k s (rows result)).
Proof.
  unfold async_get_forecast_reshape.
  destruct (fold_rows (forecast_step (get_time_zone hass_timezone)) [] (rows result)) as [acc|] eqn:Hf;
    [|discriminate].
  intros Hout. injection Hout as <-.
  apply (reshape_cells forecast_init _ forecast_slot_of (forecast_step (get_time_zone hass_timezone))
           (rows result) acc); try assumption.
  - intros s' Hs'. simpl in Hs'. repeat (destruct Hs' as [<-|Hs']; [reflexivity|]). contradiction.
  - repeat constructor; simpl; intuition discriminate.
  - simpl. intuition discriminate.
  - intros keys Hkeys.
    exact (fold_rows_inv forecast_init _ _ (fun _ => True)
             (fun acc seen r hk Hr _ Hinv => forecast_step_inv _ acc seen r hk Hr Hinv)
             (rows result) keys [] [] Hkeys (fun _ _ => I) (inv_nil forecast_init)).
  - intros acc0 r. unfold forecast_step, forecast_slot_of.
    destruct (hour_key_of _ r); [destruct (forecast_slot (rec_field r))|]; reflexivity.
Qed.

(** X12: in the result of [async_get_optimal_actions], when the rows'
    fields are those the query asks for, the entry of a short key in the
    record of timestamp [k] is the rounded value of the last row (in query
    order) of that local timestamp whose field ends in that key, and
    [None] if there is none. *)
Theorem actions_cell_is_last_row (hass_timezone : string) (result : QueryResult)
    (out : list (PyDict.dict FluxValue)) (rec : PyDict.dict FluxValue) (k s : string) :
  (forall r, In r (rows result) -> In (rec_field r) actions_fields) ->
  async_get_optimal_actions_reshape hass_timezone result = Some out ->
  In rec out -> record_dt rec = Some k -> In s (map fst actions_init) ->
  PyDict.get s rec = Some (last_cell (get_time_zone hass_timezone) actions_slot_of k s (rows result)).
Proof.
  intros Hfields. unfold async_get_optimal_actions_reshape.
  destruct (fold_rows (actions_step (get_time_zone hass_timezone)) [] (rows result)) as [acc|] eqn:Hf;
    [|discriminate].
  intros Hout. injection Hout as <-.
  apply (reshape_cells actions_init _ actions_slot_of (actions_step (get_time_zone hass_timezone))
           (rows result) acc); try assumption.
  - intros s' Hs'. simpl in Hs'. repeat (destruct Hs' as [<-|Hs']; [reflexivity|]). contradiction.
  - repeat constructor; simpl; intuition discriminate.
  - simpl. intuition discriminate.
  - intros keys Hkeys.
    exact (fold_rows_inv actions_init _ _ (fun r => In (rec_field r) actions_fields)
             (fun acc seen r hk Hr HP Hinv => actions_step_inv _ acc seen r hk Hr HP Hinv)
             (rows result) keys [] [] Hkeys Hfields (inv_nil actions_init)).
  - intros acc0 r. unfold actions_step, actions_slot_of. reflexivity.
Qed.

End Extras.

Section Api.
Context {Lib : PyTimeLib} {Cl : @Api.InfluxClient Lib}.

(** X10: one row whose time is a string that [datetime.fromisoformat]
    rejects makes [async_get_forecast] and [async_get_optimal_actions]
    raise a plain [ValueError], whatever the other rows: no record is
    returned, nothing is logged, and the error is neither of the
    integration's own exceptions. *)
Theorem bad_timestamp_raises_value_error (bucket : list Z) (hass_timezone : string)
    (result : QueryResult) (r : FluxRecord) (s : string) :
  In r (rows result) -> rec_time r = TimeString s -> fromisoformat s = None ->
  (Api.query (Api.FORECAST_QUERY bucket) = inr result ->
     Api.async_get_forecast bucket hass_timezone = ([], inl Api.ValueError)) /\
  (Api.query (Api.OPTIMAL_ACTIONS_QUERY bucket) = inr result ->
     Api.async_get_optimal_actions bucket hass_timezone = ([], inl Api.ValueError)).
Proof.
  intros Hin Ht Hs.
  assert (Hk : forall tz, hour_key_of tz r = None) by (intros tz; unfold hour_key_of; now rewrite Ht, Hs).
  set (tz := get_time_zone hass_timezone).
  assert (Hf : forall acc, forecast_step tz acc r = None) by (intros acc; unfold forecast_step; now rewrite Hk).
  assert (Ha : forall acc, actions_step tz acc r = None) by (intros acc; unfold actions_step; now rewrite Hk).
  split; intros Hq.
  - unfold Api.async_get_forecast, async_get_forecast_reshape. rewrite Hq. fold tz.
    rewrite (fold_rows_stuck _ r Hf _ _ Hin). reflexivity.
  - unfold Api.async_get_optimal_actions, async_get_optimal_actions_reshape. rewrite Hq. fold tz.
    rewrite (fold_rows_stuck _ r Ha _ _ Hin). reflexivity.
Qed.

End Api.

Lemma bad_timestamp_raises_value_error_witness :
  @Api.async_get_forecast Inputs.strict_time_lib (Inputs.answering_client _ Inputs.bad_time_rows)
    [115; 111; 108; 97; 114]%Z "UTC" = ([], inl Api.ValueError) /\
  @Api.async_get_optimal_actions Inputs.strict_time_lib (Inputs.answering_client _ Inputs.bad_time_rows)
    [115; 111; 108; 97; 114]%Z "UTC" = ([], inl Api.ValueError).
Proof.
  destruct (@bad_timestamp_raises_value_error Inputs.strict_time_lib
              (Inputs.answering_client _ Inputs.bad_time_rows) [115; 111; 108; 97; 114]%Z "UTC"
              Inputs.bad_time_rows
              (@mkRecord Inputs.strict_time_lib (@TimeString Inputs.strict_time_lib "not-a-date")
                 "cs/schedule/controller" (@VInt Inputs.strict_time_lib 2))
              "not-a-date") as [H1 H2].
  - simpl. right. left. reflexivity.
  - reflexivity.
  - reflexivity.
  - split; [apply H1|apply H2]; reflexivity.
Defined.

Lemma forecast_cell_is_last_row_witness :
  PyDict.get "ctr"
    (nth 0 (match @async_get_forecast_reshape Inputs.utc_time_lib "UTC" Inputs.repeated_forecast_rows with
            | Some out => out | None => [] end) [])
  = Some (@last_cell Inputs.utc_time_lib (Some tt) (@forecast_slot_of Inputs.utc_time_lib)
            "2024-06-01T12:00:00+00:00" "ctr" (rows Inputs.repeated_forecast_rows)).
Proof.
  apply (@forecast_cell_is_last_row Inputs.utc_time_lib "UTC" Inputs.repeated_forecast_rows
           (match @async_get_forecast_reshape Inputs.utc_time_lib "UTC" Inputs.repeated_forecast_rows with
            | Some out => out | None => [] end)); vm_compute.
  - reflexivity.
  - left. reflexivity.
  - reflexivity.
  - left. reflexivity.
Defined.

Lemma actions_cell_is_last_row_witness :
  PyDict.get "bc"
    (nth 1 (match @async_get_optimal_actions_reshape Inputs.utc_time_lib "UTC" Inputs.action_rows with
            | Some out => out | None => [] end) [])
  = Some (@last_cell Inputs.utc_time_lib (Some tt) (@actions_slot_of Inputs.utc_time_lib)
            "2024-06-01T13:00:00+00:00" "bc" (rows Inputs.action_rows)).
Proof.
  apply (@actions_cell_is_last_row Inputs.utc_time_lib "UTC" Inputs.action_rows
           (match @async_get_optimal_actions_reshape Inputs.utc_time_lib "UTC" Inputs.action_rows with
            | Some out => out | None => [] end)).
  - intros r Hr. vm_compute in Hr.
    repeat (destruct Hr as [<-|Hr]; [vm_compute; tauto|]). contradiction.
  - vm_compute. reflexivity.
  - vm_compute. right. left. reflexivity.
  - vm_compute. reflexivity.
  - vm_compute. left. reflexivity.
Defined.

End ReshapeExtras.

(** * [SolarCubeApi._api_exception_details] *)

Module DetailsExtras.
Import FluxLiteral Details.

Section Extras.
Context `{DetailsLib}.

(** X9: the body [_api_exception_details] puts in the log line is
    bounded: a [bytes] or [str] body becomes a string of at most 801
    characters (800 and the ellipsis), and a [str] body of at most 800
    characters is kept as it is. *)
Theorem exception_body_bounded (body : Body) :
  (forall s, bounded_body body = BodyStr s -> (length s <= 801)%nat) /\
  (forall s, body = BodyStr s -> (length s <= 800)%nat -> bounded_body body = body).
Proof.
  assert (H800 : forall l : pystr, (length (firstn 800 l ++ [8230%Z]) <= 801)%nat).
  { intros l. rewrite length_app, length_firstn. cbn [length].
    pose proof (Nat.le_min_l 800 (length l)). lia. }
  unfold bounded_body. destruct body as [|b|s|r]; cbn iota beta.
  - split; [discriminate|discriminate].
  - split; [|discriminate].
    destruct (800 <? Z.of_nat (length (decode_utf8_replace b)))%Z eqn:E; intros s Hs;
      injection Hs as <-.
    + exact (H800 _).
    + apply Z.ltb_ge in E. lia.
  - split.
    + destruct (800 <? Z.of_nat (length s))%Z eqn:E; intros s' Hs'; injection Hs' as <-.
      * exact (H800 _).
      * apply Z.ltb_ge in E. lia.
    + intros s' Hs' Hl. injection Hs' as <-. destruct (800 <? Z.of_nat (length s))%Z eqn:E; [|reflexivity].
      apply Z.ltb_lt in E. lia.
  - split; discriminate.
Qed.

End Extras.

#[local] Existing Instance Inputs.replacing_details.

Lemma exception_body_bounded_witness :
  (length (firstn 800 (repeat 65533%Z 900) ++ [8230%Z]) <= 801)%nat /\
  bounded_body (BodyStr [104; 105]%Z) = BodyStr [104; 105]%Z.
Proof.
  split.
  - apply (proj1 (exception_body_bounded (BodyBytes (repeat Byte.x00 900)))). vm_compute. reflexivity.
  - apply (proj2 (exception_body_bounded (BodyStr [104; 105]%Z)) [104; 105]%Z); [reflexivity|simpl; lia].
Defined.

End DetailsExtras.

(** * The energy store and [automations.yaml] across runs *)

Module ProvisionExtras.
Import Py Provision PyDictFacts PyFacts ProvisionFacts.

Section Extras.
Context `{PyParsers} `{PyRepr}.

Lemma str_field_nonempty key a s : str_field key a = Some s -> s <> EmptyString.
Proof.
  unfold str_field. destruct (PyDict.get key a) as [[]|]; try discriminate.
  destruct (String.eqb (strip s0) EmptyString) eqn:E; [discriminate|].
  intros [= <-] Hs. rewrite Hs in E. discriminate.
Qed.

Lemma or_empty_str_field key a s : str_field key a = Some s -> or_empty_str key a = s.
Proof.
  unfold str_field, or_empty_str. destruct (PyDict.get key a) as [[]|]; try discriminate.
  destruct (String.eqb (strip s0) EmptyString) eqn:E; [discriminate|]. intros [= <-].
  simpl. destruct (String.eqb s0 EmptyString) eqn:E'; [|reflexivity].
  apply String.eqb_eq in E'. subst. vm_compute in E. discriminate.
Qed.

Lemma dicts_of_map l : dicts_of (map PDict l) = l.
Proof. induction l as [|d l IH]; simpl; [reflexivity|]. now rewrite IH. Qed.

Lemma filter_none {A} (f : A -> bool) l : (forall a, In a l -> f a = false) -> filter f l = [].
Proof.
  induction l as [|a l IH]; simpl; intros Hf; [reflexivity|].
  rewrite (Hf a (or_introl eq_refl)). apply IH. auto.
Qed.

(** a shipped automation with a string [id], or with no [id] and a string
    [alias], is present once the merge has run *)
Definition identified (a : list (string * PyObj)) : Prop :=
  (exists s, str_field "id" a = Some s) \/
  (or_empty_str "id" a = EmptyString /\ exists s, str_field "alias" a = Some s).

Lemma present_after_merge existing shipped a :
  identified a -> In a shipped ->
  let merged := existing ++ filter (fun a => negb (already_present (existing_ids existing)
                                                    (existing_aliases existing) a)) shipped in
  already_present (existing_ids merged) (existing_aliases merged) a = true.
Proof.
  intros Hid Hin merged. apply already_present_iff.
  assert (Hin_m : already_present (existing_ids existing) (existing_aliases existing) a = false ->
                  In a merged).
  { intros Hp. apply in_or_app. right. apply filter_In. split; [exact Hin|]. now rewrite Hp. }
  destruct Hid as [[s Hs]|[Hid [s Hs]]].
  - pose proof (or_empty_str_field _ _ _ Hs) as Ho. pose proof (str_field_nonempty _ _ _ Hs) as Hne.
    left. rewrite Ho. split; [exact Hne|].
    destruct (already_present (existing_ids existing) (existing_aliases existing) a) eqn:Hp.
    + apply already_present_iff in Hp as [[_ [e [He Hes]]]|[Hid' _]]; [|congruence].
      exists e. rewrite Ho in Hes. split; [apply in_or_app; left; exact He|exact Hes].
    + exists a. split; [exact (Hin_m eq_refl)|exact Hs].
  - pose proof (or_empty_str_field _ _ _ Hs) as Ho. pose proof (str_field_nonempty _ _ _ Hs) as Hne.
    right. rewrite Ho. split; [exact Hid|split; [exact Hne|]].
    destruct (already_present (existing_ids existing) (existing_aliases existing) a) eqn:Hp.
    + apply already_present_iff in Hp as [[Hid' _]|[_ [_ [e [s' [He [Hs' Hl]]]]]]]; [congruence|].
      exists e, s'. rewrite Ho in Hl. split; [apply in_or_app; left; exact He|split; assumption].
    + exists a, s. split; [exact (Hin_m eq_refl)|split; [exact Hs|reflexivity]].
Qed.

Lemma read_store_text t raw v : read_store (FText t) = ReadOk raw v -> raw = Some t.
Proof.
  unfold read_store. destruct (blank t); [intros [= <- _]; reflexivity|].
  destruct (json_loads t); [intros [= <- _]; reflexivity|discriminate].
Qed.

(** X13: with the storage directory usable and the store writable, a
    missing energy store is always written by [_read_modify_write]: version
    1, minor version 2, key [energy] and the merged data; no backup is
    made. *)
Theorem energy_missing_store_created (template_data : list (string * PyObj)) (fs : FS) :
  storage_dir_ok fs = true -> energy_store fs = FMissing -> energy_writable fs = true ->
  _read_modify_write template_data fs =
    (inr true, set_energy (FText (TDumped (PDict
        [("version", PInt 1); ("minor_version", PInt 2); ("key", PStr "energy");
         ("data", PDict (merge_energy_data template_data []))])))
      (energy_backups fs) fs).
Proof.
  intros Hd Hs Hw. unfold _read_modify_write. rewrite Hd, Hs, Hw. cbn [negb read_store exists_].
  rewrite andb_false_r. reflexivity.
Qed.

(** X14: when the write of the energy store fails, [_read_modify_write]
    does not report a change and the store is left as it was. *)
Theorem energy_failed_write_keeps_store (template_data : list (string * PyObj)) (fs : FS) :
  energy_writable fs = false ->
  fst (_read_modify_write template_data fs) <> inr true /\
  energy_store (snd (_read_modify_write template_data fs)) = energy_store fs.
Proof.
  intros Hw. unfold _read_modify_write.
  destruct (negb (storage_dir_ok fs)); [split; [discriminate|reflexivity]|].
  destruct (read_store (energy_store fs)) as [raw existing0| |e]; [|split; [discriminate|reflexivity]..].
  cbv zeta.
  destruct (_ && _); [split; [discriminate|reflexivity]|].
  rewrite Hw. split; [discriminate|reflexivity].
Qed.

(** the same files, with the backup write succeeding or failing as [b] says *)
Definition with_backup_writable (b : bool) (fs : FS) : FS :=
  {| automations_yaml := automations_yaml fs;
     shipped_automations := shipped_automations fs;
     automations_writable := automations_writable fs;
     energy_store := energy_store fs;
     energy_template := energy_template fs;
     storage_dir_ok := storage_dir_ok fs;
     energy_writable := energy_writable fs;
     energy_backup_writable := b;
     energy_backups := energy_backups fs |}.

(** the outcome and the store after [_read_modify_write] do not depend on
    whether the backup write succeeds *)
Lemma read_modify_write_backup_independent td fs b :
  fst (_read_modify_write td (with_backup_writable b fs)) = fst (_read_modify_write td fs) /\
  energy_store (snd (_read_modify_write td (with_backup_writable b fs))) =
  energy_store (snd (_read_modify_write td fs)).
Proof.
  unfold _read_modify_write, with_backup_writable.
  cbn [storage_dir_ok energy_store energy_writable energy_backups energy_backup_writable].
  destruct (negb (storage_dir_ok fs)); [split; reflexivity|].
  destruct (read_store (energy_store fs)) as [raw existing0| |e]; [|split; reflexivity..].
  cbv zeta. destruct (_ && _); [split; reflexivity|].
  destruct (energy_writable fs); split; reflexivity.
Qed.

(** X15: when [_read_modify_write] overwrites a store whose text is not
    empty, that text is kept as a new backup if the backup write succeeds,
    and no backup is added if it fails; either way the store is written
    and [True] returned: the failure of the backup write is swallowed. *)
Theorem energy_overwrite_backs_up (template_data : list (string * PyObj)) (fs fs' : FS) (t : Text) :
  energy_store fs = FText t -> nonempty t = true ->
  _read_modify_write template_data fs = (inr true, fs') ->
  energy_backups fs' = (if energy_backup_writable fs then t :: energy_backups fs else energy_backups fs) /\
  forall b, fst (_read_modify_write template_data (with_backup_writable b fs)) = inr true /\
            energy_store (snd (_read_modify_write template_data (with_backup_writable b fs))) =
            energy_store fs'.
Proof.
  intros Hs Hn Hw. split.
  - revert Hw. unfold _read_modify_write.
    destruct (negb (storage_dir_ok fs)); [discriminate|].
    destruct (read_store (energy_store fs)) as [raw existing0| |e] eqn:Hr; try discriminate.
    rewrite Hs in Hr. rewrite (read_store_text _ _ _ Hr). cbv zeta.
    destruct (_ && _); [discriminate|].
    rewrite Hn. destruct (energy_writable fs); [|discriminate].
    intros [= <-]. reflexivity.
  - intros b. destruct (read_modify_write_backup_independent template_data fs b) as [H1 H2].
    rewrite H1, H2, Hw. split; reflexivity.
Qed.

(** X16: when every shipped automation has a non-blank string [id], or
    no [id] and a non-blank string [alias], [_read_merge_write] is
    idempotent on the file: after a run that wrote [automations.yaml], a
    second run (after a restart, when the in-memory flag is gone) appends
    nothing and does not write. *)
Theorem automations_merge_idempotent (shipped : list (list (string * PyObj))) (fs fs' : FS) :
  (forall a, In a shipped -> identified a) ->
  _read_merge_write shipped fs = (inr true, fs') ->
  _read_merge_write shipped fs' = (inr false, fs').
Proof.
  intros HP Hr.
  destruct (if exists_ (automations_yaml fs) then _load_yaml_list (automations_yaml fs) else inr [])
    as [e|existing] eqn:Hl.
  - unfold _read_merge_write in Hr. rewrite Hl in Hr. discriminate.
  - rewrite (read_merge_write_spec shipped fs existing Hl) in Hr.
    destruct (filter (fun a => negb (already_present (existing_ids existing) (existing_aliases existing) a))
                shipped) as [|a0 rest] eqn:Hf; [discriminate|].
    destruct (automations_writable fs); [|discriminate]. injection Hr as <-.
    rewrite (read_merge_write_spec shipped _ (existing ++ a0 :: rest)).
    + rewrite filter_none; [reflexivity|].
      intros a Ha. pose proof (present_after_merge existing shipped a (HP a Ha) Ha) as Hp.
      cbv zeta in Hp. rewrite Hf in Hp. now rewrite Hp.
    + cbn [automations_yaml set_automations_yaml exists_ _load_yaml_list blank yaml_safe_load].
      now rewrite dicts_of_map.
Qed.

End Extras.

#[local] Existing Instance Inputs.rejecting_parsers.
#[local] Existing Instance Inputs.plain_repr.

Lemma energy_missing_store_created_witness :
  _read_modify_write Inputs.spec_template_data Inputs.empty_fs =
    (inr true, set_energy (FText (TDumped (PDict
        [("version", PInt 1); ("minor_version", PInt 2); ("key", PStr "energy");
         ("data", PDict (merge_energy_data Inputs.spec_template_data []))])))
      [] Inputs.empty_fs).
Proof. apply (energy_missing_store_created Inputs.spec_template_data Inputs.empty_fs); reflexivity. Defined.

Lemma energy_failed_write_keeps_store_witness :
  fst (_read_modify_write Inputs.spec_template_data
         Inputs.readonly_energy_fs) <> inr true /\
  energy_store (snd (_read_modify_write Inputs.spec_template_data
         Inputs.readonly_energy_fs)) = FMissing.
Proof.
  apply (energy_failed_write_keeps_store Inputs.spec_template_data
           Inputs.readonly_energy_fs).
  reflexivity.
Defined.

Lemma energy_overwrite_backs_up_witness :
  energy_backups (snd (_read_modify_write Inputs.spec_template_data
    (with_backup_writable false
      (Inputs.with_energy_store (FText (TDumped Inputs.spec_energy_store)) Inputs.empty_fs))))
  = [] /\
  fst (_read_modify_write Inputs.spec_template_data
    (with_backup_writable true
      (with_backup_writable false
        (Inputs.with_energy_store (FText (TDumped Inputs.spec_energy_store)) Inputs.empty_fs)))) = inr true.
Proof.
  destruct (energy_overwrite_backs_up Inputs.spec_template_data
           (with_backup_writable false
             (Inputs.with_energy_store (FText (TDumped Inputs.spec_energy_store)) Inputs.empty_fs))
           (snd (_read_modify_write Inputs.spec_template_data
             (with_backup_writable false
               (Inputs.with_energy_store (FText (TDumped Inputs.spec_energy_store)) Inputs.empty_fs))))
           (TDumped Inputs.spec_energy_store)) as [H1 H2]; [reflexivity|reflexivity|vm_compute; reflexivity|].
  split; [exact H1|exact (proj1 (H2 true))].
Defined.

Lemma automations_merge_idempotent_witness :
  _read_merge_write [Inputs.automation_a1_foo]
    (snd (_read_merge_write [Inputs.automation_a1_foo] Inputs.empty_fs))
  = (inr false, snd (_read_merge_write [Inputs.automation_a1_foo] Inputs.empty_fs)).
Proof.
  apply (automations_merge_idempotent [Inputs.automation_a1_foo] Inputs.empty_fs).
  - intros a [<-|[]]. left. exists "a1". reflexivity.
  - vm_compute. reflexivity.
Defined.

End ProvisionExtras.

(** * [SolarCubeApi.async_validate] *)

Module ApiExtras.
Import FluxLiteral TokenFacts.

Section Ops.
Context {Lib : PyTimeLib} {Cl : @Api.InfluxClient Lib}.

(** X18: [async_validate] with a bucket made only of whitespace takes the
    query branch ([if bucket:] holds for it) but queries the bucket named
    by the empty string, as [_bucket_literal] strips the text; the buckets
    are not listed. *)
Theorem validate_blank_bucket_queries_empty_name (b : pystr) :
  b <> [] -> Forall (fun c => py_isspace c = true) b ->
  Api.async_validate (Some b) =
    match Api.query (pystr_of_string "from(bucket: " ++ [34; 34]%Z
                     ++ pystr_of_string ") |> range(start: -1m) |> limit(n: 1)") with
    | inl err => Api.on_api_exception "validate" None err
    | inr _ => ([], inr tt)
    end.
Proof.
  intros Hne Hsp. destruct b as [|c b']; [contradiction|].
  assert (Hb : _bucket_literal (@Some pystr (c :: b')) = [34; 34]%Z).
  { unfold _bucket_literal, strip. cbn iota.
    pose proof (lstrip_spaces_app (c :: b') [] Hsp) as H. rewrite app_nil_r in H.
    rewrite H. reflexivity. }
  unfold Api.async_validate. cbn iota beta. unfold Api.validate_flux. rewrite Hb. reflexivity.
Qed.

End Ops.

Lemma validate_blank_bucket_queries_empty_name_witness :
  @Api.async_validate Inputs.utc_time_lib (Inputs.failing_client Inputs.bad_request) (Some [32; 9]%Z)
  = ([Api.LogError "validate" "(400) Bad Request" None],
     inl (Api.SolarCubeApiRequestError "(400) Bad Request")).
Proof.
  etransitivity.
  - apply (@validate_blank_bucket_queries_empty_name Inputs.utc_time_lib
             (Inputs.failing_client Inputs.bad_request) [32; 9]%Z); [discriminate|repeat constructor].
  - reflexivity.
Defined.

End ApiExtras.
